(** * Guarda firewall: a WebAuthn step-up reverse proxy

    A shallow embedding of the firewall's handlers (the two generations of
    [main.go] and the [webauthn_firewall] package) together with the
    properties its design document states about them.

    Layout: the Go data model ([error], body readers, requests, response
    writers, [strconv.ParseInt]), the external collaborators as a class,
    the handler monad, the handlers themselves, a reference world in which
    every collaborator is a small executable program, and then the
    theorems. *)

From Stdlib Require Import ZArith String Ascii List Lia.
From Stdlib Require Import Strings.Byte DecimalString DecimalZ.
From stdpp Require Import base option gmap strings list.

#[local] Set Warnings "-register-all".
#[local] Open Scope string_scope.
#[local] Open Scope Z_scope.

(** ** Go values *)

(** What [encoding/json] decodes into an [interface{}] when the decoder
    was told [UseNumber]: a number stays the text of its token
    ([json.Number] is a string type), an object is a [map[string]interface{}]. *)
Inductive value :=
| Nil
| Bool (b : bool)
| Number (lit : string)
| Str (s : string)
| Array (l : list value)
| Object (m : gmap string value).

(** A value of a [protocol.AuthenticationExtensions] entry, which is an
    [interface{}]. The firewall itself only ever stores strings; a client
    may echo anything a JSON document holds. A number is kept as the text
    of its token: the firewall never expects one. *)
Inductive ExtValue :=
| ExtNil
| ExtBool (b : bool)
| ExtString (s : string)
| ExtNumber (lit : string)
| ExtArray (l : list ExtValue)
| ExtObject (m : gmap string ExtValue).

#[global] Instance ExtValue_eq_dec : EqDecision ExtValue.
Proof.
  refine (fix go (x y : ExtValue) {struct x} : Decision (x = y) :=
    let _ : EqDecision ExtValue := go in
    match x, y with
    | ExtNil, ExtNil => left _
    | ExtBool a, ExtBool b => cast_if (decide (a = b))
    | ExtString a, ExtString b => cast_if (decide (a = b))
    | ExtNumber a, ExtNumber b => cast_if (decide (a = b))
    | ExtArray a, ExtArray b => cast_if (decide (a = b))
    | ExtObject a, ExtObject b => cast_if (decide (a = b))
    | _, _ => right _
    end); congruence.
Defined.

(** [protocol.AuthenticationExtensions] is [map[string]interface{}]; [None]
    is the nil map, which Go tells apart from an empty one. *)
Abbreviation AuthenticationExtensions := (option (gmap string ExtValue)).

(** [reflect.DeepEqual] on two extension maps: both nil, or both non-nil
    with the same keys bound to equal values. *)
Definition DeepEqual (a b : AuthenticationExtensions) : bool := bool_decide (a = b).

(** An operand of a formatting call, kept as the value handed to [fmt]. *)
Inductive operand :=
| OpString (s : string)
| OpStrings (l : list string)
| OpExtensions (m : AuthenticationExtensions)
| OpValue (v : value).

(** Go's [error] interface. [Errorf] keeps the format and its operands as
    they were passed; [NumError] is [*strconv.NumError]. *)
Inductive error :=
| errorString (msg : string)
| Errorf (format : string) (operands : list operand)
| NumError (Func Num : string) (Err : error).

Definition ErrSyntax : error := errorString "invalid syntax".
Definition ErrRange : error := errorString "value out of range".

(** A Go string handed to a writer: a literal, or [err.Error()]. *)
Inductive text :=
| Lit (s : string)
| ErrorOf (e : error).

(** [(T, error)] results: [inl] is the value with a nil error. *)
Abbreviation result T := (T + error)%type.

Definition isOk {T} (res : result T) : bool :=
  match res with
  | inl _ => true
  | inr _ => false
  end.

Abbreviation int64 := Z.

(** ** strconv.ParseInt(s, 10, 64) *)

Definition maxUint64 : Z := 2 ^ 64 - 1.

Definition syntaxError (fn str : string) : error := NumError fn str ErrSyntax.
Definition rangeError (fn str : string) : error := NumError fn str ErrRange.

(** The loop of [ParseUint] for base 10 and bit size 64; [s0] is the whole
    input, kept for the error value. *)
Fixpoint ParseUint_loop (s0 : string) (s : string) (n : Z) : Z * option error :=
  match s with
  | EmptyString => (n, None)
  | String c rest =>
      let code := Z.of_N (N_of_ascii c) in
      if (48 <=? code) && (code <=? 57) then
        let d := code - 48 in
        let cutoff := maxUint64 / 10 + 1 in
        if n >=? cutoff then (maxUint64, Some (rangeError "ParseUint" s0))
        else
          let n' := n * 10 in
          let n1 := (n' + d) mod 2 ^ 64 in
          if (n1 <? n') || (n1 >? maxUint64)
          then (maxUint64, Some (rangeError "ParseUint" s0))
          else ParseUint_loop s0 rest n1
      else (0, Some (syntaxError "ParseUint" s0))
  end.

Definition ParseUint (s : string) : Z * option error :=
  match s with
  | EmptyString => (0, Some (syntaxError "ParseUint" s))
  | _ => ParseUint_loop s s 0
  end.

Definition isErrRange (e : error) : bool :=
  match e with
  | NumError _ _ (errorString "value out of range") => true
  | _ => false
  end.

Definition ParseInt (s : string) : int64 * option error :=
  match s with
  | EmptyString => (0, Some (syntaxError "ParseInt" s))
  | String c rest =>
      let s0 := s in
      let '(neg, s1) :=
        if Ascii.eqb c "+" then (false, rest)
        else if Ascii.eqb c "-" then (true, rest)
        else (false, s) in
      let '(un, err) := ParseUint s1 in
      match err with
      | Some e =>
          if negb (isErrRange e) then (0, Some (syntaxError "ParseInt" s0))
          else if neg then (- 2 ^ 63, Some (rangeError "ParseInt" s0))
          else (2 ^ 63 - 1, Some (rangeError "ParseInt" s0))
      | None =>
          let cutoff := 2 ^ 63 in
          if negb neg && (un >=? cutoff) then (cutoff - 1, Some (rangeError "ParseInt" s0))
          else if neg && (un >? cutoff) then (- cutoff, Some (rangeError "ParseInt" s0))
          else (if neg then - un else un, None)
      end
  end.

(** ** Body streams *)

(** An [io.Reader] over a body: the bytes not yet read, and the error the
    stream ends with instead of EOF, if any. *)
Record Reader := mkReader { pending : list byte; failure : option error }.

(** [ioutil.NopCloser(bytes.NewReader(data))] *)
Definition NewReader (data : list byte) : Reader :=
  {| pending := data; failure := None |}.

(** [ioutil.ReadAll]: everything that was pending, the stream's error, and
    the drained reader. *)
Definition ReadAll (b : Reader) : (list byte * option error) * Reader :=
  ((pending b, failure b), {| pending := []; failure := failure b |}).

(** ** Requests and response writers *)

(** [url.Values] *)
Abbreviation Values := (gmap string (list string)).

Record Request := mkRequest {
  Method : string;
  Host : string;
  Header : gmap string string;
  Cookies : list (string * string);
  Body : Reader;
  Form : option Values;            (* nil until the form has been parsed *)
  Vars : gmap string string        (* mux.Vars(r) *)
}.

Definition set_Body (b : Reader) (r : Request) : Request :=
  {| Method := Method r; Host := Host r; Header := Header r; Cookies := Cookies r;
     Body := b; Form := Form r; Vars := Vars r |}.

Definition set_Form (f : option Values) (r : Request) : Request :=
  {| Method := Method r; Host := Host r; Header := Header r; Cookies := Cookies r;
     Body := Body r; Form := f; Vars := Vars r |}.

(** [mux.Vars(r)[name]]: a missing variable reads as the empty string. *)
Definition muxVar (r : Request) (name : string) : string :=
  default "" (Vars r !! name).

(** What a handler has written: bytes, or a line of text. *)
Inductive chunk :=
| Bytes (b : list byte)
| Line (t : text).

Record ResponseWriter := mkResponseWriter {
  wheader : gmap string string;
  status : option Z;               (* None until the header is written *)
  written : list chunk
}.

Definition newResponseWriter : ResponseWriter :=
  {| wheader := ∅; status := None; written := [] |}.

Definition Header_Set (k v : string) (w : ResponseWriter) : ResponseWriter :=
  {| wheader := <[k := v]> (wheader w); status := status w; written := written w |}.

(** [w.WriteHeader]: only the first call counts. *)
Definition WriteHeader (code : Z) (w : ResponseWriter) : ResponseWriter :=
  match status w with
  | Some _ => w
  | None => {| wheader := wheader w; status := Some code; written := written w |}
  end.

(** [w.Write]: writes the header with 200 first if none was written. The
    fields stay those the handler set: what the server adds when it sends
    the header, a detected Content-Type where none was set, is not stored
    in [w.Header()]; [contentTypeSent] below gives it. *)
Definition Write (c : chunk) (w : ResponseWriter) : ResponseWriter :=
  let w := WriteHeader 200 w in
  {| wheader := wheader w; status := status w; written := written w ++ [c] |}.

Definition StatusOK : Z := 200.
Definition StatusBadRequest : Z := 400.
Definition StatusForbidden : Z := 403.
Definition StatusInternalServerError : Z := 500.

(** [http.Error] *)
Definition http_Error (msg : text) (code : Z) (w : ResponseWriter) : ResponseWriter :=
  let w := Header_Set "Content-Type" "text/plain; charset=utf-8" w in
  let w := Header_Set "X-Content-Type-Options" "nosniff" w in
  let w := WriteHeader code w in
  Write (Line msg) w.

(** ** The credential store's vocabulary (package [db]) *)

Inductive WebauthnQuery :=
| QueryByUsername (username : string)
| QueryByUserID (userID : int64).

Record WebauthnUser (Credential : Type) := mkWebauthnUser {
  wuserID : int64;
  wuserName : string;
  wuserCredentials : list Credential
}.
Arguments mkWebauthnUser {Credential}.
Arguments wuserID {Credential}.
Arguments wuserName {Credential}.
Arguments wuserCredentials {Credential}.

Definition NewWebauthnUser {Credential} (userID : int64) (username : string)
    (credentials : list Credential) : WebauthnUser Credential :=
  mkWebauthnUser userID username credentials.

Definition WebAuthnName {Credential} (u : WebauthnUser Credential) : string := wuserName u.

(** [main.go]'s [SSHKey], filled in by the backend. *)
Record SSHKey := mkSSHKey { Name : string; Content : string }.

(** ** External collaborators

    Everything the firewall calls but does not own: the standard library's
    form parser, JSON codec and reverse proxy, the backend, the credential
    store, the session store and the WebAuthn ceremony library. The
    handlers are written against this interface; the theorems hold for
    every implementation of it. *)
Class Externals := {
  Credential : Type;
  SessionData : Type;
  CreationOptions : Type;       (* BeginRegistration's options.Response *)
  RequestOptions : Type;        (* BeginLogin's options.Response, its Extensions apart *)
  DB : Type;                    (* the contents of db.WebauthnStore *)

  (* net/http: what parsing the form yields, and what it leaves of the body *)
  ParseMultipartForm : Request -> Values * Reader;
  (* httputil.ReverseProxy: the answer of the backend at a target to the
     request it is handed *)
  RoundTrip : string -> Request -> Z * list byte;
  (* net/url *)
  url_Parse : string -> result string;

  (* tool.PerformHTTP_RequestJSON against the backend *)
  session2user : string -> list (string * string) -> result (bool * int64);
  itemFromItemID_ssh_key : string -> int64 -> result SSHKey;

  (* db.WebauthnStore *)
  IsUserEnabled : DB -> WebauthnQuery -> bool;
  GetWebauthnUser : DB -> WebauthnQuery -> result (WebauthnUser Credential);
  Create : DB -> WebauthnUser Credential -> Credential -> DB;
  Delete : DB -> string -> DB;

  (* sessionStore; saving yields the cookie it sets on the response *)
  GetWebauthnSession : string -> Request -> result SessionData;
  SaveWebauthnSession : string -> SessionData -> Request -> result string;

  (* webauthnAPI *)
  BeginRegistration : WebauthnUser Credential -> result (CreationOptions * SessionData);
  FinishRegistration : WebauthnUser Credential -> SessionData -> string -> result Credential;
  BeginLogin : WebauthnUser Credential -> result (RequestOptions * SessionData);
  (* the ceremony check proper: challenge, origin, signature *)
  ValidateLogin : WebauthnUser Credential -> SessionData -> string -> result Credential;
  (* the extensions the session was begun with, and those the client echoes *)
  sessionExtensions : SessionData -> AuthenticationExtensions;
  clientDataExtensions : string -> AuthenticationExtensions;

  (* encoding/json *)
  Marshal_creation : CreationOptions -> result (list byte);
  Marshal_request : RequestOptions -> AuthenticationExtensions -> result (list byte);
  Decode : Reader -> result value * Reader
}.

(** [protocol.ExtensionsVerifier]: nil ([None]) accepts. *)
Definition ExtensionsVerifier : Type :=
  AuthenticationExtensions -> AuthenticationExtensions -> option error.

(** Modelled from the spec: [webauthnAPI.FinishLogin] belongs to the
    ceremony library, which is not among the sources. By section 4.3 it
    verifies the assertion against the stored challenge and invokes the
    supplied extension verifier on the extensions echoed by the client;
    either failure is the call's error. *)
Definition FinishLogin `{Externals} (wuser : WebauthnUser Credential) (sessionData : SessionData)
    (verifier : ExtensionsVerifier) (assertion : string) : result Credential :=
  match ValidateLogin wuser sessionData assertion with
  | inr e => inr e
  | inl credential =>
      match verifier (sessionExtensions sessionData) (clientDataExtensions assertion) with
      | Some e => inr e
      | None => inl credential
      end
  end.

(** ** Observable calls *)

Inductive Event :=
| CallSession2User (url : string)
| CallItemFromItemID (itemType : string) (id : int64)
| CallIsUserEnabled (q : WebauthnQuery)
| CallGetWebauthnUser (q : WebauthnQuery)
| CallCreate (username : string)
| CallDelete (username : string)
| CallGetWebauthnSession (kind : string)
| CallSaveWebauthnSession (kind : string)
| CallBeginRegistration (username : string)
| CallFinishRegistration (username : string)
| CallBeginLogin (username : string)
| CallFinishLogin (username : string) (assertion : string)
| Forward (target : string) (body : list byte).

#[global] Instance byte_eq_dec : EqDecision byte.
Proof. intros a b. destruct (Byte.eqb a b) eqn:E; [left | right].
  - by apply Byte.byte_dec_bl.
  - intros ->. by rewrite Byte.byte_dec_lb in E.
Defined.

#[global] Instance WebauthnQuery_eq_dec : EqDecision WebauthnQuery.
Proof. solve_decision. Defined.

#[global] Instance Event_eq_dec : EqDecision Event.
Proof. solve_decision. Defined.

(** ** The handler monad

    A handler runs over the response writer, the request, the credential
    store and the log of calls made so far. A step either continues with a
    value or has executed Go's [return]. *)
Section Handler.
Context `{X : Externals}.

Record State := mkState {
  resp : ResponseWriter;
  req : Request;
  store : DB;
  calls : list Event
}.

Inductive Flow (A : Type) :=
| Continue (a : A)
| Returned.
#[global] Arguments Continue {A}.
#[global] Arguments Returned {A}.

Definition Handler (A : Type) : Type := State -> Flow A * State.

#[global] Instance Handler_ret : MRet Handler :=
  fun A a s => (Continue a, s).

#[global] Instance Handler_bind : MBind Handler :=
  fun A B f m s =>
    match m s with
    | (Continue a, s') => f a s'
    | (Returned, s') => (Returned, s')
    end.

(** Go's [return] in a handler body. *)
Definition return_ {A} : Handler A := fun s => (Returned, s).

(** Calling another handler: its [return] ends the callee only. *)
Definition call (h : Handler unit) : Handler unit :=
  fun s => (Continue tt, snd (h s)).

(** The state a handler leaves. *)
Definition run {A} (h : Handler A) (s : State) : State := snd (h s).

Definition getReq : Handler Request := fun s => (Continue (req s), s).
Definition getStore : Handler DB := fun s => (Continue (store s), s).

Definition onResp (f : ResponseWriter -> ResponseWriter) : Handler unit :=
  fun s => (Continue tt, {| resp := f (resp s); req := req s; store := store s; calls := calls s |}).
Definition onReq (f : Request -> Request) : Handler unit :=
  fun s => (Continue tt, {| resp := resp s; req := f (req s); store := store s; calls := calls s |}).
Definition onStore (f : DB -> DB) : Handler unit :=
  fun s => (Continue tt, {| resp := resp s; req := req s; store := f (store s); calls := calls s |}).
Definition emit (e : Event) : Handler unit :=
  fun s => (Continue tt, {| resp := resp s; req := req s; store := store s; calls := calls s ++ [e] |}).

(** clog writes to the console, which is no part of the state. *)
Definition logRequest : Handler unit := mret tt.
Definition log_Error (t : text) : Handler unit := mret tt.

(** [r.FormValue(key)]: the first use parses the form, which reads the
    body; later uses find [r.Form] set. *)
Definition ensureForm (r : Request) : Request :=
  match Form r with
  | Some _ => r
  | None =>
      let '(vals, rest) := ParseMultipartForm r in
      set_Form (Some vals) (set_Body rest r)
  end.

(** The first value of a key in a form, empty when there is none. *)
Definition firstValue (f : option Values) (key : string) : string :=
  match f ≫= (.!! key) with
  | Some (v :: _) => v
  | _ => ""
  end.

Definition Request_FormValue (key : string) (r : Request) : string * Request :=
  let r := ensureForm r in
  (firstValue (Form r) key, r).

Definition FormValue (key : string) : Handler string :=
  fun s =>
    let '(v, r) := Request_FormValue key (req s) in
    (Continue v, {| resp := resp s; req := r; store := store s; calls := calls s |}).

(** [httputil.ReverseProxy.ServeHTTP]: the body is read off the request and
    sent to the target; the backend's answer, as [ModifyResponse] leaves
    its header, is written to [w]. *)
Definition ReverseProxy_ServeHTTP (target : string)
    (ModifyResponse : ResponseWriter -> ResponseWriter)
    (w : ResponseWriter) (r : Request) : ResponseWriter * Request * Event :=
  let '((body, _), rest) := ReadAll (Body r) in
  let '(code, payload) := RoundTrip target r in
  (Write (Bytes payload) (WriteHeader code (ModifyResponse w)), set_Body rest r, Forward target body).

(** Go's [if b { ... }] and a two-way [switch] inside a handler body. *)
Definition when_ (b : bool) (h : Handler unit) : Handler unit :=
  if b then h else mret tt.
Definition switch (b : bool) (h1 h2 : Handler unit) : Handler unit :=
  if b then h1 else h2.

(** The recurring [if err != nil { log.Error; http.Error(w, err.Error(),
    code); return }]. *)
Definition orFail {A} (code : Z) (res : result A) : Handler A :=
  match res with
  | inl a => mret a
  | inr e => log_Error (ErrorOf e) ;; onResp (http_Error (ErrorOf e) code) ;; return_
  end.

Definition failIf (code : Z) (err : option error) : Handler unit :=
  match err with
  | None => mret tt
  | Some e => log_Error (ErrorOf e) ;; onResp (http_Error (ErrorOf e) code) ;; return_
  end.

(** The recurring rejection of empty form fields. *)
Definition invalidForm : Handler unit :=
  let errText := "Invalid form-data parameters" in
  log_Error (Lit errText) ;;
  onResp (http_Error (Lit errText) StatusInternalServerError) ;;
  return_.

(** [userIDFromSession]: asks the backend which user the session cookie
    belongs to. *)
Definition userIDFromSession (url : string) : Handler (result int64) :=
  r ← getReq;
  emit (CallSession2User url) ;;
  match session2user url (Cookies r) with
  | inr err => mret (inr err)
  | inl (ok, userID) =>
      if negb ok
      then mret (inr (errorString "Unable to retrieve the userID for this cookie session"))
      else mret (inl userID)
  end.

(** [proxy.ServeHTTP(w, r)] of the single embedded reverse proxy of
    [main.go], whose target is the backend address. *)
Definition ServeHTTP : Handler unit :=
  fun s =>
    let '(w, r, ev) := ReverseProxy_ServeHTTP "https://localhost:3000" id (resp s) (req s) in
    (Continue tt, {| resp := w; req := r; store := store s; calls := calls s ++ [ev] |}).

(** The store and session calls, each logged. *)
Definition db_IsUserEnabled (q : WebauthnQuery) : Handler bool :=
  emit (CallIsUserEnabled q) ;; db ← getStore; mret (IsUserEnabled db q).
Definition db_GetWebauthnUser (q : WebauthnQuery) : Handler (result (WebauthnUser Credential)) :=
  emit (CallGetWebauthnUser q) ;; db ← getStore; mret (GetWebauthnUser db q).
Definition db_Create (wuser : WebauthnUser Credential) (c : Credential) : Handler unit :=
  emit (CallCreate (WebAuthnName wuser)) ;; onStore (fun db => Create db wuser c).
Definition db_Delete (username : string) : Handler unit :=
  emit (CallDelete username) ;; onStore (fun db => Delete db username).
Definition sessionStore_Get (kind : string) : Handler (result SessionData) :=
  emit (CallGetWebauthnSession kind) ;; r ← getReq; mret (GetWebauthnSession kind r).
Definition sessionStore_Save (kind : string) (sd : SessionData) : Handler (option error) :=
  emit (CallSaveWebauthnSession kind) ;;
  r ← getReq;
  match SaveWebauthnSession kind sd r with
  | inl cookie => onResp (Header_Set "Set-Cookie" cookie) ;; mret None
  | inr e => mret (Some e)
  end.
Definition webauthnAPI_FinishLogin (wuser : WebauthnUser Credential) (sd : SessionData)
    (verifier : ExtensionsVerifier) (assertion : string) : Handler (result Credential) :=
  emit (CallFinishLogin (WebAuthnName wuser) assertion) ;;
  mret (FinishLogin wuser sd verifier assertion).
Definition webauthnAPI_BeginLogin (wuser : WebauthnUser Credential)
    : Handler (result (RequestOptions * SessionData)) :=
  emit (CallBeginLogin (WebAuthnName wuser)) ;; mret (BeginLogin wuser).
Definition webauthnAPI_BeginRegistration (wuser : WebauthnUser Credential)
    : Handler (result (CreationOptions * SessionData)) :=
  emit (CallBeginRegistration (WebAuthnName wuser)) ;; mret (BeginRegistration wuser).
Definition webauthnAPI_FinishRegistration (wuser : WebauthnUser Credential) (sd : SessionData)
    (credentials : string) : Handler (result Credential) :=
  emit (CallFinishRegistration (WebAuthnName wuser)) ;;
  mret (FinishRegistration wuser sd credentials).
End Handler.

(** The double quote, for the few JSON texts the handlers write. *)
Definition dquote : string := String (ascii_of_nat 34) EmptyString.

(** [json.Marshal(map[string]string{redirectTo: empty})]; never fails. *)
Definition redirectTo_json : list byte * option error :=
  (list_byte_of_string ("{" +:+ dquote +:+ "redirectTo" +:+ dquote +:+ ":" +:+ dquote +:+ dquote +:+ "}"),
   None).

(** [json.Marshal(map[string]bool{webauthn_is_enabled: isEnabled})]; never
    fails either. *)
Definition isEnabled_json (isEnabled : bool) : list byte * option error :=
  (list_byte_of_string
     ("{" +:+ dquote +:+ "webauthn_is_enabled" +:+ dquote +:+ ":" +:+
      (if isEnabled then "true" else "false") +:+ "}"),
   None).

(** [strings.Join(elems, sep)] *)
Fixpoint Join (elems : list string) (sep : string) : string :=
  match elems with
  | [] => ""
  | [e] => e
  | e :: elems => e +:+ sep +:+ Join elems sep
  end.

Definition StatusNoContent : Z := 204.

(** The one-entry extension map every bound action builds. *)
Definition txAuthSimple (confirmation : string) : AuthenticationExtensions :=
  Some (<["txAuthSimple" := ExtString confirmation]> ∅).

(** The verifier both generations build around [reflect.DeepEqual]. *)
Definition verifyTxAuthSimple (expectedExtensions : AuthenticationExtensions) : ExtensionsVerifier :=
  fun _ clientDataExtensions =>
    if negb (DeepEqual expectedExtensions clientDataExtensions)
    then Some (Errorf "Extensions verification failed: Expected %v, Received %v"
                 [OpExtensions expectedExtensions; OpExtensions clientDataExtensions])
    else None.

(** [RequestRefiller]: its [request] field is the handler's own request;
    [data] is the captured body. *)
Record RequestRefiller := mkRequestRefiller { data : list byte }.

(** ** [src/main.go] *)
Module Main.
Section WithExternals.
Context `{X : Externals}.

Definition frontendAddress : string := "https://localhost:8081".
Definition backendAddress : string := "https://localhost:3000".

Definition Refill (rf : RequestRefiller) : Handler unit :=
  onReq (set_Body (NewReader (data rf))).

Definition NewRequestRefiller : Handler (result RequestRefiller) :=
  r ← getReq;
  let '((data, err), rest) := ReadAll (Body r) in
  onReq (set_Body rest) ;;
  match err with
  | Some e => mret (inr e)
  | None =>
      let refill := {| data := data |} in
      Refill refill ;;
      mret (inl refill)
  end.

Definition checkWebauthnAssertion (query : WebauthnQuery)
    (expectedExtensions : AuthenticationExtensions) (assertion : string) : Handler (option error) :=
  res ← db_GetWebauthnUser query;
  match res with
  | inr err => mret (Some err)
  | inl wuser =>
      res ← sessionStore_Get "authentication";
      match res with
      | inr err => mret (Some err)
      | inl sessionData =>
          res ← webauthnAPI_FinishLogin wuser sessionData
                  (verifyTxAuthSimple expectedExtensions) assertion;
          match res with
          | inr err => mret (Some err)
          | inl _ => mret None
          end
      end
  end.

Definition preamble : Handler unit :=
  logRequest ;;
  onResp (Header_Set "Access-Control-Allow-Credentials" "true").

Definition prepareJSONResponse : Handler unit :=
  onResp (Header_Set "Access-Control-Allow-Origin" frontendAddress) ;;
  onResp (Header_Set "Content-Type" "application/json").

Definition proxyRequest : Handler unit :=
  logRequest ;;
  ServeHTTP.

Definition optionsHandler (allowMethods : list string) : Handler unit :=
  preamble ;;
  onResp (Header_Set "Access-Control-Allow-Headers" "Origin,Content-Type,Accept,Authorization") ;;
  onResp (Header_Set "Access-Control-Allow-Methods" (Join allowMethods ",")) ;;
  onResp (Header_Set "Access-Control-Allow-Origin" frontendAddress) ;;
  onResp (WriteHeader StatusNoContent).

Definition webauthnIsEnabled : Handler unit :=
  logRequest ;;
  prepareJSONResponse ;;
  r ← getReq;
  let username := muxVar r "user" in
  isEnabled ← db_IsUserEnabled (QueryByUsername username);
  let '(json_response, err) := isEnabled_json isEnabled in
  failIf StatusInternalServerError err ;;
  onResp (WriteHeader StatusOK) ;;
  onResp (Write (Bytes json_response)).

Definition beginRegister : Handler unit :=
  preamble ;;
  prepareJSONResponse ;;
  username ← FormValue "username";
  if String.eqb username "" then invalidForm else
  v ← FormValue "userID";
  let '(userID, err) := ParseInt v in
  failIf StatusInternalServerError err ;;
  let wuser := NewWebauthnUser userID username [] in
  '(options, sessionData) ← webauthnAPI_BeginRegistration wuser ≫= orFail StatusInternalServerError;
  json_response ← orFail StatusInternalServerError (Marshal_creation options);
  err ← sessionStore_Save "registration" sessionData;
  failIf StatusInternalServerError err ;;
  onResp (WriteHeader StatusOK) ;;
  onResp (Write (Bytes json_response)).

Definition finishRegister : Handler unit :=
  preamble ;;
  prepareJSONResponse ;;
  username ← FormValue "username";
  credentials ← FormValue "credentials";
  if String.eqb username "" || String.eqb credentials "" then invalidForm else
  v ← FormValue "userID";
  let '(userID, err) := ParseInt v in
  failIf StatusInternalServerError err ;;
  let wuser := NewWebauthnUser userID username [] in
  sessionData ← sessionStore_Get "registration" ≫= orFail StatusBadRequest;
  wcredential ← webauthnAPI_FinishRegistration wuser sessionData credentials ≫= orFail StatusBadRequest;
  let '(json_response, err) := redirectTo_json in
  failIf StatusInternalServerError err ;;
  db_Create wuser wcredential ;;
  onResp (WriteHeader StatusOK) ;;
  onResp (Write (Bytes json_response)).

Definition beginAttestation_base (query : WebauthnQuery)
    (clientExtensions : AuthenticationExtensions) : Handler unit :=
  isEnabled ← db_IsUserEnabled query;
  if negb isEnabled then onResp (WriteHeader StatusOK) ;; return_ else
  wuser ← db_GetWebauthnUser query ≫= orFail StatusBadRequest;
  '(options, sessionData) ← webauthnAPI_BeginLogin wuser ≫= orFail StatusInternalServerError;
  json_response ← orFail StatusInternalServerError (Marshal_request options clientExtensions);
  err ← sessionStore_Save "authentication" sessionData;
  failIf StatusInternalServerError err ;;
  onResp (WriteHeader StatusOK) ;;
  onResp (Write (Bytes json_response)).

Definition beginAttestation : Handler unit :=
  preamble ;;
  prepareJSONResponse ;;
  userID ← userIDFromSession (backendAddress +:+ "/server_context/session2user")
             ≫= orFail StatusInternalServerError;
  authenticationText ← FormValue "auth_text";
  if String.eqb authenticationText "" then invalidForm else
  let extensions := txAuthSimple authenticationText in
  call (beginAttestation_base (QueryByUserID userID) extensions) ;;
  return_.

Definition beginLogin : Handler unit :=
  preamble ;;
  prepareJSONResponse ;;
  username ← FormValue "user_name";
  if String.eqb username "" then invalidForm else
  call (beginAttestation_base (QueryByUsername username) None) ;;
  return_.

Definition finishLogin : Handler unit :=
  preamble ;;
  reqRefill ← NewRequestRefiller ≫= orFail StatusInternalServerError;
  username ← FormValue "user_name";
  assertion ← FormValue "assertion";
  if String.eqb username "" || String.eqb assertion "" then invalidForm else
  isEnabled ← db_IsUserEnabled (QueryByUsername username);
  when_ isEnabled (
     err ← checkWebauthnAssertion (QueryByUsername username) None assertion;
     failIf StatusBadRequest err) ;;
  Refill reqRefill ;;
  ServeHTTP ;;
  return_.

Definition disableWebauthn : Handler unit :=
  preamble ;;
  onResp (Header_Set "Access-Control-Allow-Credentials" "true") ;;
  userID ← userIDFromSession (backendAddress +:+ "/server_context/session2user")
             ≫= orFail StatusInternalServerError;
  assertion ← FormValue "assertion";
  if String.eqb assertion "" then invalidForm else
  let query := QueryByUserID userID in
  wuser ← db_GetWebauthnUser query ≫= orFail StatusBadRequest;
  let extensions := txAuthSimple ("Confirm disable webauthn for " +:+ WebAuthnName wuser) in
  err ← checkWebauthnAssertion query extensions assertion;
  failIf StatusBadRequest err ;;
  let '(json_response, err) := redirectTo_json in
  failIf StatusInternalServerError err ;;
  db_Delete (WebAuthnName wuser) ;;
  onResp (WriteHeader StatusOK) ;;
  onResp (Write (Bytes json_response)).

Definition deleteRepositoryHelper : Handler unit :=
  preamble ;;
  userID ← userIDFromSession (backendAddress +:+ "/server_context/session2user")
             ≫= orFail StatusInternalServerError;
  isEnabled ← db_IsUserEnabled (QueryByUserID userID);
  when_ isEnabled (
     assertion ← FormValue "assertion";
     if String.eqb assertion "" then invalidForm else
     r ← getReq;
     let username := muxVar r "username" in
     let reponame := muxVar r "reponame" in
     let extensions := txAuthSimple ("Confirm repository delete: " +:+ username +:+ "/" +:+ reponame) in
     err ← checkWebauthnAssertion (QueryByUserID userID) extensions assertion;
     failIf StatusBadRequest err) ;;
  ServeHTTP ;;
  return_.

Definition repoSettings : Handler unit :=
  reqRefill ← NewRequestRefiller ≫= orFail StatusInternalServerError;
  action ← FormValue "action";
  if String.eqb action "" then invalidForm else
  Refill reqRefill ;;
  switch (String.eqb action "delete") (call deleteRepositoryHelper) (call proxyRequest) ;;
  return_.

Definition sshKeyFromSSHKeyID (sshKeyID : int64) : Handler (result SSHKey) :=
  emit (CallItemFromItemID "ssh_key" sshKeyID) ;;
  mret (itemFromItemID_ssh_key backendAddress sshKeyID).

Definition addSSHKey : Handler unit :=
  preamble ;;
  userID ← userIDFromSession (backendAddress +:+ "/server_context/session2user")
             ≫= orFail StatusInternalServerError;
  isEnabled ← db_IsUserEnabled (QueryByUserID userID);
  when_ isEnabled (
     reqRefill ← NewRequestRefiller ≫= orFail StatusInternalServerError;
     assertion ← FormValue "assertion";
     sshKeyName ← FormValue "title";
     if String.eqb assertion "" || String.eqb sshKeyName "" then invalidForm else
     let extensions := txAuthSimple ("Add SSH key named: " +:+ sshKeyName) in
     err ← checkWebauthnAssertion (QueryByUserID userID) extensions assertion;
     failIf StatusBadRequest err ;;
     Refill reqRefill) ;;
  ServeHTTP ;;
  return_.

Definition deleteSSHKey : Handler unit :=
  preamble ;;
  userID ← userIDFromSession (backendAddress +:+ "/server_context/session2user")
             ≫= orFail StatusInternalServerError;
  isEnabled ← db_IsUserEnabled (QueryByUserID userID);
  when_ isEnabled (
     reqRefill ← NewRequestRefiller ≫= orFail StatusInternalServerError;
     assertion ← FormValue "assertion";
     if String.eqb assertion "" then invalidForm else
     v ← FormValue "id";
     let '(sshKeyID, err) := ParseInt v in
     failIf StatusInternalServerError err ;;
     sshKey ← sshKeyFromSSHKeyID sshKeyID ≫= orFail StatusInternalServerError;
     let extensions := txAuthSimple ("Delete SSH key named: " +:+ Name sshKey) in
     err ← checkWebauthnAssertion (QueryByUserID userID) extensions assertion;
     failIf StatusBadRequest err ;;
     Refill reqRefill) ;;
  ServeHTTP ;;
  return_.
End WithExternals.
End Main.

(** ** [src/unnamed/part_000]: the earlier generation of [main.go], with
    the ceremony check written out in every handler *)
Module Legacy.
Section WithExternals.
Context `{X : Externals}.

Definition frontendAddress : string := "https://localhost:8081".
Definition backendAddress : string := "https://localhost:3000".

Definition preamble : Handler unit :=
  logRequest ;;
  onResp (Header_Set "Access-Control-Allow-Origin" frontendAddress) ;;
  onResp (Header_Set "Content-Type" "application/json").

Definition proxyRequest : Handler unit :=
  logRequest ;;
  ServeHTTP.

Definition optionsHandler (allowMethods : list string) : Handler unit :=
  logRequest ;;
  onResp (Header_Set "Access-Control-Allow-Headers" "Origin,Content-Type,Accept,Authorization") ;;
  onResp (Header_Set "Access-Control-Allow-Methods" (Join allowMethods ",")) ;;
  onResp (Header_Set "Access-Control-Allow-Origin" frontendAddress) ;;
  onResp (Header_Set "Access-Control-Allow-Credentials" "true") ;;
  onResp (WriteHeader StatusNoContent).

Definition webauthnIsEnabled : Handler unit :=
  preamble ;;
  r ← getReq;
  let username := muxVar r "user" in
  isEnabled ← db_IsUserEnabled (QueryByUsername username);
  let '(json_response, err) := isEnabled_json isEnabled in
  failIf StatusInternalServerError err ;;
  onResp (WriteHeader StatusOK) ;;
  onResp (Write (Bytes json_response)).

Definition beginRegister : Handler unit :=
  preamble ;;
  onResp (Header_Set "Access-Control-Allow-Credentials" "true") ;;
  username ← FormValue "username";
  if String.eqb username "" then invalidForm else
  v ← FormValue "userID";
  let '(userID, err) := ParseInt v in
  failIf StatusInternalServerError err ;;
  let wuser := NewWebauthnUser userID username [] in
  '(options, sessionData) ← webauthnAPI_BeginRegistration wuser ≫= orFail StatusInternalServerError;
  json_response ← orFail StatusInternalServerError (Marshal_creation options);
  err ← sessionStore_Save "registration" sessionData;
  failIf StatusInternalServerError err ;;
  onResp (WriteHeader StatusOK) ;;
  onResp (Write (Bytes json_response)).

Definition finishRegister : Handler unit :=
  preamble ;;
  onResp (Header_Set "Access-Control-Allow-Credentials" "true") ;;
  username ← FormValue "username";
  credentials ← FormValue "credentials";
  if String.eqb username "" || String.eqb credentials "" then invalidForm else
  v ← FormValue "userID";
  let '(userID, err) := ParseInt v in
  failIf StatusInternalServerError err ;;
  let wuser := NewWebauthnUser userID username [] in
  sessionData ← sessionStore_Get "registration" ≫= orFail StatusBadRequest;
  wcredential ← webauthnAPI_FinishRegistration wuser sessionData credentials ≫= orFail StatusBadRequest;
  let '(json_response, err) := redirectTo_json in
  failIf StatusInternalServerError err ;;
  db_Create wuser wcredential ;;
  onResp (WriteHeader StatusOK) ;;
  onResp (Write (Bytes json_response)).

Definition beginAttestation_base (query : WebauthnQuery)
    (clientExtensions : AuthenticationExtensions) : Handler unit :=
  onResp (Header_Set "Access-Control-Allow-Credentials" "true") ;;
  isEnabled ← db_IsUserEnabled query;
  if negb isEnabled then onResp (WriteHeader StatusOK) ;; return_ else
  wuser ← db_GetWebauthnUser query ≫= orFail StatusBadRequest;
  '(options, sessionData) ← webauthnAPI_BeginLogin wuser ≫= orFail StatusInternalServerError;
  json_response ← orFail StatusInternalServerError (Marshal_request options clientExtensions);
  err ← sessionStore_Save "authentication" sessionData;
  failIf StatusInternalServerError err ;;
  onResp (WriteHeader StatusOK) ;;
  onResp (Write (Bytes json_response)).

Definition beginAttestation : Handler unit :=
  preamble ;;
  userID ← userIDFromSession (backendAddress +:+ "/user/session2user")
             ≫= orFail StatusInternalServerError;
  authenticationText ← FormValue "auth_text";
  if String.eqb authenticationText "" then invalidForm else
  let extensions := txAuthSimple authenticationText in
  call (beginAttestation_base (QueryByUserID userID) extensions) ;;
  return_.

Definition beginLogin : Handler unit :=
  preamble ;;
  username ← FormValue "user_name";
  if String.eqb username "" then invalidForm else
  call (beginAttestation_base (QueryByUsername username) None) ;;
  return_.

(** The login verifier of this generation: no extensions to verify. *)
Definition noVerify : ExtensionsVerifier := fun _ _ => None.

Definition finishLogin : Handler unit :=
  logRequest ;;
  onResp (Header_Set "Access-Control-Allow-Credentials" "true") ;;
  r ← getReq;
  let '((data, err), rest) := ReadAll (Body r) in
  onReq (set_Body rest) ;;
  failIf StatusInternalServerError err ;;
  onReq (set_Body (NewReader data)) ;;
  username ← FormValue "user_name";
  assertion ← FormValue "assertion";
  if String.eqb username "" || String.eqb assertion "" then invalidForm else
  isEnabled ← db_IsUserEnabled (QueryByUsername username);
  when_ isEnabled (
     wuser ← db_GetWebauthnUser (QueryByUsername username) ≫= orFail StatusBadRequest;
     sessionData ← sessionStore_Get "authentication" ≫= orFail StatusBadRequest;
     _ ← webauthnAPI_FinishLogin wuser sessionData noVerify assertion ≫= orFail StatusBadRequest;
     mret tt) ;;
  onReq (set_Body (NewReader data)) ;;
  ServeHTTP ;;
  return_.

Definition disableWebauthn : Handler unit :=
  preamble ;;
  onResp (Header_Set "Access-Control-Allow-Credentials" "true") ;;
  userID ← userIDFromSession (backendAddress +:+ "/user/session2user")
             ≫= orFail StatusInternalServerError;
  assertion ← FormValue "assertion";
  if String.eqb assertion "" then invalidForm else
  wuser ← db_GetWebauthnUser (QueryByUserID userID) ≫= orFail StatusBadRequest;
  sessionData ← sessionStore_Get "authentication" ≫= orFail StatusBadRequest;
  let expectedExtensions := txAuthSimple ("Confirm disable webauthn for " +:+ WebAuthnName wuser) in
  _ ← webauthnAPI_FinishLogin wuser sessionData (verifyTxAuthSimple expectedExtensions) assertion
        ≫= orFail StatusBadRequest;
  let '(json_response, err) := redirectTo_json in
  failIf StatusInternalServerError err ;;
  db_Delete (WebAuthnName wuser) ;;
  onResp (WriteHeader StatusOK) ;;
  onResp (Write (Bytes json_response)).

Definition deleteRepositoryHelper : Handler unit :=
  onResp (Header_Set "Access-Control-Allow-Credentials" "true") ;;
  userID ← userIDFromSession (backendAddress +:+ "/user/session2user")
             ≫= orFail StatusInternalServerError;
  assertion ← FormValue "assertion";
  if String.eqb assertion "" then invalidForm else
  r ← getReq;
  let username := muxVar r "username" in
  let reponame := muxVar r "reponame" in
  isEnabled ← db_IsUserEnabled (QueryByUserID userID);
  when_ isEnabled (
     wuser ← db_GetWebauthnUser (QueryByUserID userID) ≫= orFail StatusBadRequest;
     sessionData ← sessionStore_Get "authentication" ≫= orFail StatusBadRequest;
     let expectedExtensions :=
       txAuthSimple ("Confirm repository delete: " +:+ username +:+ "/" +:+ reponame) in
     _ ← webauthnAPI_FinishLogin wuser sessionData (verifyTxAuthSimple expectedExtensions) assertion
           ≫= orFail StatusBadRequest;
     mret tt) ;;
  ServeHTTP ;;
  return_.

Definition repoSettings : Handler unit :=
  logRequest ;;
  r ← getReq;
  let '((data, err), rest) := ReadAll (Body r) in
  onReq (set_Body rest) ;;
  failIf StatusInternalServerError err ;;
  onReq (set_Body (NewReader data)) ;;
  action ← FormValue "action";
  if String.eqb action "" then invalidForm else
  onReq (set_Body (NewReader data)) ;;
  switch (String.eqb action "delete") (call deleteRepositoryHelper) ServeHTTP ;;
  return_.
End WithExternals.
End Legacy.

(** ** Package [webauthn_firewall]: [extended_request_handlers.go] and
    [src/unnamed/part_001] *)
Module Firewall.

(** [ContextGettersType]: named resolvers over dynamic values. *)
Abbreviation ContextGettersType := (gmap string (list value -> result value)).

(** The getters a configuration can install as [getInputDefault]. The field
    holds a function over the request itself; it is kept here as the name
    of one of the package's three getters. *)
Inductive InputSource :=
| FormSource
| URLSource
| JSONSource.

(** Modelled from the spec: the declaration of [ExtendedRequest] is not
    among the sources. Its fields are those the accessors use; the
    captured body and [Refill] are the Buffered Request of section 4.1
    (capture once, rewind to the captured bytes). *)
Record ExtendedRequest := mkExtendedRequest {
  Request_ : Request;
  captured : list byte;
  err : option error;
  contextGetters : ContextGettersType;
  getInputDefault : InputSource
}.

Definition set_Request (q : Request) (r : ExtendedRequest) : ExtendedRequest :=
  {| Request_ := q; captured := captured r; err := err r;
     contextGetters := contextGetters r; getInputDefault := getInputDefault r |}.

Definition set_err (e : option error) (r : ExtendedRequest) : ExtendedRequest :=
  {| Request_ := Request_ r; captured := captured r; err := e;
     contextGetters := contextGetters r; getInputDefault := getInputDefault r |}.

Definition Refill (r : ExtendedRequest) : ExtendedRequest :=
  set_Request (set_Body (NewReader (captured r)) (Request_ r)) r.

(** A getter takes the request pointer ([None] is nil) and hands back the
    pointee as it leaves it. *)
Definition getInputFnType : Type :=
  option ExtendedRequest -> list string -> (string * option error) * option ExtendedRequest.

Section WithExternals.
Context `{X : Externals}.

Definition GetFormInput : getInputFnType := fun r args =>
  match r with
  | None => (("", Some (errorString "Nil request received")), r)
  | Some r =>
      match args with
      | [arg] =>
          let '(val, q) := Request_FormValue arg (Request_ r) in
          let r := set_Request q r in
          if String.eqb val ""
          then (("", Some (errorString "Invalid form-data parameters")), Some r)
          else ((val, None), Some r)
      | _ =>
          (("", Some (Errorf "Form inputs expect only 1 argument. Received: %v" [OpStrings args])),
           Some r)
      end
  end.

Definition GetURLInput : getInputFnType := fun r args =>
  match r with
  | None => (("", Some (errorString "Nil request received")), r)
  | Some r =>
      match args with
      | [arg] => ((muxVar (Request_ r) arg, None), Some r)
      | _ =>
          (("", Some (Errorf "URL inputs expect only 1 argument. Received: %v" [OpStrings args])),
           Some r)
      end
  end.

(** The descent of [GetJSONInput] through nested objects: a key that is
    absent reads as nil, and a non-object on the way is an error. *)
Fixpoint descend (body : value) (args : list string) : result value :=
  match args with
  | [] => inl body
  | arg :: args =>
      match body with
      | Object cast => descend (default Nil (cast !! arg)) args
      | _ =>
          inr (Errorf "JSON parse fail. Unable to cast intermediate to jsonBody: %[1]T %[1]v"
                 [OpValue body])
      end
  end.

Definition GetJSONInput : getInputFnType := fun r args =>
  match r with
  | None => (("", Some (errorString "Nil request received")), r)
  | Some r =>
      if (length args <? 1)%nat
      then (("", Some (Errorf "JSON inputs expect at least 1 argument. Received: %v" [OpStrings args])),
            Some r)
      else
        let '(decoded, rest) := Decode (Body (Request_ r)) in
        let r := set_Request (set_Body rest (Request_ r)) r in
        match decoded with
        | inr err => (("", Some err), Some r)
        | inl body =>
            match descend body args with
            | inr err => (("", Some err), Some r)
            | inl (Str ret) => ((ret, None), Some (Refill r))
            | inl (Number ret) => ((ret, None), Some (Refill r))
            | inl body =>
                (("", Some (Errorf "JSON parse fail. Unable to cast result to string: %[1]v (%[1]T)"
                              [OpValue body])),
                 Some r)
            end
        end
  end.

Definition getInputFnOf (src : InputSource) : getInputFnType :=
  match src with
  | FormSource => GetFormInput
  | URLSource => GetURLInput
  | JSONSource => GetJSONInput
  end.

Definition getInput_WithErr_Helper (getInputFn : getInputFnType) (args : list string)
    (r : ExtendedRequest) : (string * option error) * ExtendedRequest :=
  match err r with
  | Some e => (("", Some e), r)
  | None =>
      let '((val, e), r') := getInputFn (Some r) args in
      let r := default r r' in
      match e with
      | Some e => (("", Some e), set_err (Some e) r)
      | None => ((val, None), r)
      end
  end.

Definition getInputInt64_WithErr_Helper (getInputFn : getInputFnType) (args : list string)
    (r : ExtendedRequest) : (int64 * option error) * ExtendedRequest :=
  let '((val, e), r) := getInput_WithErr_Helper getInputFn args r in
  match e with
  | Some e => ((0, Some e), r)
  | None =>
      let '(valInt, e) := ParseInt val in
      match e with
      | Some e => ((0, Some e), set_err (Some e) r)
      | None => ((valInt, None), r)
      end
  end.

Definition GetFormInput_WithErr (args : list string) (r : ExtendedRequest) :=
  getInput_WithErr_Helper GetFormInput args r.
Definition GetFormInputInt64_WithErr (args : list string) (r : ExtendedRequest) :=
  getInputInt64_WithErr_Helper GetFormInput args r.
Definition GetURLInput_WithErr (args : list string) (r : ExtendedRequest) :=
  getInput_WithErr_Helper GetURLInput args r.
Definition GetURLInputInt64_WithErr (args : list string) (r : ExtendedRequest) :=
  getInputInt64_WithErr_Helper GetURLInput args r.
Definition Get_WithErr (args : list string) (r : ExtendedRequest) :=
  getInput_WithErr_Helper (getInputFnOf (getInputDefault r)) args r.
Definition GetInt64_WithErr (args : list string) (r : ExtendedRequest) :=
  getInputInt64_WithErr_Helper (getInputFnOf (getInputDefault r)) args r.

(** The variants that drop the error for the caller to check later. *)
Definition ExtendedRequest_GetFormInput (args : list string) (r : ExtendedRequest) :=
  let '((val, _), r) := getInput_WithErr_Helper GetFormInput args r in (val, r).
Definition ExtendedRequest_GetURLInput (args : list string) (r : ExtendedRequest) :=
  let '((val, _), r) := getInput_WithErr_Helper GetURLInput args r in (val, r).
Definition Get (args : list string) (r : ExtendedRequest) :=
  let '((val, _), r) := getInput_WithErr_Helper (getInputFnOf (getInputDefault r)) args r in (val, r).
Definition GetFormInputInt64 (args : list string) (r : ExtendedRequest) :=
  let '((val, _), r) := getInputInt64_WithErr_Helper GetFormInput args r in (val, r).
Definition GetURLInputInt64 (args : list string) (r : ExtendedRequest) :=
  let '((val, _), r) := getInputInt64_WithErr_Helper GetURLInput args r in (val, r).
Definition GetInt64 (args : list string) (r : ExtendedRequest) :=
  let '((val, _), r) := getInputInt64_WithErr_Helper (getInputFnOf (getInputDefault r)) args r in (val, r).

Definition GetContext_WithErr (contextName : string) (args : list value)
    (r : ExtendedRequest) : (value * option error) * ExtendedRequest :=
  match contextGetters r !! contextName with
  | None =>
      let e := Errorf "Context type does not have getter function: %s" [OpString contextName] in
      ((Nil, Some e), set_err (Some e) r)
  | Some contextGetter =>
      match contextGetter args with
      | inr e => ((Nil, Some e), set_err (Some e) r)
      | inl val => ((val, None), r)
      end
  end.

Definition GetContext (contextName : string) (args : list value) (r : ExtendedRequest) :=
  let '((val, _), r) := GetContext_WithErr contextName args r in (val, r).

(** [httputil.ReverseProxy], as [NewWebauthnFirewall] sets it up: a target
    and the origin its [ModifyResponse] writes. *)
Record ReverseProxy := mkReverseProxy { forwardTo : string; allowOrigin : string }.

(** The fields of [WebauthnFirewall] the dispatcher uses. *)
Record WebauthnFirewall := mkWebauthnFirewall {
  reverseProxies : gmap string ReverseProxy;
  FrontendAddress : string;
  ReverseProxyTargetMap : gmap string string
}.

(** The proxy-building loop of [NewWebauthnFirewall]; [None] is its panic
    on a target that does not parse. *)
Definition NewWebauthnFirewall (FrontendAddress : string)
    (ReverseProxyTargetMap : gmap string string) : option WebauthnFirewall :=
  if bool_decide (map_Forall (fun _ backendAddress => isOk (url_Parse backendAddress) = true)
                    ReverseProxyTargetMap)
  then Some {| reverseProxies :=
                 omap (fun backendAddress =>
                         match url_Parse backendAddress with
                         | inl forwardTo =>
                             Some {| forwardTo := forwardTo; allowOrigin := FrontendAddress |}
                         | inr _ => None
                         end)
                   ReverseProxyTargetMap;
               FrontendAddress := FrontendAddress;
               ReverseProxyTargetMap := ReverseProxyTargetMap |}
  else None.

(** [WebauthnFirewall.ServeHTTP]: the response writer, the request and the
    outbound calls it leaves. *)
Definition ServeHTTP (wfirewall : WebauthnFirewall) (w : ResponseWriter) (r : ExtendedRequest)
    : ResponseWriter * ExtendedRequest * list Event :=
  let host := Host (Request_ r) in
  match reverseProxies wfirewall !! host with
  | Some proxy =>
      let '(w, q, ev) :=
        ReverseProxy_ServeHTTP (forwardTo proxy)
          (Header_Set "Access-Control-Allow-Origin" (allowOrigin proxy)) w (Request_ r) in
      (w, set_Request q r, [ev])
  | None =>
      (Write (Bytes (list_byte_of_string ("403: Host forbidden " +:+ host))) w, r, [])
  end.
End WithExternals.
End Firewall.

(** ** A reference world

    Executable stand-ins for the collaborators, used to run the handlers on
    concrete requests: a form parser and a JSON decoder after the standard
    library's, an in-memory credential store, a cookie-backed session store
    and a ceremony library whose assertions are small JSON documents. *)
Module Ref.

(** *** application/x-www-form-urlencoded, after [url.ParseQuery] *)

Definition hexVal (c : ascii) : option N :=
  let n := N_of_ascii c in
  if ((48 <=? n) && (n <=? 57))%N then Some (n - 48)%N
  else if ((97 <=? n) && (n <=? 102))%N then Some (n - 87)%N
  else if ((65 <=? n) && (n <=? 70))%N then Some (n - 55)%N
  else None.

(** [url.QueryUnescape]: a plus is a space, a percent sign starts two hex
    digits; [None] is its error. *)
Fixpoint QueryUnescape (s : string) : option string :=
  match s with
  | EmptyString => Some EmptyString
  | String "%" (String a (String b rest)) =>
      hi ← hexVal a;
      lo ← hexVal b;
      String (ascii_of_N (16 * hi + lo)) <$> QueryUnescape rest
  | String "%" _ => None
  | String "+" rest => String " " <$> QueryUnescape rest
  | String c rest => String c <$> QueryUnescape rest
  end.

(** [strings.Cut(s, sep)] for a one-character separator. *)
Fixpoint Cut (sep : ascii) (s : string) : string * string :=
  match s with
  | EmptyString => (EmptyString, EmptyString)
  | String c rest =>
      if Ascii.eqb c sep then (EmptyString, rest)
      else let '(before, after) := Cut sep rest in (String c before, after)
  end.

Fixpoint Contains (sep : ascii) (s : string) : bool :=
  match s with
  | EmptyString => false
  | String c rest => Ascii.eqb c sep || Contains sep rest
  end.

(** The pairs of a query, split at ampersands; the fuel is the length of
    the query, which every round shortens. *)
Fixpoint parseQuery (fuel : nat) (m : Values) (query : string) : Values :=
  match fuel with
  | O => m
  | S fuel =>
      if String.eqb query "" then m else
      let '(kv, query) := Cut "&" query in
      if Contains ";" kv || String.eqb kv "" then parseQuery fuel m query else
      let '(key, val) := Cut "=" kv in
      match QueryUnescape key, QueryUnescape val with
      | Some key, Some val => parseQuery fuel (<[key := (default [] (m !! key) ++ [val])%list]> m) query
      | _, _ => parseQuery fuel m query
      end
  end.

Definition hasBody (method : string) : bool :=
  String.eqb method "POST" || String.eqb method "PUT" || String.eqb method "PATCH".

(** The form of a request: url-encoded bodies of POST, PUT and PATCH
    requests are read whole and parsed; any other body is left alone.
    Requests here carry no query string. *)
Definition formParse (r : Request) : Values * Reader :=
  if hasBody (Method r) &&
     bool_decide (Header r !! "Content-Type" = Some "application/x-www-form-urlencoded")
  then
    let '((b, _), rest) := ReadAll (Body r) in
    let query := string_of_list_byte b in
    (parseQuery (String.length query) ∅ query, rest)
  else (∅, Body r).

(** *** JSON, after [encoding/json]'s decoder with [UseNumber] *)

Definition quoteChar : ascii := ascii_of_nat 34.

Definition isSpace (c : ascii) : bool :=
  let n := N_of_ascii c in
  ((n =? 32) || (n =? 9) || (n =? 13) || (n =? 10))%N.

Definition isDigit (c : ascii) : bool :=
  let n := N_of_ascii c in ((48 <=? n) && (n <=? 57))%N.

Fixpoint skipSpace (s : string) : string :=
  match s with
  | String c rest => if isSpace c then skipSpace rest else s
  | EmptyString => s
  end.

(** The longest prefix of digits, and what follows it. *)
Fixpoint digits (s : string) : string * string :=
  match s with
  | String c rest =>
      if isDigit c then let '(ds, rest) := digits rest in (String c ds, rest)
      else (EmptyString, s)
  | EmptyString => (EmptyString, s)
  end.

Definition nonEmptyDigits (s : string) : option (string * string) :=
  let '(ds, rest) := digits s in
  if String.eqb ds "" then None else Some (ds, rest).

(** A number token: sign, integer part without leading zeros, optional
    fraction and exponent. The token's text is what is kept. *)
Definition scanNumber (s : string) : option (string * string) :=
  let '(sign, s) := match s with String "-" rest => ("-", rest) | _ => ("", s) end in
  '(int, s) ← match s with
              | String "0" rest => Some ("0", rest)
              | _ => nonEmptyDigits s
              end;
  '(frac, s) ← match s with
               | String "." rest => '(ds, rest) ← nonEmptyDigits rest; Some ("." +:+ ds, rest)
               | _ => Some ("", s)
               end;
  '(exp, s) ← match s with
              | String c rest =>
                  if Ascii.eqb c "e" || Ascii.eqb c "E" then
                    let '(esign, rest) :=
                      match rest with
                      | String "+" rest' => ("+", rest')
                      | String "-" rest' => ("-", rest')
                      | _ => ("", rest)
                      end in
                    '(ds, rest) ← nonEmptyDigits rest;
                    Some (String c (esign +:+ ds), rest)
                  else Some ("", s)
              | EmptyString => Some ("", s)
              end;
  Some (sign +:+ int +:+ frac +:+ exp, s).

(** UTF-8 for a code point below 0x110000. *)
Definition utf8 (cp : N) : string :=
  let b (n : N) := ascii_of_N n in
  (if cp <? 128 then String (b cp) ""
   else if cp <? 2048 then String (b (192 + cp / 64)) (String (b (128 + cp mod 64)) "")
   else if cp <? 65536 then
     String (b (224 + cp / 4096)) (String (b (128 + (cp / 64) mod 64)) (String (b (128 + cp mod 64)) ""))
   else
     String (b (240 + cp / 262144)) (String (b (128 + (cp / 4096) mod 64))
       (String (b (128 + (cp / 64) mod 64)) (String (b (128 + cp mod 64)) ""))))%N.

Definition hex4 (a b c d : ascii) : option N :=
  a ← hexVal a; b ← hexVal b; c ← hexVal c; d ← hexVal d;
  Some (4096 * a + 256 * b + 16 * c + d)%N.

(** The inside of a string literal, up to its closing quote. Bytes above
    0x7f are copied as they are. *)
Fixpoint scanString (s : string) : option (string * string) :=
  match s with
  | EmptyString => None
  | String "\" (String "u" (String a (String b (String c (String d rest))))) =>
      u ← hex4 a b c d;
      if ((55296 <=? u) && (u <? 56320))%N then
        match rest with
        | String "\" (String "u" (String a' (String b' (String c' (String d' rest'))))) =>
            u' ← hex4 a' b' c' d';
            if ((56320 <=? u') && (u' <? 57344))%N then
              '(str, after) ← scanString rest';
              Some (utf8 (65536 + (u - 55296) * 1024 + (u' - 56320))%N +:+ str, after)
            else
              '(str, after) ← scanString rest;
              Some (utf8 65533%N +:+ str, after)
        | _ =>
            '(str, after) ← scanString rest;
            Some (utf8 65533%N +:+ str, after)
        end
      else if ((56320 <=? u) && (u <? 57344))%N then
        '(str, after) ← scanString rest;
        Some (utf8 65533%N +:+ str, after)
      else
        '(str, after) ← scanString rest;
        Some (utf8 u +:+ str, after)
  | String "\" (String e rest) =>
      c ← (if Ascii.eqb e quoteChar then Some quoteChar
           else match e with
                | "\"%char => Some "\"%char
                | "/"%char => Some "/"%char
                | "b"%char => Some (ascii_of_nat 8)
                | "f"%char => Some (ascii_of_nat 12)
                | "n"%char => Some (ascii_of_nat 10)
                | "r"%char => Some (ascii_of_nat 13)
                | "t"%char => Some (ascii_of_nat 9)
                | _ => None
                end);
      '(str, after) ← scanString rest;
      Some (String c str, after)
  | String "\" EmptyString => None
  | String c rest =>
      if Ascii.eqb c quoteChar then Some (EmptyString, rest)
      else if (N_of_ascii c <? 32)%N then None
      else '(str, after) ← scanString rest; Some (String c str, after)
  end.

(** A literal name at the head of the input. *)
Definition literal (name : string) (v : value) (s : string) : option (value * string) :=
  if String.prefix name s
  then Some (v, String.substring (String.length name) (String.length s - String.length name) s)
  else None.

(** One value at the head of the input (leading blanks skipped) and the
    text after it. Every call consumes input, so the length of the input
    is fuel enough. *)
Fixpoint parseValue (fuel : nat) (s : string) : option (value * string) :=
  match fuel with
  | O => None
  | S fuel =>
      match skipSpace s with
      | EmptyString => None
      | String "{" rest =>
          match skipSpace rest with
          | String "}" rest => Some (Object ∅, rest)
          | rest => parseMembers fuel ∅ rest
          end
      | String "[" rest =>
          match skipSpace rest with
          | String "]" rest => Some (Array [], rest)
          | rest => parseElements fuel [] rest
          end
      | String "t" _ as s => literal "true" (Bool true) s
      | String "f" _ as s => literal "false" (Bool false) s
      | String "n" _ as s => literal "null" Nil s
      | String c rest as s =>
          if Ascii.eqb c quoteChar
          then '(str, rest) ← scanString rest; Some (Str str, rest)
          else '(lit, rest) ← scanNumber s; Some (Number lit, rest)
      end
  end
with parseMembers (fuel : nat) (m : gmap string value) (s : string) : option (value * string) :=
  match fuel with
  | O => None
  | S fuel =>
      match skipSpace s with
      | String c rest =>
          if Ascii.eqb c quoteChar then
            '(key, rest) ← scanString rest;
            match skipSpace rest with
            | String ":" rest =>
                '(v, rest) ← parseValue fuel rest;
                let m := <[key := v]> m in
                match skipSpace rest with
                | String "," rest => parseMembers fuel m rest
                | String "}" rest => Some (Object m, rest)
                | _ => None
                end
            | _ => None
            end
          else None
      | EmptyString => None
      end
  end
with parseElements (fuel : nat) (l : list value) (s : string) : option (value * string) :=
  match fuel with
  | O => None
  | S fuel =>
      '(v, rest) ← parseValue fuel s;
      let l := (l ++ [v])%list in
      match skipSpace rest with
      | String "," rest => parseElements fuel l rest
      | String "]" rest => Some (Array l, rest)
      | _ => None
      end
  end.

Definition Unmarshal (s : string) : result value :=
  match parseValue (S (String.length s)) s with
  | Some (v, _) => inl v
  | None => inr (errorString "invalid character in JSON input")
  end.

(** [Decoder.Decode]: the first value of the stream. The decoder reads
    ahead in blocks of at least 512 bytes; the bodies met here are shorter
    and are drained by the first read. *)
Definition jsonDecode (body : Reader) : result value * Reader :=
  let '((b, e), rest) := ReadAll body in
  match Unmarshal (string_of_list_byte b) with
  | inl v => (inl v, rest)
  | inr err => (inr (default err e), rest)
  end.

(** *** The credential store *)

Record User := mkUser { uid : int64; uname : string; enabled : bool; credentials : list string }.

Definition matches (q : WebauthnQuery) (u : User) : bool :=
  match q with
  | QueryByUsername username => String.eqb (uname u) username
  | QueryByUserID userID => (uid u =? userID)
  end.

Definition memIsUserEnabled (db : list User) (q : WebauthnQuery) : bool :=
  match List.find (matches q) db with
  | Some u => enabled u
  | None => false
  end.

Definition memGetWebauthnUser (db : list User) (q : WebauthnQuery) : result (WebauthnUser string) :=
  match List.find (matches q) db with
  | Some u => inl (NewWebauthnUser (uid u) (uname u) (credentials u))
  | None => inr (errorString "record not found")
  end.

Definition memDelete (db : list User) (username : string) : list User :=
  List.filter (fun u => negb (String.eqb (uname u) username)) db.

Definition memCreate (db : list User) (wuser : WebauthnUser string) (c : string) : list User :=
  (memDelete db (WebAuthnName wuser) ++
   [{| uid := wuserID wuser; uname := WebAuthnName wuser; enabled := true;
       credentials := (wuserCredentials wuser ++ [c])%list |}])%list.

(** *** Backend, sessions and ceremonies *)

Fixpoint cookie (name : string) (cookies : list (string * string)) : option string :=
  match cookies with
  | [] => None
  | (k, v) :: cookies => if String.eqb k name then Some v else cookie name cookies
  end.

(** The backend's answer to [session2user]: the user id the [session]
    cookie carries, if it carries one. *)
Definition cookieSession2user (url : string) (cookies : list (string * string)) : result (bool * int64) :=
  match cookie "session" cookies with
  | None => inl (false, 0)
  | Some v =>
      match ParseInt v with
      | (userID, None) => inl (true, userID)
      | (_, Some _) => inl (false, 0)
      end
  end.

(** A ceremony session is its challenge, kept in a cookie named after the
    ceremony kind. *)
Definition cookieGetSession (kind : string) (r : Request) : result string :=
  match cookie kind (Cookies r) with
  | Some challenge => inl challenge
  | None => inr (errorString "session not found")
  end.

Definition cookieSaveSession (kind : string) (challenge : string) (r : Request) : result string :=
  inl (kind +:+ "=" +:+ challenge).

Definition challengeFor (wuser : WebauthnUser string) : string :=
  "challenge-" +:+ WebAuthnName wuser.

(** An assertion is a JSON object with the challenge it answers and,
    optionally, the extensions the client echoes. *)
Definition field (doc : string) (name : string) : value :=
  match Unmarshal doc with
  | inl (Object m) => default Nil (m !! name)
  | _ => Nil
  end.

Definition jsonValidateLogin (wuser : WebauthnUser string) (challenge : string) (assertion : string)
    : result string :=
  match field assertion "challenge" with
  | Str c =>
      if String.eqb c challenge then inl ("credential-of-" +:+ WebAuthnName wuser)
      else inr (errorString "Error validating challenge")
  | _ => inr (errorString "Parse error for Assertion")
  end.

(** A decoded value as an entry of the extensions map. *)
Fixpoint echoed (v : value) : ExtValue :=
  match v with
  | Nil => ExtNil
  | Bool b => ExtBool b
  | Number lit => ExtNumber lit
  | Str s => ExtString s
  | Array l => ExtArray (map echoed l)
  | Object m => ExtObject (echoed <$> m)
  end.

Definition jsonClientExtensions (assertion : string) : AuthenticationExtensions :=
  match field assertion "extensions" with
  | Object m => Some (echoed <$> m)
  | _ => None
  end.

Definition hasControl (s : string) : bool :=
  existsb (fun c => (N_of_ascii c <? 32)%N || (N_of_ascii c =? 127)%N) (list_ascii_of_string s).

Definition world : Externals := {|
  Credential := string;
  SessionData := string;
  CreationOptions := string;
  RequestOptions := string;
  DB := list User;
  ParseMultipartForm := formParse;
  RoundTrip := fun target r => (200, list_byte_of_string ("ok from " +:+ target));
  url_Parse := fun s =>
    if hasControl s then inr (errorString "net/url: invalid control character in URL") else inl s;
  session2user := cookieSession2user;
  itemFromItemID_ssh_key := fun url id => inl {| Name := "laptop"; Content := "ssh-ed25519" |};
  IsUserEnabled := memIsUserEnabled;
  GetWebauthnUser := memGetWebauthnUser;
  Create := memCreate;
  Delete := memDelete;
  GetWebauthnSession := cookieGetSession;
  SaveWebauthnSession := cookieSaveSession;
  BeginRegistration := fun wuser => inl ("creation-options", challengeFor wuser);
  FinishRegistration := fun wuser challenge credentials =>
    if String.eqb credentials challenge then inl ("credential-of-" +:+ WebAuthnName wuser)
    else inr (errorString "Error validating challenge");
  BeginLogin := fun wuser => inl ("request-options", challengeFor wuser);
  ValidateLogin := jsonValidateLogin;
  sessionExtensions := fun _ => None;
  clientDataExtensions := jsonClientExtensions;
  Marshal_creation := fun o => inl (list_byte_of_string o);
  Marshal_request := fun o _ => inl (list_byte_of_string o);
  Decode := jsonDecode
|}.
End Ref.

(** The decimal text of an integer, as a JSON document writes it, and the
    integer a decimal text denotes. *)
Definition decimal (z : Z) : string := NilZero.string_of_int (Z.to_int z).

Definition integer (s : string) : option Z := Z.of_int <$> NilZero.int_of_string s.

(** ** Vocabulary of the statements *)
Section Vocabulary.
Context `{X : Externals}.

(** The state in which the router hands a request to a handler: a response
    writer nothing was written to, and no call made yet. *)
Definition fresh (r : Request) (db : DB) : State :=
  {| resp := newResponseWriter; req := r; store := db; calls := [] |}.

(** What [r.FormValue(key)] reads on a request. *)
Definition formValue (r : Request) (key : string) : string :=
  fst (Request_FormValue key r).

(** The bytes a reader of the request's body would get. *)
Definition bodyBytes (r : Request) : list byte := pending (Body r).

Definition isForward (e : Event) : bool :=
  match e with Forward _ _ => true | _ => false end.

Definition isDelete (e : Event) : bool :=
  match e with CallDelete _ => true | _ => false end.

(** The calls that make up a ceremony: loading or saving a session, and
    the ceremony library's begin and finish. *)
Definition isCeremony (e : Event) : bool :=
  match e with
  | CallGetWebauthnSession _ | CallSaveWebauthnSession _
  | CallBeginRegistration _ | CallFinishRegistration _
  | CallBeginLogin _ | CallFinishLogin _ _ => true
  | _ => false
  end.

(** No call of a list is of a given kind. *)
Definition none (p : Event -> bool) (l : list Event) : Prop :=
  forallb (fun e => negb (p e)) l = true.

Definition is4xx (code : Z) : Prop := 400 <= code < 500.

(** A request turned away by the ceremony check: a 400 answer, the store
    as it was, nothing forwarded and nothing deleted. *)
Definition rejected (db : DB) (s' : State) : Prop :=
  status (resp s') = Some StatusBadRequest /\ store s' = db /\
  none isForward (calls s') /\ none isDelete (calls s').

(** A request turned away for its input before anything else is asked: a
    500 answer carrying one line, no call made, the store as it was. *)
Definition turnedAway (db : DB) (line : text) (s' : State) : Prop :=
  status (resp s') = Some StatusInternalServerError /\
  written (resp s') = [Line line] /\
  calls s' = [] /\ store s' = db.

Definition invalidFormText : text := Lit "Invalid form-data parameters".

(** The address [userIDFromSession] asks in each generation. *)
Definition session2userURL : string := "https://localhost:3000/server_context/session2user".
Definition legacySession2userURL : string := "https://localhost:3000/user/session2user".
End Vocabulary.

(** ** Example requests, run in the reference world *)
Module Examples.

(** [url.QueryEscape], to write the bodies below. *)
Definition hexDigit (n : N) : ascii :=
  if (n <? 10)%N then ascii_of_N (48 + n) else ascii_of_N (55 + n).

Definition unreserved (c : ascii) : bool :=
  let n := N_of_ascii c in
  (((48 <=? n) && (n <=? 57)) || ((65 <=? n) && (n <=? 90)) || ((97 <=? n) && (n <=? 122)) ||
   (n =? 45) || (n =? 95) || (n =? 46) || (n =? 126))%N.

Fixpoint QueryEscape (s : string) : string :=
  match s with
  | EmptyString => EmptyString
  | String c rest =>
      if unreserved c then String c (QueryEscape rest)
      else if Ascii.eqb c " " then String "+" (QueryEscape rest)
      else
        let n := N_of_ascii c in
        String "%" (String (hexDigit (n / 16)) (String (hexDigit (n mod 16)) (QueryEscape rest)))
  end.

(** A quoted JSON string, and a one-member-per-pair JSON object. *)
Definition quoted (s : string) : string := dquote +:+ s +:+ dquote.

Fixpoint members (l : list (string * string)) : string :=
  match l with
  | [] => ""
  | [(k, v)] => quoted k +:+ ":" +:+ v
  | (k, v) :: l => quoted k +:+ ":" +:+ v +:+ "," +:+ members l
  end.

Definition object (l : list (string * string)) : string := "{" +:+ members l +:+ "}".

(** alice (7) has enrolled a credential; bob (8) has not. *)
Definition db0 : @DB Ref.world :=
  [ Ref.mkUser 7 "alice" true ["credential-of-alice"]; Ref.mkUser 8 "bob" false [] ].

(** A POST with a url-encoded body. *)
Definition post (cookies : list (string * string)) (vars : gmap string string) (body : string)
    : Request :=
  {| Method := "POST"; Host := "gogs.example";
     Header := {[ "Content-Type" := "application/x-www-form-urlencoded" ]};
     Cookies := cookies; Body := NewReader (list_byte_of_string body);
     Form := None; Vars := vars |}.

(** alice's browser: logged in, with a login ceremony begun. *)
Definition aliceCookies : list (string * string) :=
  [("session", "7"); ("authentication", "challenge-alice")].

(** bob's browser: logged in, no ceremony. *)
Definition bobCookies : list (string * string) := [("session", "8")].

(** An assertion that answers alice's challenge and echoes the given
    extensions ([None]: no extensions member at all). *)
Definition assertionFor (extensions : option string) : string :=
  match extensions with
  | None => object [("challenge", quoted "challenge-alice")]
  | Some e => object [("challenge", quoted "challenge-alice"); ("extensions", e)]
  end.

Definition echo (confirmation : string) : option string :=
  Some (object [("txAuthSimple", quoted confirmation)]).

(** The request to disable alice's second factor, carrying an assertion
    that was made for deleting a repository. *)
Definition disableWithForeignAssertion : Request :=
  post aliceCookies ∅
    ("assertion=" +:+ QueryEscape (assertionFor (echo "Confirm repository delete: alice/site"))).


(** The same with the assertion made for alice/site. *)
Definition deleteSite : Request :=
  post aliceCookies {[ "username" := "alice"; "reponame" := "site" ]}
    ("action=delete&assertion=" +:+
     QueryEscape (assertionFor (echo "Confirm repository delete: alice/site"))).

(** bob deletes bob/notes; he has no credential and sends no assertion. *)
Definition bobDeletesNotes : Request :=
  post bobCookies {[ "username" := "bob"; "reponame" := "notes" ]} "action=delete".

(** bob asks to disable a second factor he never enrolled. *)
Definition bobDisables : Request := post bobCookies ∅ "confirm=yes".
Definition bobDisablesWithAssertion : Request :=
  post bobCookies ∅ ("assertion=" +:+ QueryEscape (assertionFor None)).

(** Logins. *)
Definition bobBeginsLogin : Request := post [] ∅ "user_name=bob".
Definition bobLogsIn : Request := post [] ∅ "user_name=bob&password=hunter2&assertion=none".
Definition aliceLogsIn (extensions : option string) : Request :=
  post [("authentication", "challenge-alice")] ∅
    ("user_name=alice&password=secret&assertion=" +:+ QueryEscape (assertionFor extensions)).

(** bob, who has no second factor, logs in with an assertion that echoes
    an empty object. *)
Definition bobEchoes : Request :=
  post [] ∅ ("user_name=bob&password=hunter2&assertion=" +:+
             QueryEscape (assertionFor (Some "{}"))).

(** Registration with a field missing or malformed. *)
Definition registerNoName : Request := post [] ∅ "username=&userID=7".
Definition registerBadID : Request := post [] ∅ "username=alice&userID=seven".

(** A settings change that is not a deletion. *)
Definition renameRepo : Request :=
  post aliceCookies {[ "username" := "alice"; "reponame" := "site" ]} "action=rename&name=web".

(** A well-formed request to begin registration, and the end of a
    registration ceremony begun for carol. *)
Definition registerAlice : Request := post [] ∅ "username=alice&userID=7".
Definition finishRegisterCarol : Request :=
  post [("registration", "challenge-carol")] ∅
    "username=carol&userID=9&credentials=challenge-carol".

(** alice disables her second factor, adds an SSH key and deletes one,
    each with an assertion made for that very action. *)
Definition aliceDisables : Request :=
  post aliceCookies ∅
    ("assertion=" +:+ QueryEscape (assertionFor (echo "Confirm disable webauthn for alice"))).
Definition aliceAddsKey : Request :=
  post aliceCookies ∅
    ("title=laptop&assertion=" +:+ QueryEscape (assertionFor (echo "Add SSH key named: laptop"))).
Definition aliceDeletesKey : Request :=
  post aliceCookies ∅
    ("id=3&assertion=" +:+ QueryEscape (assertionFor (echo "Delete SSH key named: laptop"))).

(** alice disables her second factor with an assertion that echoes the
    right text and one member more. *)
Definition aliceDisablesWithMore : Request :=
  post aliceCookies ∅
    ("assertion=" +:+
     QueryEscape
       (assertionFor
          (Some (object [("txAuthSimple", quoted "Confirm disable webauthn for alice");
                         ("count", "1")])))).

(** alice asks for a ceremony over a text of her choosing. *)
Definition aliceAsksToConfirm : Request :=
  post aliceCookies ∅ ("auth_text=" +:+ QueryEscape "Confirm repository delete: alice/site").

(** A request without any cookie. *)
Definition strangerDisables : Request := post [] ∅ "assertion=none".
End Examples.

(** ** Example requests of the [webauthn_firewall] package *)
Module FirewallExamples.
Import Examples.

(** A request as the firewall wraps it: the body captured, no error yet, a
    resolver for the display name of an SSH key, JSON as the default
    source. *)
Definition extended (q : Request) : Firewall.ExtendedRequest :=
  {| Firewall.Request_ := q;
     Firewall.captured := bodyBytes q;
     Firewall.err := None;
     Firewall.contextGetters := {[ "ssh_key_name" := fun _ => inl (Str "laptop") ]};
     Firewall.getInputDefault := Firewall.JSONSource |}.

(** A POST with a JSON body. *)
Definition jsonPost (host : string) (body : string) : Request :=
  {| Method := "POST"; Host := host;
     Header := {[ "Content-Type" := "application/json" ]};
     Cookies := []; Body := NewReader (list_byte_of_string body);
     Form := None; Vars := ∅ |}.

(** The deletion of SSH key 3; the form has no title field. *)
Definition deleteKey : Firewall.ExtendedRequest := extended (post bobCookies ∅ "id=3").

(** A document with an integer one past 2^53, the first that a float64
    cannot hold. *)
Definition repoDocument : string :=
  object [("repo", object [("id", "9007199254740993"); ("private", "true")])].

Definition repoRequest : Firewall.ExtendedRequest := extended (jsonPost "gogs.example" repoDocument).

(** A firewall with one backend, and a request for a host it does not
    serve. *)
Definition targets : gmap string string := {[ "gogs.example" := "https://localhost:3000" ]}.

Definition strayRequest : Firewall.ExtendedRequest := extended (jsonPost "evil.example" "{}").

(** A document with one integer member, for any integer. *)
Definition counterDocument (z : Z) : string :=
  "{" +:+ Examples.quoted "n" +:+ ":" +:+ decimal z +:+ "}".

(** A request whose URL variable [id] is the largest int64, and one whose
    variable is one more. *)
Definition largestID : Firewall.ExtendedRequest :=
  extended (post bobCookies {[ "id" := "9223372036854775807" ]} "").
Definition tooLargeID : Firewall.ExtendedRequest :=
  extended (post bobCookies {[ "id" := "9223372036854775808" ]} "").
End FirewallExamples.

(** ** The value of a decimal numeral, digit by digit *)

(** What the loop of [ParseUint] accumulates over the digits [d] when it
    starts from [acc] and nothing overflows. *)
Fixpoint horner (d : Decimal.uint) (acc : Z) : Z :=
  match d with
  | Decimal.Nil => acc
  | Decimal.D0 d => horner d (acc * 10 + 0)
  | Decimal.D1 d => horner d (acc * 10 + 1)
  | Decimal.D2 d => horner d (acc * 10 + 2)
  | Decimal.D3 d => horner d (acc * 10 + 3)
  | Decimal.D4 d => horner d (acc * 10 + 4)
  | Decimal.D5 d => horner d (acc * 10 + 5)
  | Decimal.D6 d => horner d (acc * 10 + 6)
  | Decimal.D7 d => horner d (acc * 10 + 7)
  | Decimal.D8 d => horner d (acc * 10 + 8)
  | Decimal.D9 d => horner d (acc * 10 + 9)
  end.

Definition minInt64 : Z := - 2 ^ 63.
Definition maxInt64 : Z := 2 ^ 63 - 1.

(** The sign and range step of [ParseInt], on the result of [ParseUint]
    for the digits. *)
Definition signed (neg : bool) (s0 : string) (res : Z * option error) : int64 * option error :=
  let '(un, err) := res in
  match err with
  | Some e =>
      if negb (isErrRange e) then (0, Some (syntaxError "ParseInt" s0))
      else if neg then (- 2 ^ 63, Some (rangeError "ParseInt" s0))
      else (2 ^ 63 - 1, Some (rangeError "ParseInt" s0))
  | None =>
      let cutoff := 2 ^ 63 in
      if negb neg && (un >=? cutoff) then (cutoff - 1, Some (rangeError "ParseInt" s0))
      else if neg && (un >? cutoff) then (- cutoff, Some (rangeError "ParseInt" s0))
      else (if neg then - un else un, None)
  end.

(** ** Vocabulary of the further statements *)
Section Ceremony.
Context `{X : Externals}.

(** The ceremony check proper passes for the user a query names: the user
    is on record, the authentication session loads off the request, and
    the assertion validates against it. *)
Definition validates (db : DB) (q : WebauthnQuery) (a : string) (r : Request) : Prop :=
  exists wuser sd c,
    GetWebauthnUser db q = inl wuser /\
    GetWebauthnSession "authentication" r = inl sd /\
    ValidateLogin wuser sd a = inl c.

(** It passes, and the assertion echoes exactly the extensions [E]. *)
Definition ceremonyPasses (db : DB) (q : WebauthnQuery) (E : AuthenticationExtensions)
    (a : string) (r : Request) : Prop :=
  validates db q a r /\ clientDataExtensions a = E.

Definition isCreate (e : Event) : bool :=
  match e with CallCreate _ => true | _ => false end.

Definition isSession2User (e : Event) : bool :=
  match e with CallSession2User _ => true | _ => false end.

(** An answer sent with [http.Error]: the status and the one line. *)
Definition answeredError (code : Z) (line : text) (w : ResponseWriter) : Prop :=
  status w = Some code /\ written w = [Line line].
End Ceremony.

Section Parting.
Context `{X : Externals}.

(** The requests on which the two generations of finish-login part: a
    readable body that names a user and carries an assertion, an account
    with a second factor enabled, an assertion that validates against the
    authentication session, and a map of extensions echoed in it, be it an
    empty one. *)
Definition parted (db : DB) (r : Request) : Prop :=
  failure (Body r) = None /\
  formValue r "user_name" <> "" /\
  formValue r "assertion" <> "" /\
  IsUserEnabled db (QueryByUsername (formValue r "user_name")) = true /\
  validates db (QueryByUsername (formValue r "user_name")) (formValue r "assertion")
    (ensureForm r) /\
  clientDataExtensions (formValue r "assertion") <> None.
End Parting.

Section Outcomes.
Context `{X : Externals}.

(** A request refused by a handler that guards the credential store: an
    error answer, the store as it was, nothing created, deleted or
    forwarded. *)
Definition refused (db : DB) (s' : State) : Prop :=
  (status (resp s') = Some StatusInternalServerError \/ status (resp s') = Some StatusBadRequest) /\
  store s' = db /\
  none isDelete (calls s') /\ none isCreate (calls s') /\ none isForward (calls s').

(** The answer that tells the page to reload. *)
Definition reloads (w : ResponseWriter) : Prop :=
  status w = Some StatusOK /\ written w = [Bytes (fst redirectTo_json)].
End Outcomes.

Section Forwarding.
Context `{X : Externals}.

(** A request handed to the backend once, with the given body, and the
    store left as it was. *)
Definition forwardedOnce (db : DB) (body : list byte) (s' : State) : Prop :=
  store s' = db /\
  exists before,
    calls s' = (before ++ [Forward "https://localhost:3000" body])%list /\
    none isForward before /\ none isDelete before /\ none isCreate before.
End Forwarding.

Section Sessions.
Context `{X : Externals}.

(** The error [userIDFromSession] returns for an answer of the backend:
    the request's own error, or the fixed one when the backend says the
    session is not ok. *)
Definition sessionError (res : result (bool * int64)) : option error :=
  match res with
  | inr err => Some err
  | inl (false, _) => Some (errorString "Unable to retrieve the userID for this cookie session")
  | inl (true, _) => None
  end.

(** Turned away at the door: a 500 answer with the session error, the
    backend asked once for the session and nothing else done; the request
    is not even read. *)
Definition turnedAwayAtSession (url : string) (e : error) (r : Request) (db : DB) (s' : State) : Prop :=
  answeredError StatusInternalServerError (ErrorOf e) (resp s') /\
  calls s' = [CallSession2User url] /\ store s' = db /\ req s' = r.
End Sessions.

Section Offers.
Context `{X : Externals}.

(** The conditions under which [beginAttestation_base] sends a ceremony
    offer: the account has a second factor enabled and is on record, the
    library begins a login for it, the options encode with the given
    extensions to the bytes [json], and the session is saved. *)
Definition offers (db : DB) (q : WebauthnQuery) (extensions : AuthenticationExtensions)
    (r : Request) (json : list byte) : Prop :=
  exists wuser options sessionData cookie,
    IsUserEnabled db q = true /\
    GetWebauthnUser db q = inl wuser /\
    BeginLogin wuser = inl (options, sessionData) /\
    Marshal_request options extensions = inl json /\
    SaveWebauthnSession "authentication" sessionData r = inl cookie.
End Offers.

Section Labels.
Context `{X : Externals}.

(** An answer that says what it carries: an error line sent by
    [http.Error] goes out as plain text that is not to be sniffed, and
    anything else as JSON. *)
Definition labelled (w : ResponseWriter) : Prop :=
  match written w with
  | [Line _] =>
      wheader w !! "Content-Type" = Some "text/plain; charset=utf-8" /\
      wheader w !! "X-Content-Type-Options" = Some "nosniff"
  | _ => wheader w !! "Content-Type" = Some "application/json"
  end.
End Labels.

(** ** Chains of input lookups on an [ExtendedRequest] *)
Section Lookups.
Context `{X : Externals}.

(** One call of an input accessor of [extended_request_handlers.go]. *)
Inductive Lookup :=
| FormLookup (args : list string)          (* r.GetFormInput_WithErr(args...) *)
| FormInt64Lookup (args : list string)     (* r.GetFormInputInt64_WithErr(args...) *)
| URLLookup (args : list string)           (* r.GetURLInput_WithErr(args...) *)
| URLInt64Lookup (args : list string)      (* r.GetURLInputInt64_WithErr(args...) *)
| DefaultLookup (args : list string)       (* r.Get_WithErr(args...) *)
| DefaultInt64Lookup (args : list string). (* r.GetInt64_WithErr(args...) *)

(** The error a call returns and the request it leaves. *)
Definition perform (op : Lookup) (r : Firewall.ExtendedRequest)
    : option error * Firewall.ExtendedRequest :=
  match op with
  | FormLookup args => let '((_, e), r) := Firewall.GetFormInput_WithErr args r in (e, r)
  | FormInt64Lookup args => let '((_, e), r) := Firewall.GetFormInputInt64_WithErr args r in (e, r)
  | URLLookup args => let '((_, e), r) := Firewall.GetURLInput_WithErr args r in (e, r)
  | URLInt64Lookup args => let '((_, e), r) := Firewall.GetURLInputInt64_WithErr args r in (e, r)
  | DefaultLookup args => let '((_, e), r) := Firewall.Get_WithErr args r in (e, r)
  | DefaultInt64Lookup args => let '((_, e), r) := Firewall.GetInt64_WithErr args r in (e, r)
  end.

(** A sequence of calls on the same request, in program order. *)
Fixpoint performAll (ops : list Lookup) (r : Firewall.ExtendedRequest)
    : list (option error) * Firewall.ExtendedRequest :=
  match ops with
  | [] => ([], r)
  | op :: ops =>
      let '(e, r) := perform op r in
      let '(es, r) := performAll ops r in
      (e :: es, r)
  end.

(** The first non-nil error of a list of returned errors. *)
Fixpoint firstError (es : list (option error)) : option error :=
  match es with
  | [] => None
  | Some e :: _ => Some e
  | None :: es => firstError es
  end.
End Lookups.

(** ** Start-up: the session key ([init] and [genSessionKey] of [main.go]) *)

(** *** [encoding/hex] *)

Definition hextable : string := "0123456789abcdef".

(** [hextable[n]] *)
Definition hexChar (n : N) : ascii :=
  match String.get (N.to_nat n) hextable with
  | Some c => c
  | None => "0"%char
  end.

(** [reverseHexTable]: the value of a hex digit of either case; [None]
    stands for the table's 0xff. *)
Definition reverseHexTable (c : ascii) : option N :=
  let n := N_of_ascii c in
  if ((48 <=? n) && (n <=? 57))%N then Some (n - 48)%N
  else if ((97 <=? n) && (n <=? 102))%N then Some (n - 87)%N
  else if ((65 <=? n) && (n <=? 70))%N then Some (n - 55)%N
  else None.

Inductive hexError :=
| InvalidByteError (c : ascii)   (* encoding/hex: invalid byte *)
| ErrLength.                     (* encoding/hex: odd length hex string *)

(** [hex.EncodeToString]: two digits a byte, the high nibble first. *)
Fixpoint EncodeToString (src : list byte) : string :=
  match src with
  | [] => ""
  | v :: src =>
      let n := N_of_ascii (ascii_of_byte v) in
      String (hexChar (N.shiftr n 4)) (String (hexChar (N.land n 15)) (EncodeToString src))
  end.

(** [hex.DecodeString]: the bytes decoded before the first error, and the
    error. An invalid digit is reported before an odd length. *)
Fixpoint DecodeString (s : string) : list byte * option hexError :=
  match s with
  | EmptyString => ([], None)
  | String p EmptyString =>
      match reverseHexTable p with
      | None => ([], Some (InvalidByteError p))
      | Some _ => ([], Some ErrLength)
      end
  | String p (String q rest) =>
      match reverseHexTable p with
      | None => ([], Some (InvalidByteError p))
      | Some a =>
          match reverseHexTable q with
          | None => ([], Some (InvalidByteError q))
          | Some b =>
              let '(out, err) := DecodeString rest in
              (byte_of_ascii (ascii_of_N (N.lor (N.shiftl a 4) b)) :: out, err)
          end
      end
  end.

(** *** What start-up calls *)

Class StartupExternals := {
  WebAuthn : Type;                                  (* *webauthn.WebAuthn *)
  SessionStore : Type;                              (* *session.Store *)
  log_NewConsole : option error;
  (* webauthn.New of a Config with RPDisplayName, RPID and RPOrigin *)
  webauthn_New : string -> string -> string -> result WebAuthn;
  DefaultEncryptionKeyLength : nat;
  session_NewStore : list byte -> result SessionStore;
  session_GenerateSecureKey : nat -> result (list byte)
}.

(** What start-up panics with. *)
Inductive panicValue :=
| Panic (msg : string) (err : error)         (* panic(msg + err.Error()) *)
| PanicHex (msg : string) (err : hexError)
| PanicShortKey (have want : nat).           (* Session key not long enough: %d < %d *)

Definition ENV_SESSION_KEY : string := "SESSION_KEY".

(** [os.Getenv]: an unset variable reads as the empty string. *)
Definition Getenv (env : gmap string string) (key : string) : string :=
  default "" (env !! key).

Module Startup.
Section WithExternals.
Context `{S : StartupExternals}.

(** [init] of [main.go]; the value is the pair of package variables it
    sets, [webauthnAPI] and [sessionStore]. *)
Definition init (env : gmap string string) : (WebAuthn * SessionStore) + panicValue :=
  match log_NewConsole with
  | Some err => inr (Panic "Unable to create new logger: " err)
  | None =>
      match webauthn_New "Foobar Corp." "localhost" Main.frontendAddress with
      | inr err => inr (Panic "Unable to initialize Webauthn API: " err)
      | inl webauthnAPI =>
          let '(sessionKey, err) := DecodeString (Getenv env ENV_SESSION_KEY) in
          match err with
          | Some err => inr (PanicHex "Failed to decode session key env variable: " err)
          | None =>
              if (length sessionKey <? DefaultEncryptionKeyLength)%nat
              then inr (PanicShortKey (length sessionKey) DefaultEncryptionKeyLength)
              else
                match session_NewStore sessionKey with
                | inr err => inr (Panic "Failed to create webauthn session store: " err)
                | inl sessionStore => inl (webauthnAPI, sessionStore)
                end
          end
      end
  end.

(** [genSessionKey]: the line it prints. *)
Definition genSessionKey : string + panicValue :=
  match session_GenerateSecureKey DefaultEncryptionKeyLength with
  | inr err => inr (Panic "Unable to generate secure session key: " err)
  | inl key =>
      inl ("export " +:+ ENV_SESSION_KEY +:+ "=" +:+ EncodeToString key +:+
           String (ascii_of_nat 10) "")
  end.
End WithExternals.
End Startup.

(** A start-up world: the logger and the library come up, keys are 32
    bytes long, the session store is its key, and the generated key is 32
    asterisks. *)
Definition startupWorld : StartupExternals := {|
  WebAuthn := string;
  SessionStore := list byte;
  log_NewConsole := None;
  webauthn_New := fun _ _ RPOrigin => inl RPOrigin;
  DefaultEncryptionKeyLength := 32;
  session_NewStore := fun key => inl key;
  session_GenerateSecureKey := fun n => inl (List.repeat "*"%byte n)
|}.

(** ** [userIDFromJWT] of [main.go] *)

(** [strings.Split(s, sep)] for a one-character separator: the pieces
    between the separators, one more than there are separators. *)
Fixpoint Split (s : string) (sep : ascii) : list string :=
  match s with
  | EmptyString => [EmptyString]
  | String c rest =>
      if Ascii.eqb c sep then EmptyString :: Split rest sep
      else
        match Split rest sep with
        | piece :: pieces => String c piece :: pieces
        | [] => [String c EmptyString]
        end
  end.

(** No space among the characters of [s]. *)
Fixpoint spaceless (s : string) : bool :=
  match s with
  | EmptyString => true
  | String c rest => negb (Ascii.eqb c " ") && spaceless rest
  end.

(** What a Go function does: it returns, or it panics. *)
Inductive outcome (A : Type) :=
| Returns (a : A)
| Panics (msg : string).
Arguments Returns {A}.
Arguments Panics {A}.

(** A value of a [jwt.MapClaims] entry, decoded from the token's JSON by
    the default decoder: a number is a float64. *)
Inductive claim (float64 : Type) :=
| ClaimNumber (f : float64)
| ClaimString (s : string)
| ClaimBool (b : bool)
| ClaimOther.
Arguments ClaimNumber {float64}.
Arguments ClaimString {float64}.
Arguments ClaimBool {float64}.
Arguments ClaimOther {float64}.

Class JWTExternals := {
  float64 : Type;
  (* new(jwt.Parser).ParseUnverified(tokenString, jwt.MapClaims{}): the claims *)
  ParseUnverified : string -> result (gmap string (claim float64));
  (* the conversion int64(f) *)
  int64_of_float64 : float64 -> int64
}.

Section JWT.
Context `{J : JWTExternals}.

(** [r.Header.Get]: an absent field reads as the empty string. *)
Definition Header_Get (r : Request) (key : string) : string :=
  default "" (Header r !! key).

Definition userIDFromJWT (r : Request) : outcome (int64 * option error) :=
  let authorizationString := Header_Get r "Authorization" in
  match Split authorizationString " " with
  | _ :: tokenString :: _ =>
      match ParseUnverified tokenString with
      | inr err => Returns (0, Some err)
      | inl claims =>
          match claims !! "id" with
          | Some (ClaimNumber userID) => Returns (int64_of_float64 userID, None)
          | _ => Returns (0, Some (errorString "Unable to decode userID from JWT token"))
          end
      end
  | _ =>
      Panics "runtime error: index out of range [1] with length 1"
  end.
End JWT.

(** A token parser for the examples: it knows one token, whose claims
    give the user id 7 as a number. *)
Definition jwtWorld : JWTExternals :=
  {| float64 := Z;
     ParseUnverified := fun tokenString =>
       if String.eqb tokenString "e30.eyJpZCI6N30."
       then inl {[ "id" := ClaimNumber 7 ]}
       else inr (errorString "token contains an invalid number of segments");
     int64_of_float64 := fun f => f |}.

Definition bearerRequest : Request :=
  {| Method := "GET"; Host := "localhost:8081";
     Header := {[ "Authorization" := "Bearer e30.eyJpZCI6N30. trailing" ]};
     Cookies := []; Body := NewReader []; Form := None; Vars := ∅ |}.

(** ** What the server sends

    [wheader] holds the fields a handler sets with [w.Header().Set]. The
    server of [net/http], which is not among the sources, completes them
    when it sends the header; by the documentation of
    [ResponseWriter.Write], if the header does not contain a Content-Type
    line, a Content-Type is added, set to the result of passing the initial
    512 bytes of written data to [DetectContentType]. *)
Class ServerExternals := {
  (* http.DetectContentType *)
  DetectContentType : list byte -> string;
  (* err.Error() *)
  Error_text : error -> string
}.

Section Wire.
Context `{V : ServerExternals}.

(** The bytes of a chunk; [http.Error] writes its line with [fmt.Fprintln]. *)
Definition chunkBytes (c : chunk) : list byte :=
  match c with
  | Bytes b => b
  | Line (Lit s) => list_byte_of_string s ++ [Byte.x0a]
  | Line (ErrorOf e) => list_byte_of_string (Error_text e) ++ [Byte.x0a]
  end.

Definition bytesWritten (w : ResponseWriter) : list byte :=
  concat (map chunkBytes (written w)).

(** The Content-Type line of an answer the handler wrote itself: the one
    the handler declared, or else the one detected from what it wrote. *)
Definition contentTypeSent (w : ResponseWriter) : option string :=
  match wheader w !! "Content-Type" with
  | Some declared => Some declared
  | None =>
      match bytesWritten w with
      | [] => None
      | data => Some (DetectContentType (take 512 data))
      end
  end.
End Wire.

(** A server for the examples: whatever is written is taken for text. *)
Definition serverWorld : ServerExternals :=
  {| DetectContentType := fun _ => "text/plain; charset=utf-8";
     Error_text := fun _ => "error" |}.

(** * Properties *)

(** Unfolds the monad and the logged calls, leaving the collaborators'
    results to case on. *)
Ltac hunfold :=
  cbv beta iota zeta delta
    [mbind mret Handler_bind Handler_ret getReq getStore onResp onReq onStore
     emit return_ call run when_ switch failIf orFail invalidForm logRequest log_Error
     userIDFromSession
     db_IsUserEnabled db_GetWebauthnUser db_Create db_Delete sessionStore_Get
     sessionStore_Save webauthnAPI_FinishLogin webauthnAPI_BeginLogin
     webauthnAPI_BeginRegistration webauthnAPI_FinishRegistration fst snd] in *.

(** Handlers called by other handlers are rewritten with their own
    lemmas rather than unfolded in place. *)
#[global] Arguments FormValue : simpl never.
#[global] Arguments formValue : simpl never.
#[global] Arguments Main.beginAttestation_base : simpl never.
#[global] Arguments Legacy.beginAttestation_base : simpl never.
#[global] Arguments Main.checkWebauthnAssertion : simpl never.
#[global] Arguments Main.deleteRepositoryHelper : simpl never.
#[global] Arguments Legacy.deleteRepositoryHelper : simpl never.
#[global] Arguments Main.proxyRequest : simpl never.
#[global] Arguments Main.NewRequestRefiller : simpl never.
#[global] Arguments Main.Refill : simpl never.
#[global] Arguments ServeHTTP : simpl never.
#[global] Arguments bodyBytes : simpl never.
#[global] Arguments NewReader : simpl never.

(** ** Requests, forms and bodies *)
Section Requests.
Context `{X : Externals}.

Lemma set_Body_self (r : Request) : set_Body (Body r) r = r.
Proof. destruct r; reflexivity. Qed.

Lemma set_Body_twice (b b' : Reader) (r : Request) : set_Body b (set_Body b' r) = set_Body b r.
Proof. reflexivity. Qed.

Lemma NewReader_pending (b : Reader) : failure b = None -> NewReader (pending b) = b.
Proof. destruct b as [p f]; cbn; intros ->; reflexivity. Qed.

Lemma refilled_self (r : Request) :
  failure (Body r) = None -> set_Body (NewReader (bodyBytes r)) r = r.
Proof. intros H. unfold bodyBytes. rewrite NewReader_pending by exact H. apply set_Body_self. Qed.

Lemma Form_ensureForm (r : Request) : exists f, Form (ensureForm r) = Some f.
Proof.
  unfold ensureForm. destruct (Form r) as [f|] eqn:E; [eauto|].
  destruct (ParseMultipartForm r) as [vals rest]. cbn. eauto.
Qed.

Lemma ensureForm_cached (r : Request) (f : Values) : Form r = Some f -> ensureForm r = r.
Proof. intros H. unfold ensureForm. rewrite H. reflexivity. Qed.

Lemma ensureForm_idem (r : Request) : ensureForm (ensureForm r) = ensureForm r.
Proof. destruct (Form_ensureForm r) as [f Hf]. exact (ensureForm_cached _ _ Hf). Qed.

(** Once the form is parsed, putting a new body in place changes nothing
    of what the form fields read. *)
Lemma ensureForm_set_Body (b : Reader) (r : Request) :
  ensureForm (set_Body b (ensureForm r)) = set_Body b (ensureForm r).
Proof.
  destruct (Form_ensureForm r) as [f Hf].
  apply (ensureForm_cached _ f). cbn. exact Hf.
Qed.

Lemma Request_FormValue_eq (key : string) (r : Request) :
  Request_FormValue key r = (formValue r key, ensureForm r).
Proof.
  reflexivity.
Qed.

Lemma formValue_ensureForm (key : string) (r : Request) :
  formValue (ensureForm r) key = formValue r key.
Proof. unfold formValue, Request_FormValue. cbn. rewrite ensureForm_idem. reflexivity. Qed.

Lemma formValue_set_Body (b : Reader) (key : string) (r : Request) :
  formValue (set_Body b (ensureForm r)) key = formValue r key.
Proof.
  unfold formValue, Request_FormValue. cbn. rewrite ensureForm_set_Body. reflexivity.
Qed.

Lemma FormValue_eq (key : string) (s : State) :
  FormValue key s =
    (Continue (formValue (req s) key),
     {| resp := resp s; req := ensureForm (req s); store := store s; calls := calls s |}).
Proof. unfold FormValue. rewrite Request_FormValue_eq. reflexivity. Qed.

Lemma Vars_ensureForm (r : Request) : Vars (ensureForm r) = Vars r.
Proof.
  unfold ensureForm. destruct (Form r); [reflexivity|].
  destruct (ParseMultipartForm r). reflexivity.
Qed.

Lemma Cookies_ensureForm (r : Request) : Cookies (ensureForm r) = Cookies r.
Proof.
  unfold ensureForm. destruct (Form r); [reflexivity|].
  destruct (ParseMultipartForm r). reflexivity.
Qed.


Lemma ServeHTTP_eq (s : State) :
  ServeHTTP s =
    (Continue tt,
     {| resp := Write (Bytes (snd (RoundTrip "https://localhost:3000" (req s))))
                  (WriteHeader (fst (RoundTrip "https://localhost:3000" (req s))) (resp s));
        req := set_Body (snd (ReadAll (Body (req s)))) (req s);
        store := store s;
        calls := calls s ++ [Forward "https://localhost:3000" (bodyBytes (req s))] |}).
Proof.
  unfold ServeHTTP, ReverseProxy_ServeHTTP, bodyBytes. cbn.
  destruct (RoundTrip "https://localhost:3000" (req s)). reflexivity.
Qed.

Lemma Refill_eq (rf : RequestRefiller) (s : State) :
  Main.Refill rf s =
    (Continue tt,
     {| resp := resp s; req := set_Body (NewReader (data rf)) (req s);
        store := store s; calls := calls s |}).
Proof. reflexivity. Qed.

Lemma bodyBytes_set_Body (data : list byte) (r : Request) :
  bodyBytes (set_Body (NewReader data) r) = data.
Proof. reflexivity. Qed.
End Requests.

(** ** Lists of calls *)
Section Calls.


Lemma none_In (p : Event -> bool) (l : list Event) (e : Event) :
  none p l -> In e l -> p e = false.
Proof.
  unfold none. rewrite forallb_forall. intros H Hin.
  specialize (H e Hin). destruct (p e); [discriminate | reflexivity].
Qed.

Lemma none_Forward (l : list Event) (t : string) (b : list byte) :
  none isForward l -> In (Forward t b) l -> False.
Proof. intros H Hin. pose proof (none_In _ _ _ H Hin). discriminate. Qed.
End Calls.

(** ** The request refiller (C9) *)
Section BufferedRequest.
Context `{X : Externals}.

Lemma NewRequestRefiller_eq (s : State) :
  Main.NewRequestRefiller s =
    match failure (Body (req s)) with
    | Some e =>
        (Continue (inr e),
         {| resp := resp s; req := set_Body (snd (ReadAll (Body (req s)))) (req s);
            store := store s; calls := calls s |})
    | None =>
        (Continue (inl {| data := bodyBytes (req s) |}),
         {| resp := resp s; req := set_Body (NewReader (bodyBytes (req s))) (req s);
            store := store s; calls := calls s |})
    end.
Proof.
  unfold Main.NewRequestRefiller, Main.Refill, bodyBytes. hunfold. cbn.
  destruct (failure (Body (req s))); reflexivity.
Qed.

Lemma Refill_iter (rf : RequestRefiller) (n : nat) (s : State) :
  Body (req s) = NewReader (data rf) ->
  Body (req (Nat.iter n (run (Main.Refill rf)) s)) = NewReader (data rf).
Proof. intros Hs. induction n as [|n IH]; cbn; [exact Hs | reflexivity]. Qed.

(** C9. After a successful capture, reading the body yields the bytes that
    were pending at construction, after any number of [Refill] calls, zero
    included; a [Refill] restores them whatever was done to the request in
    between; and a second [Refill] changes nothing. *)
Theorem refill_restores_captured_bytes (s s1 : State) (rf : RequestRefiller) :
  Main.NewRequestRefiller s = (Continue (inl rf), s1) ->
  data rf = bodyBytes (req s) /\
  (forall n : nat,
     fst (ReadAll (Body (req (Nat.iter n (run (Main.Refill rf)) s1)))) = (bodyBytes (req s), None)) /\
  (forall s2 : State,
     fst (ReadAll (Body (req (run (Main.Refill rf) s2)))) = (bodyBytes (req s), None)) /\
  (forall s2 : State,
     run (Main.Refill rf) (run (Main.Refill rf) s2) = run (Main.Refill rf) s2).
Proof.
  rewrite NewRequestRefiller_eq.
  destruct (failure (Body (req s))) eqn:E; [discriminate|].
  intros [= <- <-]. cbn [data]. repeat split.
  - intros n. rewrite (Refill_iter {| data := bodyBytes (req s) |}); reflexivity.
Qed.
End BufferedRequest.

(** The capture of a settings request in the reference world, followed by
    three rewinds. *)
Lemma refill_restores_captured_bytes_witness :
  let s := fresh (X := Ref.world) Examples.renameRepo Examples.db0 in
  let rf := {| data := bodyBytes Examples.renameRepo |} in
  Main.NewRequestRefiller s = (Continue (inl rf), s) /\
  fst (ReadAll (Body (req (Nat.iter 3 (run (Main.Refill rf)) s)))) =
    (list_byte_of_string "action=rename&name=web", None).
Proof.
  assert (H : Main.NewRequestRefiller (fresh (X := Ref.world) Examples.renameRepo Examples.db0) =
              (Continue (inl {| data := bodyBytes Examples.renameRepo |}),
               fresh (X := Ref.world) Examples.renameRepo Examples.db0)) by reflexivity.
  split; [exact H|].
  exact (proj1 (proj2 (refill_restores_captured_bytes _ _ _ H)) 3%nat).
Defined.

(** ** The settings dispatcher *)
Section SettingsDispatch.
Context `{X : Externals}.

(** What [repoSettings] hands on once it has read the action: the request
    with its form parsed and its body rewound. *)
Lemma Main_repoSettings_eq (r : Request) (db : DB) :
  failure (Body r) = None ->
  formValue r "action" <> "" ->
  run Main.repoSettings (fresh r db) =
    if String.eqb (formValue r "action") "delete"
    then run Main.deleteRepositoryHelper (fresh (set_Body (NewReader (bodyBytes r)) (ensureForm r)) db)
    else run Main.proxyRequest (fresh (set_Body (NewReader (bodyBytes r)) (ensureForm r)) db).
Proof.
  intros Hok Hne. unfold Main.repoSettings. hunfold. cbn.
  rewrite NewRequestRefiller_eq. cbn. rewrite Hok. cbn.
  rewrite (refilled_self r Hok). rewrite FormValue_eq. cbn.
  destruct (String.eqb_spec (formValue r "action") ""); [contradiction|]. cbn.
  rewrite Refill_eq. cbn.
  destruct (String.eqb (formValue r "action") "delete"); reflexivity.
Qed.

Lemma Legacy_repoSettings_eq (r : Request) (db : DB) :
  failure (Body r) = None ->
  formValue r "action" <> "" ->
  run Legacy.repoSettings (fresh r db) =
    if String.eqb (formValue r "action") "delete"
    then run Legacy.deleteRepositoryHelper (fresh (set_Body (NewReader (bodyBytes r)) (ensureForm r)) db)
    else run ServeHTTP (fresh (set_Body (NewReader (bodyBytes r)) (ensureForm r)) db).
Proof.
  intros Hok Hne. unfold Legacy.repoSettings. hunfold. cbn.
  rewrite Hok. cbn. rewrite !set_Body_twice. fold (bodyBytes r).
  rewrite (refilled_self r Hok). rewrite FormValue_eq. cbn.
  destruct (String.eqb_spec (formValue r "action") ""); [contradiction|]. cbn.
  destruct (String.eqb (formValue r "action") "delete"); [reflexivity|].
  cbn. unfold fresh. rewrite !ServeHTTP_eq. reflexivity.
Qed.

Lemma repoSettings_rejects (r : Request) (db : DB) :
  failure (Body r) <> None \/ formValue r "action" = "" ->
  calls (run Main.repoSettings (fresh r db)) = [] /\
  calls (run Legacy.repoSettings (fresh r db)) = [].
Proof.
  intros H. unfold Main.repoSettings, Legacy.repoSettings. hunfold. cbn.
  rewrite NewRequestRefiller_eq. cbn.
  destruct (failure (Body r)) as [e|] eqn:Hok; cbn; [split; reflexivity|].
  destruct H as [H|H]; [contradiction|].
  rewrite !set_Body_twice. fold (bodyBytes r). rewrite (refilled_self r Hok).
  rewrite !FormValue_eq. cbn. rewrite H. cbn. split; reflexivity.
Qed.
End SettingsDispatch.

(** ** Begin without an enrolled credential (C3) *)
Section FailOpenBegin.
Context `{X : Externals}.

Lemma Main_base_not_enabled (q : WebauthnQuery) (ext : AuthenticationExtensions) (s : State) :
  IsUserEnabled (store s) q = false ->
  Main.beginAttestation_base q ext s =
    (Returned, {| resp := WriteHeader StatusOK (resp s); req := req s; store := store s;
                  calls := calls s ++ [CallIsUserEnabled q] |}).
Proof.
  intros H. unfold Main.beginAttestation_base. hunfold. cbn. rewrite H. reflexivity.
Qed.

Lemma Legacy_base_not_enabled (q : WebauthnQuery) (ext : AuthenticationExtensions) (s : State) :
  IsUserEnabled (store s) q = false ->
  Legacy.beginAttestation_base q ext s =
    (Returned,
     {| resp := WriteHeader StatusOK (Header_Set "Access-Control-Allow-Credentials" "true" (resp s));
        req := req s; store := store s; calls := calls s ++ [CallIsUserEnabled q] |}).
Proof.
  intros H. unfold Legacy.beginAttestation_base. hunfold. cbn. rewrite H. reflexivity.
Qed.

Lemma Main_beginLogin_not_enabled (r : Request) (db : DB) :
  formValue r "user_name" <> "" ->
  IsUserEnabled db (QueryByUsername (formValue r "user_name")) = false ->
  let s' := run Main.beginLogin (fresh r db) in
  status (resp s') = Some StatusOK /\ written (resp s') = [] /\ store s' = db /\
  calls s' = [CallIsUserEnabled (QueryByUsername (formValue r "user_name"))].
Proof.
  intros Hne Hdis. unfold Main.beginLogin, Main.preamble, Main.prepareJSONResponse.
  hunfold. rewrite FormValue_eq. cbn.
  destruct (String.eqb_spec (formValue r "user_name") ""); [contradiction|].
  rewrite Main_base_not_enabled by exact Hdis. cbn. auto.
Qed.

Lemma Legacy_beginLogin_not_enabled (r : Request) (db : DB) :
  formValue r "user_name" <> "" ->
  IsUserEnabled db (QueryByUsername (formValue r "user_name")) = false ->
  let s' := run Legacy.beginLogin (fresh r db) in
  status (resp s') = Some StatusOK /\ written (resp s') = [] /\ store s' = db /\
  calls s' = [CallIsUserEnabled (QueryByUsername (formValue r "user_name"))].
Proof.
  intros Hne Hdis. unfold Legacy.beginLogin, Legacy.preamble.
  hunfold. rewrite FormValue_eq. cbn.
  destruct (String.eqb_spec (formValue r "user_name") ""); [contradiction|].
  rewrite Legacy_base_not_enabled by exact Hdis. cbn. auto.
Qed.

Lemma Main_beginAttestation_not_enabled (r : Request) (db : DB) (userID : int64) :
  session2user session2userURL (Cookies r) = inl (true, userID) ->
  formValue r "auth_text" <> "" ->
  IsUserEnabled db (QueryByUserID userID) = false ->
  let s' := run Main.beginAttestation (fresh r db) in
  status (resp s') = Some StatusOK /\ written (resp s') = [] /\ store s' = db /\
  calls s' = [CallSession2User session2userURL; CallIsUserEnabled (QueryByUserID userID)].
Proof.
  intros Hwho Hne Hdis. unfold Main.beginAttestation, Main.preamble, Main.prepareJSONResponse.
  hunfold. change (Main.backendAddress +:+ "/server_context/session2user") with session2userURL.
  cbn. rewrite Hwho. cbn. rewrite FormValue_eq. cbn.
  destruct (String.eqb_spec (formValue r "auth_text") ""); [contradiction|].
  rewrite Main_base_not_enabled by exact Hdis. cbn. auto.
Qed.

Lemma Legacy_beginAttestation_not_enabled (r : Request) (db : DB) (userID : int64) :
  session2user legacySession2userURL (Cookies r) = inl (true, userID) ->
  formValue r "auth_text" <> "" ->
  IsUserEnabled db (QueryByUserID userID) = false ->
  let s' := run Legacy.beginAttestation (fresh r db) in
  status (resp s') = Some StatusOK /\ written (resp s') = [] /\ store s' = db /\
  calls s' = [CallSession2User legacySession2userURL; CallIsUserEnabled (QueryByUserID userID)].
Proof.
  intros Hwho Hne Hdis. unfold Legacy.beginAttestation, Legacy.preamble.
  hunfold. change (Legacy.backendAddress +:+ "/user/session2user") with legacySession2userURL.
  cbn. rewrite Hwho. cbn. rewrite FormValue_eq. cbn.
  destruct (String.eqb_spec (formValue r "auth_text") ""); [contradiction|].
  rewrite Legacy_base_not_enabled by exact Hdis. cbn. auto.
Qed.

(** C3. When the queried principal has no enabled credential record,
    Begin-Login and Begin-Attestation, in both generations, answer 200 with
    nothing written; the only calls made are the lookup of the principal
    (and, for Begin-Attestation, of the session's user): the ceremony
    library is not called and no session is saved. *)
Theorem begin_without_credential_is_noop (r : Request) (db : DB) :
  (formValue r "user_name" <> "" ->
   IsUserEnabled db (QueryByUsername (formValue r "user_name")) = false ->
   forall s',
     s' = run Main.beginLogin (fresh r db) \/ s' = run Legacy.beginLogin (fresh r db) ->
     status (resp s') = Some StatusOK /\ written (resp s') = [] /\ store s' = db /\
     calls s' = [CallIsUserEnabled (QueryByUsername (formValue r "user_name"))]) /\
  (forall userID : int64,
     formValue r "auth_text" <> "" ->
     IsUserEnabled db (QueryByUserID userID) = false ->
     (session2user session2userURL (Cookies r) = inl (true, userID) ->
      let s' := run Main.beginAttestation (fresh r db) in
      status (resp s') = Some StatusOK /\ written (resp s') = [] /\ store s' = db /\
      calls s' = [CallSession2User session2userURL; CallIsUserEnabled (QueryByUserID userID)]) /\
     (session2user legacySession2userURL (Cookies r) = inl (true, userID) ->
      let s' := run Legacy.beginAttestation (fresh r db) in
      status (resp s') = Some StatusOK /\ written (resp s') = [] /\ store s' = db /\
      calls s' = [CallSession2User legacySession2userURL; CallIsUserEnabled (QueryByUserID userID)])).
Proof.
  split.
  - intros Hne Hdis s' [-> | ->].
    + apply Main_beginLogin_not_enabled; assumption.
    + apply Legacy_beginLogin_not_enabled; assumption.
  - intros userID Hne Hdis. split; intros Hwho.
    + apply Main_beginAttestation_not_enabled; assumption.
    + apply Legacy_beginAttestation_not_enabled; assumption.
Qed.
End FailOpenBegin.

Section FailOpenBeginExample.
#[local] Existing Instance Ref.world.

(** bob, who never enrolled, begins a login in the reference world. *)
Lemma begin_without_credential_is_noop_witness :
  let r := Examples.bobBeginsLogin in
  let s' := run Main.beginLogin (fresh r Examples.db0) in
  (formValue r "user_name" <> "" /\
   IsUserEnabled Examples.db0 (QueryByUsername (formValue r "user_name")) = false) /\
  status (resp s') = Some StatusOK /\
  calls s' = [CallIsUserEnabled (QueryByUsername "bob")].
Proof.
  assert (H1 : formValue Examples.bobBeginsLogin "user_name" <> "")
    by (vm_compute; discriminate).
  assert (H2 : IsUserEnabled Examples.db0
                 (QueryByUsername (formValue Examples.bobBeginsLogin "user_name")) = false)
    by reflexivity.
  split; [split; assumption|].
  destruct (proj1 (begin_without_credential_is_noop Examples.bobBeginsLogin Examples.db0)
              H1 H2 _ (or_introl eq_refl))
    as (Hs & _ & _ & Hc).
  split; [exact Hs | exact Hc].
Defined.
End FailOpenBeginExample.

(** ** Extension binding (C1) *)
Section ExtensionBinding.
Context `{X : Externals}.


Lemma DeepEqual_true (a b : AuthenticationExtensions) : a = b -> DeepEqual a b = true.
Proof. intros H. unfold DeepEqual. apply bool_decide_eq_true. exact H. Qed.

(** The ceremony check touches neither the request nor the response nor
    the store, and forwards nothing. *)
Lemma checkWebauthnAssertion_frame (q : WebauthnQuery) (E : AuthenticationExtensions)
    (a : string) (s : State) :
  exists res new,
    Main.checkWebauthnAssertion q E a s =
      (Continue res,
       {| resp := resp s; req := req s; store := store s; calls := calls s ++ new |}) /\
    none isForward new /\ none isDelete new.
Proof.
  unfold Main.checkWebauthnAssertion. hunfold. cbn.
  destruct (GetWebauthnUser (store s) q) as [wuser|e]; cbn.
  { destruct (GetWebauthnSession "authentication" (req s)) as [sd|e]; cbn.
    - destruct (FinishLogin wuser sd (verifyTxAuthSimple E) a) as [c|e]; cbn;
        eexists; eexists; rewrite <- !app_assoc; cbn; repeat split.
    - eexists; eexists; rewrite <- !app_assoc; cbn; repeat split. }
  eexists; eexists; repeat split.
Qed.










Lemma verifyTxAuthSimple_match (E any : AuthenticationExtensions) :
  verifyTxAuthSimple E any E = None.
Proof. unfold verifyTxAuthSimple. rewrite DeepEqual_true by reflexivity. reflexivity. Qed.

End ExtensionBinding.

Section ExtensionBindingExample.
#[local] Existing Instance Ref.world.

End ExtensionBindingExample.

(** ** Body preservation (C5) *)
Section BodyPreservation.
Context `{X : Externals}.

Ltac forwarded :=
  repeat match goal with
    | H : In _ (_ ++ _) |- _ => apply in_app_or in H
    | H : _ \/ _ |- _ => destruct H as [H|H]
    | H : In _ (_ :: _) |- _ => cbn in H
    | H : In _ [] |- _ => contradiction H
    | H : False |- _ => contradiction
    | H : _ = Forward _ _ |- _ => first [discriminate H | injection H as <- <-; reflexivity]
    | H : In (Forward _ _) ?new, Hf : none isForward ?new |- _ =>
        exfalso; exact (none_Forward _ _ _ Hf H)
    end.

Lemma Main_finishLogin_forwards (r : Request) (db : DB) (t : string) (b : list byte) :
  In (Forward t b) (calls (run Main.finishLogin (fresh r db))) -> b = bodyBytes r.
Proof.
  unfold Main.finishLogin, Main.preamble. hunfold. cbn.
  rewrite NewRequestRefiller_eq. cbn.
  destruct (failure (Body r)); cbn; [contradiction|].
  repeat (rewrite FormValue_eq; cbn).
  match goal with |- context [if ?c then _ else _] => destruct c end; cbn; [contradiction|].
  match goal with |- context [IsUserEnabled ?d ?q] => destruct (IsUserEnabled d q) end; cbn.
  - match goal with |- context [Main.checkWebauthnAssertion ?q ?E ?a ?s] =>
      destruct (checkWebauthnAssertion_frame q E a s) as (res & new & -> & Hf & _)
    end.
    cbn. destruct res as [e|]; cbn; [intros H; forwarded|].
    rewrite Refill_eq. cbn. rewrite ServeHTTP_eq. cbn. intros H; forwarded.
  - rewrite Refill_eq. cbn. rewrite ServeHTTP_eq. cbn. intros H; forwarded.
Qed.

Lemma Legacy_finishLogin_forwards (r : Request) (db : DB) (t : string) (b : list byte) :
  In (Forward t b) (calls (run Legacy.finishLogin (fresh r db))) -> b = bodyBytes r.
Proof.
  unfold Legacy.finishLogin. hunfold. cbn.
  destruct (failure (Body r)); cbn; [contradiction|].
  repeat (rewrite FormValue_eq; cbn).
  match goal with |- context [if ?c then _ else _] => destruct c end; cbn; [contradiction|].
  match goal with |- context [IsUserEnabled ?d ?q] => destruct (IsUserEnabled d q) end; cbn.
  - match goal with |- context [GetWebauthnUser ?d ?q] => destruct (GetWebauthnUser d q) end;
      cbn; [|intros H; forwarded].
    match goal with |- context [GetWebauthnSession ?k ?q] => destruct (GetWebauthnSession k q) end;
      cbn; [|intros H; forwarded].
    match goal with |- context [FinishLogin ?u ?sd ?v ?a] => destruct (FinishLogin u sd v a) end;
      cbn; [|intros H; forwarded].
    rewrite ServeHTTP_eq. cbn. intros H; forwarded.
  - rewrite ServeHTTP_eq. cbn. intros H; forwarded.
Qed.

(** The delete helper reads the assertion off the form. Called with the
    form already parsed, as [repoSettings] calls it, it leaves the body
    alone, and what it forwards is the body it was handed. *)
Lemma Main_deleteRepositoryHelper_forwards (r : Request) (db : DB) (f : Values)
    (t : string) (b : list byte) :
  Form r = Some f ->
  In (Forward t b) (calls (run Main.deleteRepositoryHelper (fresh r db))) -> b = bodyBytes r.
Proof.
  intros Hf. unfold Main.deleteRepositoryHelper, Main.preamble. hunfold. cbn.
  match goal with |- context [session2user ?u ?c] => destruct (session2user u c) as [[[] userID]|e] end;
    cbn; try solve [intros H; forwarded].
  match goal with |- context [IsUserEnabled ?d ?q] => destruct (IsUserEnabled d q) end; cbn.
  - rewrite FormValue_eq. cbn. rewrite (ensureForm_cached r f Hf).
    match goal with |- context [if ?c then _ else _] => destruct c end; cbn; [intros H; forwarded|].
    match goal with |- context [Main.checkWebauthnAssertion ?q ?E ?a ?s] =>
      destruct (checkWebauthnAssertion_frame q E a s) as (res & new & -> & Hnf & _)
    end.
    cbn. destruct res as [e|]; cbn; [intros H; forwarded|].
    rewrite ServeHTTP_eq. cbn. intros H; forwarded.
  - rewrite ServeHTTP_eq. cbn. intros H; forwarded.
Qed.

Lemma Legacy_deleteRepositoryHelper_forwards (r : Request) (db : DB) (f : Values)
    (t : string) (b : list byte) :
  Form r = Some f ->
  In (Forward t b) (calls (run Legacy.deleteRepositoryHelper (fresh r db))) -> b = bodyBytes r.
Proof.
  intros Hf. unfold Legacy.deleteRepositoryHelper. hunfold. cbn.
  match goal with |- context [session2user ?u ?c] => destruct (session2user u c) as [[[] userID]|e] end;
    cbn; try solve [intros H; forwarded].
  rewrite FormValue_eq. cbn. rewrite (ensureForm_cached r f Hf).
  match goal with |- context [if ?c then _ else _] => destruct c end; cbn; [intros H; forwarded|].
  match goal with |- context [IsUserEnabled ?d ?q] => destruct (IsUserEnabled d q) end; cbn.
  - match goal with |- context [GetWebauthnUser ?d ?q] => destruct (GetWebauthnUser d q) end;
      cbn; [|intros H; forwarded].
    match goal with |- context [GetWebauthnSession ?k ?q] => destruct (GetWebauthnSession k q) end;
      cbn; [|intros H; forwarded].
    match goal with |- context [FinishLogin ?u ?sd ?v ?a] => destruct (FinishLogin u sd v a) end;
      cbn; [|intros H; forwarded].
    rewrite ServeHTTP_eq. cbn. intros H; forwarded.
  - rewrite ServeHTTP_eq. cbn. intros H; forwarded.
Qed.

Lemma Main_repoSettings_forwards (r : Request) (db : DB) (t : string) (b : list byte) :
  In (Forward t b) (calls (run Main.repoSettings (fresh r db))) -> b = bodyBytes r.
Proof.
  destruct (failure (Body r)) as [e|] eqn:Hok.
  { assert (Hbad : failure (Body r) <> None) by congruence.
    rewrite (proj1 (repoSettings_rejects r db (or_introl Hbad))). contradiction. }
  destruct (String.eqb_spec (formValue r "action") "") as [Hact|Hact].
  { rewrite (proj1 (repoSettings_rejects r db (or_intror Hact))). contradiction. }
  rewrite (Main_repoSettings_eq r db Hok Hact).
  destruct (Form_ensureForm r) as [f Hf].
  destruct (String.eqb (formValue r "action") "delete").
  - intros H. apply (Main_deleteRepositoryHelper_forwards _ db f t b) in H; [exact H | exact Hf].
  - unfold Main.proxyRequest. hunfold. cbn. rewrite ServeHTTP_eq. cbn. intros H; forwarded.
Qed.

Lemma Legacy_repoSettings_forwards (r : Request) (db : DB) (t : string) (b : list byte) :
  In (Forward t b) (calls (run Legacy.repoSettings (fresh r db))) -> b = bodyBytes r.
Proof.
  destruct (failure (Body r)) as [e|] eqn:Hok.
  { assert (Hbad : failure (Body r) <> None) by congruence.
    rewrite (proj2 (repoSettings_rejects r db (or_introl Hbad))). contradiction. }
  destruct (String.eqb_spec (formValue r "action") "") as [Hact|Hact].
  { rewrite (proj2 (repoSettings_rejects r db (or_intror Hact))). contradiction. }
  rewrite (Legacy_repoSettings_eq r db Hok Hact).
  destruct (Form_ensureForm r) as [f Hf].
  destruct (String.eqb (formValue r "action") "delete").
  - intros H. apply (Legacy_deleteRepositoryHelper_forwards _ db f t b) in H; [exact H | exact Hf].
  - hunfold. rewrite ServeHTTP_eq. cbn. intros H; forwarded.
Qed.

Lemma Main_addSSHKey_forwards (r : Request) (db : DB) (t : string) (b : list byte) :
  In (Forward t b) (calls (run Main.addSSHKey (fresh r db))) -> b = bodyBytes r.
Proof.
  unfold Main.addSSHKey, Main.preamble. hunfold. cbn.
  match goal with |- context [session2user ?u ?c] => destruct (session2user u c) as [[[] userID]|e] end;
    cbn; try solve [intros H; forwarded].
  match goal with |- context [IsUserEnabled ?d ?q] => destruct (IsUserEnabled d q) end; cbn.
  - rewrite NewRequestRefiller_eq. cbn.
    destruct (failure (Body r)); cbn; [intros H; forwarded|].
    repeat (rewrite FormValue_eq; cbn).
    match goal with |- context [if ?c then _ else _] => destruct c end; cbn; [intros H; forwarded|].
    match goal with |- context [Main.checkWebauthnAssertion ?q ?E ?a ?s] =>
      destruct (checkWebauthnAssertion_frame q E a s) as (res & new & -> & Hnf & _)
    end.
    cbn. destruct res as [e|]; cbn; [intros H; forwarded|].
    rewrite Refill_eq. cbn. rewrite ServeHTTP_eq. cbn. intros H; forwarded.
  - rewrite ServeHTTP_eq. cbn. intros H; forwarded.
Qed.

Lemma Main_deleteSSHKey_forwards (r : Request) (db : DB) (t : string) (b : list byte) :
  In (Forward t b) (calls (run Main.deleteSSHKey (fresh r db))) -> b = bodyBytes r.
Proof.
  unfold Main.deleteSSHKey, Main.preamble, Main.sshKeyFromSSHKeyID. hunfold. cbn.
  match goal with |- context [session2user ?u ?c] => destruct (session2user u c) as [[[] userID]|e] end;
    cbn; try solve [intros H; forwarded].
  match goal with |- context [IsUserEnabled ?d ?q] => destruct (IsUserEnabled d q) end; cbn.
  - rewrite NewRequestRefiller_eq. cbn.
    destruct (failure (Body r)); cbn; [intros H; forwarded|].
    repeat (rewrite FormValue_eq; cbn).
    match goal with |- context [if ?c then _ else _] => destruct c end; cbn; [intros H; forwarded|].
    repeat (rewrite FormValue_eq; cbn).
    match goal with |- context [ParseInt ?v] => destruct (ParseInt v) as [sshKeyID [e|]] end;
      cbn; [intros H; forwarded|].
    match goal with |- context [itemFromItemID_ssh_key ?u ?i] =>
      destruct (itemFromItemID_ssh_key u i) as [sshKey|e] end; cbn; [|intros H; forwarded].
    match goal with |- context [Main.checkWebauthnAssertion ?q ?E ?a ?s] =>
      destruct (checkWebauthnAssertion_frame q E a s) as (res & new & -> & Hnf & _)
    end.
    cbn. destruct res as [e|]; cbn; [intros H; forwarded|].
    rewrite Refill_eq. cbn. rewrite ServeHTTP_eq. cbn. intros H; forwarded.
  - rewrite ServeHTTP_eq. cbn. intros H; forwarded.
Qed.

(** C5. Whatever finish-login and the repository-settings dispatcher, in
    either generation, and the two SSH-key handlers hand to the reverse
    proxy carries the bytes of the body the request arrived with. *)
Theorem forwarded_body_is_original (r : Request) (db : DB) (s' : State)
    (target : string) (body : list byte) :
  s' = run Main.finishLogin (fresh r db) \/ s' = run Main.repoSettings (fresh r db) \/
  s' = run Legacy.finishLogin (fresh r db) \/ s' = run Legacy.repoSettings (fresh r db) \/
  s' = run Main.addSSHKey (fresh r db) \/ s' = run Main.deleteSSHKey (fresh r db) ->
  In (Forward target body) (calls s') ->
  body = bodyBytes r.
Proof.
  intros [-> | [-> | [-> | [-> | [-> | ->]]]]].
  - apply Main_finishLogin_forwards.
  - apply Main_repoSettings_forwards.
  - apply Legacy_finishLogin_forwards.
  - apply Legacy_repoSettings_forwards.
  - apply Main_addSSHKey_forwards.
  - apply Main_deleteSSHKey_forwards.
Qed.
End BodyPreservation.

Section BodyPreservationExample.
#[local] Existing Instance Ref.world.

(** alice deletes alice/site with an assertion made for that deletion: the
    dispatcher parses the action, the helper parses the assertion, and the
    backend receives the body as it came. *)
Lemma forwarded_body_is_original_witness :
  let r := Examples.deleteSite in
  let s' := run Main.repoSettings (fresh r Examples.db0) in
  In (Forward "https://localhost:3000" (bodyBytes r)) (calls s') /\
  (forall target body, In (Forward target body) (calls s') -> body = bodyBytes r).
Proof.
  split.
  - vm_compute. do 5 right. left. reflexivity.
  - intros target body.
    exact (forwarded_body_is_original Examples.deleteSite Examples.db0 _ target body
             (or_intror (or_introl eq_refl))).
Defined.
End BodyPreservationExample.

(** ** Handlers on an account without an enabled credential (C2) *)
Section FailOpenHandlers.
Context `{X : Externals}.

Lemma Main_deleteRepositoryHelper_not_enabled (r : Request) (db : DB) (userID : int64) :
  session2user session2userURL (Cookies r) = inl (true, userID) ->
  IsUserEnabled db (QueryByUserID userID) = false ->
  let s' := run Main.deleteRepositoryHelper (fresh r db) in
  store s' = db /\
  calls s' = [CallSession2User session2userURL; CallIsUserEnabled (QueryByUserID userID);
              Forward "https://localhost:3000" (bodyBytes r)].
Proof.
  intros Hwho Hdis. unfold Main.deleteRepositoryHelper, Main.preamble. hunfold.
  change (Main.backendAddress +:+ "/server_context/session2user") with session2userURL.
  cbn. rewrite Hwho. cbn. rewrite Hdis. cbn. rewrite ServeHTTP_eq. cbn. split; reflexivity.
Qed.

Lemma Main_addSSHKey_not_enabled (r : Request) (db : DB) (userID : int64) :
  session2user session2userURL (Cookies r) = inl (true, userID) ->
  IsUserEnabled db (QueryByUserID userID) = false ->
  let s' := run Main.addSSHKey (fresh r db) in
  store s' = db /\
  calls s' = [CallSession2User session2userURL; CallIsUserEnabled (QueryByUserID userID);
              Forward "https://localhost:3000" (bodyBytes r)].
Proof.
  intros Hwho Hdis. unfold Main.addSSHKey, Main.preamble. hunfold.
  change (Main.backendAddress +:+ "/server_context/session2user") with session2userURL.
  cbn. rewrite Hwho. cbn. rewrite Hdis. cbn. rewrite ServeHTTP_eq. cbn. split; reflexivity.
Qed.

Lemma Main_deleteSSHKey_not_enabled (r : Request) (db : DB) (userID : int64) :
  session2user session2userURL (Cookies r) = inl (true, userID) ->
  IsUserEnabled db (QueryByUserID userID) = false ->
  let s' := run Main.deleteSSHKey (fresh r db) in
  store s' = db /\
  calls s' = [CallSession2User session2userURL; CallIsUserEnabled (QueryByUserID userID);
              Forward "https://localhost:3000" (bodyBytes r)].
Proof.
  intros Hwho Hdis. unfold Main.deleteSSHKey, Main.preamble. hunfold.
  change (Main.backendAddress +:+ "/server_context/session2user") with session2userURL.
  cbn. rewrite Hwho. cbn. rewrite Hdis. cbn. rewrite ServeHTTP_eq. cbn. split; reflexivity.
Qed.

Lemma Main_finishLogin_not_enabled (r : Request) (db : DB) :
  failure (Body r) = None ->
  formValue r "user_name" <> "" ->
  formValue r "assertion" <> "" ->
  IsUserEnabled db (QueryByUsername (formValue r "user_name")) = false ->
  let s' := run Main.finishLogin (fresh r db) in
  store s' = db /\
  calls s' = [CallIsUserEnabled (QueryByUsername (formValue r "user_name"));
              Forward "https://localhost:3000" (bodyBytes r)].
Proof.
  intros Hok Hu Ha Hdis. unfold Main.finishLogin, Main.preamble. hunfold. cbn.
  rewrite NewRequestRefiller_eq. cbn. rewrite Hok. cbn. rewrite (refilled_self r Hok).
  repeat (rewrite FormValue_eq; cbn). rewrite formValue_ensureForm.
  destruct (String.eqb_spec (formValue r "user_name") ""); [contradiction|].
  destruct (String.eqb_spec (formValue r "assertion") ""); [contradiction|].
  cbn. rewrite Hdis. cbn. rewrite Refill_eq. cbn. rewrite ServeHTTP_eq. cbn. split; reflexivity.
Qed.

Lemma Legacy_finishLogin_not_enabled (r : Request) (db : DB) :
  failure (Body r) = None ->
  formValue r "user_name" <> "" ->
  formValue r "assertion" <> "" ->
  IsUserEnabled db (QueryByUsername (formValue r "user_name")) = false ->
  let s' := run Legacy.finishLogin (fresh r db) in
  store s' = db /\
  calls s' = [CallIsUserEnabled (QueryByUsername (formValue r "user_name"));
              Forward "https://localhost:3000" (bodyBytes r)].
Proof.
  intros Hok Hu Ha Hdis. unfold Legacy.finishLogin. hunfold. cbn.
  rewrite Hok. cbn. rewrite !set_Body_twice. fold (bodyBytes r). rewrite (refilled_self r Hok).
  repeat (rewrite FormValue_eq; cbn). rewrite formValue_ensureForm.
  destruct (String.eqb_spec (formValue r "user_name") ""); [contradiction|].
  destruct (String.eqb_spec (formValue r "assertion") ""); [contradiction|].
  cbn. rewrite Hdis. cbn. rewrite ServeHTTP_eq. cbn. split; reflexivity.
Qed.

(** The earlier helper reads the assertion before it looks at the flag, so
    what it forwards is the body as parsing the form left it: the whole
    body when the form was parsed before, as under [repoSettings]. *)
Lemma Legacy_deleteRepositoryHelper_not_enabled (r : Request) (db : DB) (userID : int64) :
  session2user legacySession2userURL (Cookies r) = inl (true, userID) ->
  formValue r "assertion" <> "" ->
  IsUserEnabled db (QueryByUserID userID) = false ->
  let s' := run Legacy.deleteRepositoryHelper (fresh r db) in
  store s' = db /\
  calls s' = [CallSession2User legacySession2userURL; CallIsUserEnabled (QueryByUserID userID);
              Forward "https://localhost:3000" (bodyBytes (ensureForm r))].
Proof.
  intros Hwho Ha Hdis. unfold Legacy.deleteRepositoryHelper. hunfold.
  change (Legacy.backendAddress +:+ "/user/session2user") with legacySession2userURL.
  cbn. rewrite Hwho. cbn. rewrite FormValue_eq. cbn.
  destruct (String.eqb_spec (formValue r "assertion") ""); [contradiction|].
  cbn. rewrite Hdis. cbn. rewrite ServeHTTP_eq. cbn. split; reflexivity.
Qed.

(** C2, amended. On an account without an enabled credential record, the
    handlers that consult the flag forward the request and make no ceremony
    call: the delete-repository helper and the two SSH-key handlers of
    [main.go] whatever the form holds, finish-login (both generations) and
    the earlier delete-repository helper once the assertion field is not
    empty. Nothing is said of disable-webauthn, which never consults the
    flag. *)
Theorem not_enabled_skips_ceremony (r : Request) (db : DB) :
  (forall userID : int64,
     session2user session2userURL (Cookies r) = inl (true, userID) ->
     IsUserEnabled db (QueryByUserID userID) = false ->
     forall s',
       s' = run Main.deleteRepositoryHelper (fresh r db) \/ s' = run Main.addSSHKey (fresh r db) \/
       s' = run Main.deleteSSHKey (fresh r db) ->
       store s' = db /\
       calls s' = [CallSession2User session2userURL; CallIsUserEnabled (QueryByUserID userID);
                   Forward "https://localhost:3000" (bodyBytes r)]) /\
  (failure (Body r) = None ->
   formValue r "user_name" <> "" ->
   formValue r "assertion" <> "" ->
   IsUserEnabled db (QueryByUsername (formValue r "user_name")) = false ->
   forall s',
     s' = run Main.finishLogin (fresh r db) \/ s' = run Legacy.finishLogin (fresh r db) ->
     store s' = db /\
     calls s' = [CallIsUserEnabled (QueryByUsername (formValue r "user_name"));
                 Forward "https://localhost:3000" (bodyBytes r)]) /\
  (forall userID : int64,
     session2user legacySession2userURL (Cookies r) = inl (true, userID) ->
     formValue r "assertion" <> "" ->
     IsUserEnabled db (QueryByUserID userID) = false ->
     let s' := run Legacy.deleteRepositoryHelper (fresh r db) in
     store s' = db /\
     calls s' = [CallSession2User legacySession2userURL; CallIsUserEnabled (QueryByUserID userID);
                 Forward "https://localhost:3000" (bodyBytes (ensureForm r))]).
Proof.
  split; [|split].
  - intros userID Hwho Hdis s' [-> | [-> | ->]].
    + apply Main_deleteRepositoryHelper_not_enabled; assumption.
    + apply Main_addSSHKey_not_enabled; assumption.
    + apply Main_deleteSSHKey_not_enabled; assumption.
  - intros Hok Hu Ha Hdis s' [-> | ->].
    + apply Main_finishLogin_not_enabled; assumption.
    + apply Legacy_finishLogin_not_enabled; assumption.
  - intros userID Hwho Ha Hdis.
    apply (Legacy_deleteRepositoryHelper_not_enabled r db userID); assumption.
Qed.
End FailOpenHandlers.

Section FailOpenHandlersExample.
#[local] Existing Instance Ref.world.

(** bob, who never enrolled, asks to disable a second factor. Without an
    assertion the handler answers 500 before any ceremony call; with one it
    goes on to load a ceremony session and answers 400. Either way nothing
    is deleted: the ceremony is demanded of an account that is not
    enabled. *)
Lemma disable_demands_ceremony_when_not_enabled :
  IsUserEnabled Examples.db0 (QueryByUserID 8) = false /\
  (let s' := run Main.disableWebauthn (fresh Examples.bobDisables Examples.db0) in
   status (resp s') = Some StatusInternalServerError /\
   written (resp s') = [Line (Lit "Invalid form-data parameters")] /\
   none isDelete (calls s') /\ store s' = Examples.db0) /\
  (let s' := run Main.disableWebauthn (fresh Examples.bobDisablesWithAssertion Examples.db0) in
   status (resp s') = Some StatusBadRequest /\
   In (CallGetWebauthnSession "authentication") (calls s') /\
   none isDelete (calls s') /\ store s' = Examples.db0) /\
  (let s' := run Legacy.disableWebauthn (fresh Examples.bobDisables Examples.db0) in
   status (resp s') = Some StatusInternalServerError /\ none isDelete (calls s')).
Proof.
  vm_compute. repeat split; auto.
Qed.

(** bob deletes one of his repositories without any assertion. *)
Lemma not_enabled_skips_ceremony_witness :
  let r := Examples.bobDeletesNotes in
  let s' := run Main.deleteRepositoryHelper (fresh r Examples.db0) in
  (session2user session2userURL (Cookies r) = inl (true, 8) /\
   IsUserEnabled Examples.db0 (QueryByUserID 8) = false /\
   formValue r "assertion" = "") /\
  calls s' = [CallSession2User session2userURL; CallIsUserEnabled (QueryByUserID 8);
              Forward "https://localhost:3000" (list_byte_of_string "action=delete")] /\
  none isCeremony (calls s').
Proof.
  assert (H1 : session2user session2userURL (Cookies Examples.bobDeletesNotes) = inl (true, 8))
    by reflexivity.
  assert (H2 : IsUserEnabled Examples.db0 (QueryByUserID 8) = false) by reflexivity.
  split; [split; [exact H1 | split; [exact H2 | vm_compute; reflexivity]]|].
  destruct (proj1 (not_enabled_skips_ceremony Examples.bobDeletesNotes Examples.db0)
              8 H1 H2 _ (or_introl eq_refl)) as [_ Hc].
  split; [exact Hc | rewrite Hc; reflexivity].
Defined.
End FailOpenHandlersExample.

(** ** Missing and malformed input (C7) *)
Section InputErrors.
Context `{X : Externals}.

Lemma Main_beginRegister_no_username (r : Request) (db : DB) :
  formValue r "username" = "" ->
  turnedAway db invalidFormText (run Main.beginRegister (fresh r db)).
Proof.
  intros H. unfold turnedAway, invalidFormText, Main.beginRegister, Main.preamble, Main.prepareJSONResponse. hunfold. cbn.
  rewrite FormValue_eq. cbn. rewrite H. cbn. repeat split.
Qed.

Lemma Legacy_beginRegister_no_username (r : Request) (db : DB) :
  formValue r "username" = "" ->
  turnedAway db invalidFormText (run Legacy.beginRegister (fresh r db)).
Proof.
  intros H. unfold turnedAway, invalidFormText, Legacy.beginRegister, Legacy.preamble. hunfold. cbn.
  rewrite FormValue_eq. cbn. rewrite H. cbn. repeat split.
Qed.

Lemma Main_beginRegister_bad_userID (r : Request) (db : DB) (n : int64) (e : error) :
  formValue r "username" <> "" ->
  ParseInt (formValue r "userID") = (n, Some e) ->
  turnedAway db (ErrorOf e) (run Main.beginRegister (fresh r db)).
Proof.
  intros Hu Hid. unfold turnedAway, invalidFormText, Main.beginRegister, Main.preamble, Main.prepareJSONResponse. hunfold. cbn.
  repeat (rewrite FormValue_eq; cbn).
  destruct (String.eqb_spec (formValue r "username") ""); [contradiction|].
  cbn. rewrite FormValue_eq. cbn. rewrite formValue_ensureForm, Hid. cbn. repeat split.
Qed.

Lemma Legacy_beginRegister_bad_userID (r : Request) (db : DB) (n : int64) (e : error) :
  formValue r "username" <> "" ->
  ParseInt (formValue r "userID") = (n, Some e) ->
  turnedAway db (ErrorOf e) (run Legacy.beginRegister (fresh r db)).
Proof.
  intros Hu Hid. unfold turnedAway, invalidFormText, Legacy.beginRegister, Legacy.preamble. hunfold. cbn.
  repeat (rewrite FormValue_eq; cbn).
  destruct (String.eqb_spec (formValue r "username") ""); [contradiction|].
  cbn. rewrite FormValue_eq. cbn. rewrite formValue_ensureForm, Hid. cbn. repeat split.
Qed.

Lemma Main_finishRegister_missing (r : Request) (db : DB) :
  formValue r "username" = "" \/ formValue r "credentials" = "" ->
  turnedAway db invalidFormText (run Main.finishRegister (fresh r db)).
Proof.
  intros H. unfold turnedAway, invalidFormText, Main.finishRegister, Main.preamble, Main.prepareJSONResponse. hunfold. cbn.
  repeat (rewrite FormValue_eq; cbn). rewrite formValue_ensureForm.
  assert (E : String.eqb (formValue r "username") "" || String.eqb (formValue r "credentials") "" = true).
  { destruct H as [-> | ->]; [reflexivity | apply orb_true_r]. }
  rewrite E. cbn. repeat split.
Qed.

Lemma Main_finishRegister_bad_userID (r : Request) (db : DB) (n : int64) (e : error) :
  formValue r "username" <> "" ->
  formValue r "credentials" <> "" ->
  ParseInt (formValue r "userID") = (n, Some e) ->
  turnedAway db (ErrorOf e) (run Main.finishRegister (fresh r db)).
Proof.
  intros Hu Hc Hid. unfold turnedAway, invalidFormText, Main.finishRegister, Main.preamble, Main.prepareJSONResponse.
  hunfold. cbn. repeat (rewrite FormValue_eq; cbn). rewrite formValue_ensureForm.
  destruct (String.eqb_spec (formValue r "username") ""); [contradiction|].
  destruct (String.eqb_spec (formValue r "credentials") ""); [contradiction|].
  cbn. rewrite FormValue_eq. cbn. rewrite !formValue_ensureForm, Hid. cbn. repeat split.
Qed.

Lemma Main_beginLogin_no_username (r : Request) (db : DB) :
  formValue r "user_name" = "" ->
  turnedAway db invalidFormText (run Main.beginLogin (fresh r db)).
Proof.
  intros H. unfold turnedAway, invalidFormText, Main.beginLogin, Main.preamble, Main.prepareJSONResponse. hunfold. cbn.
  rewrite FormValue_eq. cbn. rewrite H. cbn. repeat split.
Qed.

Lemma Main_finishLogin_missing (r : Request) (db : DB) :
  failure (Body r) = None ->
  formValue r "user_name" = "" \/ formValue r "assertion" = "" ->
  turnedAway db invalidFormText (run Main.finishLogin (fresh r db)).
Proof.
  intros Hok H. unfold turnedAway, invalidFormText, Main.finishLogin, Main.preamble. hunfold. cbn.
  rewrite NewRequestRefiller_eq. cbn. rewrite Hok. cbn. rewrite (refilled_self r Hok).
  repeat (rewrite FormValue_eq; cbn). rewrite formValue_ensureForm.
  assert (E : String.eqb (formValue r "user_name") "" || String.eqb (formValue r "assertion") "" = true).
  { destruct H as [-> | ->]; [reflexivity | apply orb_true_r]. }
  rewrite E. cbn. repeat split.
Qed.

Lemma Legacy_finishLogin_missing (r : Request) (db : DB) :
  failure (Body r) = None ->
  formValue r "user_name" = "" \/ formValue r "assertion" = "" ->
  turnedAway db invalidFormText (run Legacy.finishLogin (fresh r db)).
Proof.
  intros Hok H. unfold turnedAway, invalidFormText, Legacy.finishLogin. hunfold. cbn.
  rewrite Hok. cbn. rewrite !set_Body_twice. fold (bodyBytes r). rewrite (refilled_self r Hok).
  repeat (rewrite FormValue_eq; cbn). rewrite formValue_ensureForm.
  assert (E : String.eqb (formValue r "user_name") "" || String.eqb (formValue r "assertion") "" = true).
  { destruct H as [-> | ->]; [reflexivity | apply orb_true_r]. }
  rewrite E. cbn. repeat split.
Qed.

(** What [strconv.ParseInt] reports of a text that is no decimal number:
    an error value that carries the text. *)
Lemma ParseInt_error_names_input (s : string) (n : int64) (e : error) :
  ParseInt s = (n, Some e) -> exists kind, e = NumError "ParseInt" s kind.
Proof.
  unfold ParseInt. destruct s as [|c rest]; [intros [= <- <-]; eauto|].
  destruct (if Ascii.eqb c "+" then _ else _) as [neg s1].
  destruct (ParseUint s1) as [un [err|]].
  - destruct (negb (isErrRange err)); [intros [= <- <-]; eauto|].
    destruct neg; intros [= <- <-]; eauto.
  - cbv zeta. destruct (negb neg && _); [intros [= <- <-]; eauto|].
    destruct (neg && _); [intros [= <- <-]; eauto | discriminate].
Qed.

Lemma Legacy_finishRegister_missing (r : Request) (db : DB) :
  formValue r "username" = "" \/ formValue r "credentials" = "" ->
  turnedAway db invalidFormText (run Legacy.finishRegister (fresh r db)).
Proof.
  intros H. unfold turnedAway, invalidFormText, Legacy.finishRegister, Legacy.preamble. hunfold. cbn.
  repeat (rewrite FormValue_eq; cbn). rewrite formValue_ensureForm.
  assert (E : String.eqb (formValue r "username") "" || String.eqb (formValue r "credentials") "" = true).
  { destruct H as [-> | ->]; [reflexivity | apply orb_true_r]. }
  rewrite E. cbn. repeat split.
Qed.

Lemma Legacy_finishRegister_bad_userID (r : Request) (db : DB) (n : int64) (e : error) :
  formValue r "username" <> "" ->
  formValue r "credentials" <> "" ->
  ParseInt (formValue r "userID") = (n, Some e) ->
  turnedAway db (ErrorOf e) (run Legacy.finishRegister (fresh r db)).
Proof.
  intros Hu Hc Hid. unfold turnedAway, Legacy.finishRegister, Legacy.preamble.
  hunfold. cbn. repeat (rewrite FormValue_eq; cbn). rewrite formValue_ensureForm.
  destruct (String.eqb_spec (formValue r "username") ""); [contradiction|].
  destruct (String.eqb_spec (formValue r "credentials") ""); [contradiction|].
  cbn. rewrite FormValue_eq. cbn. rewrite !formValue_ensureForm, Hid. cbn. repeat split.
Qed.

Lemma Legacy_beginLogin_no_username (r : Request) (db : DB) :
  formValue r "user_name" = "" ->
  turnedAway db invalidFormText (run Legacy.beginLogin (fresh r db)).
Proof.
  intros H. unfold turnedAway, invalidFormText, Legacy.beginLogin, Legacy.preamble. hunfold. cbn.
  rewrite FormValue_eq. cbn. rewrite H. cbn. repeat split.
Qed.

(** C7, amended. In the handlers that read their fields first
    (begin-register, finish-register, begin-login, finish-login, in both
    generations), an empty field or a userID that is no decimal number is
    turned away at once with status 500 and a single line; no collaborator
    is called and the store is left as it was. The line is the fixed text
    for an empty field and, for a userID, the error of [strconv.ParseInt],
    which carries the offending text. *)
Theorem input_errors_rejected_with_500 (r : Request) (db : DB) :
  (formValue r "username" = "" ->
   turnedAway db invalidFormText (run Main.beginRegister (fresh r db)) /\
   turnedAway db invalidFormText (run Legacy.beginRegister (fresh r db)) /\
   turnedAway db invalidFormText (run Main.finishRegister (fresh r db)) /\
   turnedAway db invalidFormText (run Legacy.finishRegister (fresh r db))) /\
  (formValue r "credentials" = "" ->
   turnedAway db invalidFormText (run Main.finishRegister (fresh r db)) /\
   turnedAway db invalidFormText (run Legacy.finishRegister (fresh r db))) /\
  (forall (n : int64) (e : error),
     formValue r "username" <> "" ->
     ParseInt (formValue r "userID") = (n, Some e) ->
     (exists kind, e = NumError "ParseInt" (formValue r "userID") kind) /\
     turnedAway db (ErrorOf e) (run Main.beginRegister (fresh r db)) /\
     turnedAway db (ErrorOf e) (run Legacy.beginRegister (fresh r db)) /\
     (formValue r "credentials" <> "" ->
      turnedAway db (ErrorOf e) (run Main.finishRegister (fresh r db)) /\
      turnedAway db (ErrorOf e) (run Legacy.finishRegister (fresh r db)))) /\
  (formValue r "user_name" = "" ->
   turnedAway db invalidFormText (run Main.beginLogin (fresh r db)) /\
   turnedAway db invalidFormText (run Legacy.beginLogin (fresh r db))) /\
  (failure (Body r) = None ->
   formValue r "user_name" = "" \/ formValue r "assertion" = "" ->
   turnedAway db invalidFormText (run Main.finishLogin (fresh r db)) /\
   turnedAway db invalidFormText (run Legacy.finishLogin (fresh r db))).
Proof.
  split; [|split; [|split; [|split]]].
  - intros H. split; [|split; [|split]].
    + apply Main_beginRegister_no_username; assumption.
    + apply Legacy_beginRegister_no_username; assumption.
    + apply Main_finishRegister_missing; left; assumption.
    + apply Legacy_finishRegister_missing; left; assumption.
  - intros H. split.
    + apply Main_finishRegister_missing; right; assumption.
    + apply Legacy_finishRegister_missing; right; assumption.
  - intros n e Hu Hid. split; [|split; [|split]].
    + exact (ParseInt_error_names_input _ _ _ Hid).
    + eapply Main_beginRegister_bad_userID; eassumption.
    + eapply Legacy_beginRegister_bad_userID; eassumption.
    + intros Hc. split.
      * eapply Main_finishRegister_bad_userID; eassumption.
      * eapply Legacy_finishRegister_bad_userID; eassumption.
  - intros H. split.
    + apply Main_beginLogin_no_username; assumption.
    + apply Legacy_beginLogin_no_username; assumption.
  - intros Hok H. split.
    + apply Main_finishLogin_missing; assumption.
    + apply Legacy_finishLogin_missing; assumption.
Qed.
End InputErrors.

Section InputErrorsExample.
#[local] Existing Instance Ref.world.

(** C7 as stated fails: a registration with an empty username is answered
    with 500, which is no 4xx status. *)
Lemma empty_username_is_answered_500 :
  let s' := run Main.beginRegister (fresh Examples.registerNoName Examples.db0) in
  formValue Examples.registerNoName "username" = "" /\
  status (resp s') = Some 500 /\
  ~ (exists code, status (resp s') = Some code /\ is4xx code).
Proof.
  split; [reflexivity|]. split; [reflexivity|].
  intros (code & Hc & Hlo & Hhi). vm_compute in Hc. injection Hc as <-. lia.
Qed.

(** A registration whose userID is the word seven. *)
Lemma input_errors_rejected_with_500_witness :
  let r := Examples.registerBadID in
  let e := NumError "ParseInt" "seven" ErrSyntax in
  (formValue r "username" <> "" /\ ParseInt (formValue r "userID") = (0, Some e)) /\
  turnedAway Examples.db0 (ErrorOf e) (run Main.beginRegister (fresh r Examples.db0)).
Proof.
  assert (H1 : formValue Examples.registerBadID "username" <> "") by (vm_compute; discriminate).
  assert (H2 : ParseInt (formValue Examples.registerBadID "userID") =
               (0, Some (NumError "ParseInt" "seven" ErrSyntax))) by reflexivity.
  split; [split; assumption|].
  destruct (input_errors_rejected_with_500 Examples.registerBadID Examples.db0)
    as (_ & _ & H & _).
  exact (proj1 (proj2 (H _ _ H1 H2))).
Defined.
End InputErrorsExample.

(** ** The two finish-login handlers (C10) *)
Section FinishLoginGenerations.
Context `{X : Externals}.

(** With nothing expected, the exact verifier accepts an assertion that
    echoes no extensions, as the accept-all verifier does. *)
Lemma FinishLogin_nil_expected (wuser : WebauthnUser Credential) (sd : SessionData) (a : string) :
  clientDataExtensions a = None ->
  FinishLogin wuser sd (verifyTxAuthSimple None) a = FinishLogin wuser sd Legacy.noVerify a.
Proof.
  intros H. unfold FinishLogin, verifyTxAuthSimple, Legacy.noVerify. rewrite H. reflexivity.
Qed.

(** Either the two handlers leave the same state and the request is not
    one on which they part, or it is: the earlier one forwards the login
    and the newer one answers 400 and forwards nothing. *)
Lemma finishLogin_same_or_parted (r : Request) (db : DB) :
  (run Main.finishLogin (fresh r db) = run Legacy.finishLogin (fresh r db) /\
   ~ parted db r) \/
  (parted db r /\
   forwardedOnce db (bodyBytes r) (run Legacy.finishLogin (fresh r db)) /\
   status (resp (run Main.finishLogin (fresh r db))) = Some StatusBadRequest /\
   none isForward (calls (run Main.finishLogin (fresh r db)))).
Proof.
  unfold parted.
  unfold Main.finishLogin, Legacy.finishLogin, Main.preamble, Main.checkWebauthnAssertion.
  hunfold. cbn. rewrite NewRequestRefiller_eq. cbn.
  destruct (failure (Body r)) eqn:Hok; cbn.
  { left. split; [reflexivity | intros (H & _); discriminate]. }
  rewrite !set_Body_twice. fold (bodyBytes r). rewrite (refilled_self r Hok).
  repeat (rewrite FormValue_eq; cbn). rewrite !formValue_ensureForm, ?ensureForm_idem.
  destruct (String.eqb_spec (formValue r "user_name") "") as [|Hu]; cbn.
  { left. split; [reflexivity | intros (_ & H & _); contradiction]. }
  destruct (String.eqb_spec (formValue r "assertion") "") as [|Ha]; cbn.
  { left. split; [reflexivity | intros (_ & _ & H & _); contradiction]. }
  destruct (IsUserEnabled db (QueryByUsername (formValue r "user_name"))) eqn:Hen; cbn.
  2:{ left. rewrite Refill_eq. split; [reflexivity | intros (_ & _ & _ & H & _); discriminate]. }
  destruct (GetWebauthnUser db (QueryByUsername (formValue r "user_name")))
    as [wuser|e] eqn:Hget; cbn.
  2:{ left. split; [reflexivity|]. intros (_ & _ & _ & _ & (w & sd & c & Hg & _) & _). congruence. }
  destruct (GetWebauthnSession "authentication" (ensureForm r)) as [sd|e] eqn:Hs; cbn.
  2:{ left. split; [reflexivity|]. intros (_ & _ & _ & _ & (w & sd & c & _ & Hg & _) & _). congruence. }
  destruct (clientDataExtensions (formValue r "assertion")) as [m|] eqn:Hecho.
  - unfold FinishLogin, verifyTxAuthSimple, Legacy.noVerify. rewrite Hecho.
    destruct (ValidateLogin wuser sd (formValue r "assertion")) as [c|e] eqn:Hv; cbn.
    + right. rewrite ServeHTTP_eq. split; [|split; [|split]].
      * repeat split; try assumption; [|discriminate]. exists wuser, sd, c. auto.
      * unfold forwardedOnce. cbn [calls store resp req]. split; [reflexivity|].
        eexists. split; [reflexivity|]. repeat split; reflexivity.
      * reflexivity.
      * reflexivity.
    + left. split; [reflexivity|].
      intros (_ & _ & _ & _ & (w & sd' & c & Hg & Hs' & Hc) & _).
      assert (w = wuser) by congruence. assert (sd' = sd) by congruence. subst w sd'.
      congruence.
  - rewrite (FinishLogin_nil_expected wuser sd _ Hecho).
    destruct (FinishLogin wuser sd Legacy.noVerify (formValue r "assertion")); cbn;
      left; (split; [try rewrite Refill_eq; reflexivity | intros (_ & _ & _ & _ & _ & H); congruence]).
Qed.

(** C10, amended. The newer finish-login refines the earlier one: whatever
    it forwards, the earlier one forwards too. The two leave the same
    state on every request but those on which they part ([parted]): there
    the earlier one forwards the login, once and with the body it arrived
    with, and the newer one answers 400 and forwards nothing. In
    particular the two agree when the assertion echoes no extensions at
    all, when the account has no second factor enabled, and when the
    assertion does not validate. *)
Theorem newer_finishLogin_refines_legacy (r : Request) (db : DB) :
  let newer := run Main.finishLogin (fresh r db) in
  let earlier := run Legacy.finishLogin (fresh r db) in
  (forall target body,
     In (Forward target body) (calls newer) -> In (Forward target body) (calls earlier)) /\
  (clientDataExtensions (formValue r "assertion") = None -> newer = earlier) /\
  (IsUserEnabled db (QueryByUsername (formValue r "user_name")) = false -> newer = earlier) /\
  (~ validates db (QueryByUsername (formValue r "user_name")) (formValue r "assertion")
       (ensureForm r) ->
   newer = earlier) /\
  (~ parted db r -> newer = earlier) /\
  (parted db r ->
   forwardedOnce db (bodyBytes r) earlier /\
   status (resp newer) = Some StatusBadRequest /\
   none isForward (calls newer)).
Proof.
  cbv zeta.
  destruct (finishLogin_same_or_parted r db) as [[E Hn] | (Hp & Hfw & Hst & Hnf)].
  - rewrite E. split; [auto|]. split; [auto|]. split; [auto|]. split; [auto|].
    split; [auto|]. intros Hp. contradiction.
  - pose proof Hp as (_ & _ & _ & Hen & Hv & Hecho).
    split; [|split; [|split; [|split; [|split]]]].
    + intros t b H. exfalso. exact (none_Forward _ _ _ Hnf H).
    + intros H. contradiction.
    + intros H. congruence.
    + intros H. contradiction.
    + intros H. contradiction.
    + intros _. auto.
Qed.
End FinishLoginGenerations.

Section FinishLoginGenerationsExample.
#[local] Existing Instance Ref.world.

(** C10 as stated fails. alice logs in with an assertion that answers her
    challenge and echoes extensions: a confirmation text, or an empty
    object. The earlier handler forwards the login; the newer one answers
    400 and forwards nothing. *)
Lemma finishLogin_generations_disagree :
  (let r := Examples.aliceLogsIn (Examples.echo "Confirm repository delete: alice/site") in
   existsb isForward (calls (run Legacy.finishLogin (fresh r Examples.db0))) = true /\
   existsb isForward (calls (run Main.finishLogin (fresh r Examples.db0))) = false /\
   status (resp (run Main.finishLogin (fresh r Examples.db0))) = Some StatusBadRequest) /\
  (let r := Examples.aliceLogsIn (Some "{}") in
   clientDataExtensions (formValue r "assertion") = Some ∅ /\
   existsb isForward (calls (run Legacy.finishLogin (fresh r Examples.db0))) = true /\
   existsb isForward (calls (run Main.finishLogin (fresh r Examples.db0))) = false).
Proof.
  vm_compute. repeat split.
Qed.
End FinishLoginGenerationsExample.

Section FinishLoginAgreementExample.
#[local] Existing Instance Ref.world.

(** alice logs in with an assertion that echoes no extensions: both
    generations forward the login and leave the same state. With an
    assertion that echoes an empty object the two part. bob, who has no
    second factor, is forwarded by both whatever he echoes. *)
Lemma newer_finishLogin_refines_legacy_witness :
  (let r := Examples.aliceLogsIn None in
   clientDataExtensions (formValue r "assertion") = None /\
   run Main.finishLogin (fresh r Examples.db0) = run Legacy.finishLogin (fresh r Examples.db0) /\
   existsb isForward (calls (run Main.finishLogin (fresh r Examples.db0))) = true) /\
  (let r := Examples.aliceLogsIn (Some "{}") in
   parted Examples.db0 r /\
   forwardedOnce Examples.db0 (bodyBytes r) (run Legacy.finishLogin (fresh r Examples.db0)) /\
   status (resp (run Main.finishLogin (fresh r Examples.db0))) = Some StatusBadRequest) /\
  (let r := Examples.bobEchoes in
   clientDataExtensions (formValue r "assertion") = Some ∅ /\
   run Main.finishLogin (fresh r Examples.db0) = run Legacy.finishLogin (fresh r Examples.db0) /\
   existsb isForward (calls (run Main.finishLogin (fresh r Examples.db0))) = true).
Proof.
  assert (H : clientDataExtensions (formValue (Examples.aliceLogsIn None) "assertion") = None)
    by (vm_compute; reflexivity).
  assert (P : parted Examples.db0 (Examples.aliceLogsIn (Some "{}"))).
  { unfold parted. repeat split; try (vm_compute; congruence).
    exists (mkWebauthnUser 7 "alice" ["credential-of-alice"]), "challenge-alice",
           "credential-of-alice".
    repeat split; vm_compute; reflexivity. }
  assert (B : IsUserEnabled Examples.db0
                (QueryByUsername (formValue Examples.bobEchoes "user_name")) = false)
    by (vm_compute; reflexivity).
  cbv zeta. split; [|split].
  - split; [exact H|]. split.
    + exact (proj1 (proj2 (newer_finishLogin_refines_legacy
                             (Examples.aliceLogsIn None) Examples.db0)) H).
    + vm_compute. reflexivity.
  - split; [exact P|].
    destruct (proj2 (proj2 (proj2 (proj2 (proj2 (newer_finishLogin_refines_legacy
                (Examples.aliceLogsIn (Some "{}")) Examples.db0))))) P) as (Hfw & Hst & _).
    split; assumption.
  - split; [vm_compute; reflexivity|]. split.
    + exact (proj1 (proj2 (proj2 (newer_finishLogin_refines_legacy
                                    Examples.bobEchoes Examples.db0))) B).
    + vm_compute. reflexivity.
Defined.
End FinishLoginAgreementExample.

(** ** The sticky error slot (C4) *)
Section StickyError.
Context `{X : Externals}.

(** The input getters pass an earlier error on without calling the getter:
    the request is handed back as it was, whatever the getter would do. *)
Lemma getInput_sticky (getInputFn : Firewall.getInputFnType) (args : list string)
    (r : Firewall.ExtendedRequest) (e : error) :
  Firewall.err r = Some e ->
  Firewall.getInput_WithErr_Helper getInputFn args r = (("", Some e), r).
Proof. intros H. unfold Firewall.getInput_WithErr_Helper. rewrite H. reflexivity. Qed.

Lemma getInputInt64_sticky (getInputFn : Firewall.getInputFnType) (args : list string)
    (r : Firewall.ExtendedRequest) (e : error) :
  Firewall.err r = Some e ->
  Firewall.getInputInt64_WithErr_Helper getInputFn args r = ((0, Some e), r).
Proof.
  intros H. unfold Firewall.getInputInt64_WithErr_Helper.
  rewrite (getInput_sticky _ _ _ _ H). reflexivity.
Qed.

(** A failing getter leaves its error in the slot. *)
Lemma getInput_records_error (getInputFn : Firewall.getInputFnType) (args : list string)
    (r r' : Firewall.ExtendedRequest) (val : string) (e : error) :
  Firewall.getInput_WithErr_Helper getInputFn args r = ((val, Some e), r') ->
  Firewall.err r' = Some e.
Proof.
  unfold Firewall.getInput_WithErr_Helper.
  destruct (Firewall.err r) as [e0|] eqn:E.
  - intros [= <- <- <-]. exact E.
  - destruct (getInputFn (Some r) args) as [[v [e1|]] r1].
    + intros [= <- <- <-]. reflexivity.
    + discriminate.
Qed.

Lemma GetContext_records_error (name : string) (args : list value)
    (r r' : Firewall.ExtendedRequest) (val : value) (e : error) :
  Firewall.GetContext_WithErr name args r = ((val, Some e), r') ->
  Firewall.err r' = Some e.
Proof.
  unfold Firewall.GetContext_WithErr.
  destruct (Firewall.contextGetters r !! name) as [getter|].
  - destruct (getter args); [discriminate|]. intros [= <- <- <-]. reflexivity.
  - intros [= <- <- <-]. reflexivity.
Qed.

(** The context lookup does not look at the slot: a registered resolver is
    run and its value returned, whatever error an earlier call left. *)
Lemma GetContext_ignores_slot (name : string) (args : list value)
    (r : Firewall.ExtendedRequest) (getter : list value -> result value) (val : value) :
  Firewall.contextGetters r !! name = Some getter ->
  getter args = inl val ->
  Firewall.GetContext_WithErr name args r = ((val, None), r).
Proof.
  intros Hg Hv. unfold Firewall.GetContext_WithErr. rewrite Hg, Hv. reflexivity.
Qed.
End StickyError.

Section StickyErrorExample.
#[local] Existing Instance Ref.world.

(** C4. The deletion of an SSH key whose form lacks the title: the form
    accessor fails and fills the slot, and a later form accessor returns
    that same error; the context lookup that follows runs its resolver all
    the same and returns a value with a nil error, and a lookup of an
    unregistered name replaces the error in the slot. *)
Theorem context_lookup_runs_after_failure :
  let r1 := snd (Firewall.GetFormInput_WithErr ["title"] FirewallExamples.deleteKey) in
  let first := errorString "Invalid form-data parameters" in
  fst (Firewall.GetFormInput_WithErr ["title"] FirewallExamples.deleteKey) = ("", Some first) /\
  Firewall.err r1 = Some first /\
  Firewall.GetFormInputInt64_WithErr ["id"] r1 = ((0, Some first), r1) /\
  fst (Firewall.GetContext_WithErr "ssh_key_name" [Number "3"] r1) = (Str "laptop", None) /\
  Firewall.err (snd (Firewall.GetContext_WithErr "repository" [] r1)) =
    Some (Errorf "Context type does not have getter function: %s" [OpString "repository"]).
Proof.
  vm_compute. repeat split.
Qed.
End StickyErrorExample.

(** ** The dispatcher (C6) *)
Section Dispatcher.
Context `{X : Externals}.

Lemma ServeHTTP_unknown_host (wfirewall : Firewall.WebauthnFirewall) (w : ResponseWriter)
    (r : Firewall.ExtendedRequest) :
  Firewall.reverseProxies wfirewall !! Host (Firewall.Request_ r) = None ->
  Firewall.ServeHTTP wfirewall w r =
    (Write (Bytes (list_byte_of_string ("403: Host forbidden " +:+ Host (Firewall.Request_ r)))) w,
     r, []).
Proof. intros H. unfold Firewall.ServeHTTP. rewrite H. reflexivity. Qed.

(** The proxies are built for the hosts of the target map and no other. *)
Lemma NewWebauthnFirewall_hosts (frontend : string) (targets : gmap string string)
    (wfirewall : Firewall.WebauthnFirewall) (host : string) :
  Firewall.NewWebauthnFirewall frontend targets = Some wfirewall ->
  (Firewall.reverseProxies wfirewall !! host = None <-> targets !! host = None).
Proof.
  unfold Firewall.NewWebauthnFirewall. case_bool_decide as Hall; [|discriminate].
  intros [= <-]. cbn. rewrite lookup_omap.
  destruct (targets !! host) as [backendAddress|] eqn:E; cbn; [|tauto].
  specialize (Hall host backendAddress E). cbn in Hall.
  destruct (url_Parse backendAddress); cbn in *; split; congruence.
Qed.

(** An unknown host is never forwarded, and the answer's status is 200
    unless the caller had written another before: it is never 403 on a
    fresh response writer. *)
Lemma unknown_host_not_forwarded (frontend : string) (targets : gmap string string)
    (wfirewall : Firewall.WebauthnFirewall) (w : ResponseWriter) (r : Firewall.ExtendedRequest) :
  Firewall.NewWebauthnFirewall frontend targets = Some wfirewall ->
  targets !! Host (Firewall.Request_ r) = None ->
  let '(w', _, outbound) := Firewall.ServeHTTP wfirewall w r in
  outbound = [] /\ status w' = Some (default StatusOK (status w)).
Proof.
  intros Hnew Hhost. apply (NewWebauthnFirewall_hosts _ _ _ _ Hnew) in Hhost.
  rewrite (ServeHTTP_unknown_host _ _ _ Hhost). split; [reflexivity|].
  unfold Write, WriteHeader. destruct (status w) eqn:E; cbn; [exact E | reflexivity].
Qed.
End Dispatcher.

Section DispatcherExample.
#[local] Existing Instance Ref.world.

(** C6. A request for a host the target map does not list: nothing is sent
    out and the body says forbidden, but the status the client receives is
    200, since the header is never written with 403. *)
Theorem unknown_host_answered_with_200 :
  exists wfirewall,
    Firewall.NewWebauthnFirewall "https://localhost:8081" FirewallExamples.targets = Some wfirewall /\
    FirewallExamples.targets !! Host (Firewall.Request_ FirewallExamples.strayRequest) = None /\
    let '(w, _, outbound) :=
      Firewall.ServeHTTP wfirewall newResponseWriter FirewallExamples.strayRequest in
    outbound = [] /\
    written w = [Bytes (list_byte_of_string "403: Host forbidden evil.example")] /\
    status w = Some StatusOK /\ status w <> Some StatusForbidden.
Proof.
  eexists. split; [vm_compute; reflexivity|]. split; [reflexivity|].
  vm_compute. repeat split. discriminate.
Qed.
End DispatcherExample.

(** ** Structured-body lookup (C8) *)
Section StructuredBody.
Context `{X : Externals}.

Lemma integer_decimal (z : Z) : integer (decimal z) = Some z.
Proof.
  unfold integer, decimal. rewrite NilZero.isi.
  - cbn. f_equal. apply DecimalZ.of_to.
  - destruct z; cbn; [discriminate | | discriminate].
    intros [= H]. exact (DecimalPos.Unsigned.to_uint_nonnil _ H).
  - destruct z; cbn; [discriminate | discriminate |].
    intros [= H]. exact (DecimalPos.Unsigned.to_uint_nonnil _ H).
Qed.


End StructuredBody.

Section StructuredBodyExample.
#[local] Existing Instance Ref.world.


End StructuredBodyExample.


(** ** The reference decoder on integers, however large *)
Section ReferenceDecoder.

Lemma digits_of_uint (d : Decimal.uint) (tail : string) :
  Ref.digits (NilEmpty.string_of_uint d +:+ String "}" tail) =
    (NilEmpty.string_of_uint d, String "}" tail).
Proof.
  induction d as [|d IH|d IH|d IH|d IH|d IH|d IH|d IH|d IH|d IH|d IH];
    [reflexivity | simpl; simpl in IH; rewrite IH; reflexivity ..].
Qed.

(** The digits of a positive number do not start with a zero. *)
Lemma nzhead_not_D0 (d u : Decimal.uint) : Decimal.nzhead d <> Decimal.D0 u.
Proof. induction d; cbn; try discriminate. exact IHd. Qed.

Lemma to_uint_normal (p : positive) : Decimal.unorm (Pos.to_uint p) = Pos.to_uint p.
Proof.
  rewrite <- (DecimalPos.Unsigned.to_of (Pos.to_uint p)).
  rewrite DecimalPos.Unsigned.of_to. reflexivity.
Qed.

Lemma to_uint_head (p : positive) :
  match Pos.to_uint p with
  | Decimal.Nil | Decimal.D0 _ => False
  | _ => True
  end.
Proof.
  pose proof (to_uint_normal p) as H. pose proof (DecimalPos.Unsigned.to_uint_nonzero p) as Hnz.
  destruct (Pos.to_uint p) as [|u| | | | | | | | |] eqn:E; try exact I.
  - exact (DecimalPos.Unsigned.to_uint_nonnil p E).
  - unfold Decimal.unorm in H. cbn in H.
    destruct (Decimal.nzhead u) eqn:En; try discriminate.
    + injection H as <-. apply Hnz. reflexivity.
    + exact (nzhead_not_D0 u _ En).
Qed.

Lemma append_empty (s : string) : s +:+ "" = s.
Proof.
  induction s as [|c s IH]; [reflexivity|].
  change (String c (s +:+ "") = String c s). rewrite IH. reflexivity.
Qed.

(** The number scanner takes the decimal text of any integer whole. *)
Lemma scanNumber_decimal (z : Z) (tail : string) :
  Ref.scanNumber (decimal z +:+ String "}" tail) = Some (decimal z, String "}" tail).
Proof.
  unfold decimal. destruct z as [|p|p]; [reflexivity | |]; cbn [Z.to_int NilZero.string_of_int].
  - pose proof (to_uint_head p) as H. pose proof (digits_of_uint (Pos.to_uint p) tail) as Hd.
    destruct (Pos.to_uint p); try contradiction;
      unfold Ref.scanNumber, Ref.nonEmptyDigits; simpl in *; rewrite Hd; simpl;
      rewrite append_empty; reflexivity.
  - pose proof (to_uint_head p) as H. pose proof (digits_of_uint (Pos.to_uint p) tail) as Hd.
    destruct (Pos.to_uint p); try contradiction;
      unfold Ref.scanNumber, Ref.nonEmptyDigits; simpl in *; rewrite Hd; simpl;
      rewrite append_empty; reflexivity.
Qed.

Lemma counterDocument_eq (z : Z) :
  FirewallExamples.counterDocument z =
    String "{" (String Ref.quoteChar (String "n" (String Ref.quoteChar (String ":"
      (decimal z +:+ String "}" ""))))).
Proof. reflexivity. Qed.

Lemma append_cons (c : ascii) (s t : string) : String c s +:+ t = String c (s +:+ t).
Proof. reflexivity. Qed.

(** A decimal numeral starts with a digit or with the minus sign. *)
Lemma decimal_head (z : Z) :
  exists c s, decimal z = String c s /\ (Ref.isDigit c = true \/ c = "-"%char).
Proof.
  unfold decimal. destruct z as [|p|p]; cbn [Z.to_int NilZero.string_of_int].
  - exists "0"%char, "". split; [reflexivity | left; reflexivity].
  - pose proof (to_uint_head p) as H.
    destruct (Pos.to_uint p) as [|u|u|u|u|u|u|u|u|u|u]; try contradiction;
      cbn [NilEmpty.string_of_uint]; eexists _, _; (split; [reflexivity | left; reflexivity]).
  - eexists _, _. split; [reflexivity | right; reflexivity].
Qed.

(** One step of the decoder at a number. *)
Lemma parseValue_number (fuel : nat) (c : ascii) (t : string) :
  Ref.isDigit c = true \/ c = "-"%char ->
  Ref.parseValue (S fuel) (String c t) =
    '(lit, rest) ← Ref.scanNumber (String c t); Some (Number lit, rest).
Proof.
  intros H. destruct c as [b0 b1 b2 b3 b4 b5 b6 b7].
  destruct b0, b1, b2, b3, b4, b5, b6, b7;
    first [ reflexivity
          | exfalso; destruct H as [H | H]; vm_compute in H; discriminate H ].
Qed.

(** One step of the decoder at the member [n] of an object. *)
Lemma parseMembers_n (fuel : nat) (m : gmap string value) (s : string) :
  Ref.parseMembers (S fuel) m
    (String Ref.quoteChar (String "n" (String Ref.quoteChar (String ":" s)))) =
    '(v, rest) ← Ref.parseValue fuel s;
    match Ref.skipSpace rest with
    | String "," rest => Ref.parseMembers fuel (<["n" := v]> m) rest
    | String "}" rest => Some (Object (<["n" := v]> m), rest)
    | _ => None
    end.
Proof. reflexivity. Qed.

(** One step of the decoder at an object with a first member. *)
Lemma parseValue_object (fuel : nat) (s : string) :
  Ref.parseValue (S fuel) (String "{" (String Ref.quoteChar s)) =
    Ref.parseMembers fuel ∅ (String Ref.quoteChar s).
Proof. reflexivity. Qed.

(** The decoder on a document with one integer member. *)
Lemma Unmarshal_counterDocument (z : Z) :
  Ref.Unmarshal (FirewallExamples.counterDocument z) =
    inl (Object {[ "n" := Number (decimal z) ]}).
Proof.
  unfold Ref.Unmarshal. rewrite counterDocument_eq. cbn [String.length].
  rewrite parseValue_object, parseMembers_n.
  pose proof (scanNumber_decimal z "") as Hs.
  destruct (decimal_head z) as (c & s & Hz & Hc).
  generalize (String.length (decimal z +:+ "}")). intros n.
  rewrite Hz in Hs |- *. rewrite append_cons in Hs |- *.
  rewrite (parseValue_number _ _ _ Hc), Hs. reflexivity.
Qed.

(** End to end in the reference world: an integer member of a posted
    document is looked up as its exact decimal text, whatever its size, and
    the body is left rewound. *)
Lemma GetJSONInput_counterDocument (host : string) (z : Z) :
  let r := FirewallExamples.extended (FirewallExamples.jsonPost host (FirewallExamples.counterDocument z)) in
  let res := @Firewall.GetJSONInput Ref.world (Some r) ["n"] in
  fst res = (decimal z, None) /\
  integer (fst (fst res)) = Some z /\
  (fun r1 => bodyBytes (Firewall.Request_ r1)) <$> snd res =
    Some (list_byte_of_string (FirewallExamples.counterDocument z)).
Proof.
  cbv zeta. unfold Firewall.GetJSONInput.
  change (length ["n"] <? 1)%nat with false. cbv iota.
  change (@Decode Ref.world) with Ref.jsonDecode.
  unfold Ref.jsonDecode, FirewallExamples.extended, FirewallExamples.jsonPost.
  cbn [Firewall.Request_ Body ReadAll NewReader pending failure].
  unfold NewReader. cbn [pending failure].
  rewrite string_of_list_byte_of_string, Unmarshal_counterDocument.
  cbn [Firewall.descend]. rewrite lookup_singleton_eq. cbn [default fst snd].
  split; [reflexivity|]. split; [apply integer_decimal|]. reflexivity.
Qed.
End ReferenceDecoder.

(** ** Two more runs in the reference world *)
Section Runs.
#[local] Existing Instance Ref.world.

(** An assertion made for the deletion of a repository does not disable
    the second factor, in either generation. *)
Example foreign_assertion_does_not_disable :
  rejected Examples.db0
    (run Main.disableWebauthn (fresh Examples.disableWithForeignAssertion Examples.db0)) /\
  rejected Examples.db0
    (run Legacy.disableWebauthn (fresh Examples.disableWithForeignAssertion Examples.db0)).
Proof. vm_compute. repeat split. Qed.

(** The login of a user without a second factor asks whether the factor
    is on and forwards the request with its body, in either generation. *)
Example login_without_second_factor_is_forwarded :
  let s' := run Main.finishLogin (fresh Examples.bobLogsIn Examples.db0) in
  calls s' = [CallIsUserEnabled (QueryByUsername "bob");
              Forward "https://localhost:3000" (bodyBytes Examples.bobLogsIn)] /\
  calls (run Legacy.finishLogin (fresh Examples.bobLogsIn Examples.db0)) = calls s'.
Proof. vm_compute. split; reflexivity. Qed.

(** Every member the client echoes is compared, not only the strings: an
    assertion that echoes the right text and a number besides does not
    disable the second factor. *)
Example echoed_members_are_all_compared :
  clientDataExtensions (formValue Examples.aliceDisablesWithMore "assertion") =
    Some {[ "txAuthSimple" := ExtString "Confirm disable webauthn for alice";
            "count" := ExtNumber "1" ]} /\
  rejected Examples.db0
    (run Main.disableWebauthn (fresh Examples.aliceDisablesWithMore Examples.db0)) /\
  rejected Examples.db0
    (run Legacy.disableWebauthn (fresh Examples.aliceDisablesWithMore Examples.db0)).
Proof. vm_compute. repeat split. Qed.
End Runs.

(** * Further properties

    The handlers once more, this time with everything they do: for each
    one the cases in which it acts and the cases in which it refuses, and
    then the input accessors of the firewall package, its dispatcher and
    the start-up code. *)

(** Goals about lists of calls, and the two ways a guarded handler ends. *)
Ltac nones :=
  unfold none in *; cbn; repeat rewrite forallb_app; cbn;
  repeat match goal with H : forallb _ _ = true |- _ => rewrite H end;
  reflexivity.

Ltac refused_ := unfold refused; cbn; repeat split; first [reflexivity | tauto | nones].

Ltac forward_ :=
  unfold forwardedOnce; cbv beta iota; cbn [calls store resp req];
  split; [reflexivity|]; eexists; split; [reflexivity|]; repeat split; nones.

(** ** [strconv.ParseInt] on decimal numerals *)
Section ParseIntDecimal.

Lemma horner_ge (d : Decimal.uint) (acc : Z) : 0 <= acc -> acc <= horner d acc.
Proof.
  revert acc. induction d; intros acc H; cbn [horner]; [lia | ..];
    (etransitivity; [| apply IHd; lia]; lia).
Qed.

Lemma horner_of_uint_acc (d : Decimal.uint) (acc : positive) :
  Z.pos (Pos.of_uint_acc d acc) = horner d (Z.pos acc).
Proof.
  revert acc. induction d; intros acc; cbn [Pos.of_uint_acc horner]; [reflexivity | ..];
    rewrite IHd; f_equal; lia.
Qed.

Lemma horner_of_uint (d : Decimal.uint) : Z.of_N (Pos.of_uint d) = horner d 0.
Proof.
  induction d; cbn [Pos.of_uint horner]; [reflexivity | exact IHd | ..];
    cbn [Z.of_N]; rewrite horner_of_uint_acc; reflexivity.
Qed.

Lemma horner_to_uint (p : positive) : horner (Pos.to_uint p) 0 = Z.pos p.
Proof. rewrite <- horner_of_uint, DecimalPos.Unsigned.of_to. reflexivity. Qed.

(** One round of the loop on a digit that does not overflow. *)
Lemma ParseUint_loop_digit (s0 : string) (c : ascii) (rest : string) (n k : Z) :
  Z.of_N (N_of_ascii c) = 48 + k -> 0 <= k <= 9 -> 0 <= n -> n * 10 + k <= maxUint64 ->
  ParseUint_loop s0 (String c rest) n = ParseUint_loop s0 rest (n * 10 + k).
Proof.
  intros Hc Hk Hn Hfit. cbn [ParseUint_loop]. cbv zeta. rewrite Hc.
  unfold maxUint64 in *. change (2 ^ 64) with 18446744073709551616 in *.
  replace (48 + k - 48) with k by lia.
  change ((18446744073709551616 - 1) / 10 + 1) with 1844674407370955162.
  rewrite (Z.mod_small (n * 10 + k)) by lia.
  destruct (Z.leb_spec 48 (48 + k)); [|lia].
  destruct (Z.leb_spec (48 + k) 57); [|lia].
  destruct (Z.geb_spec n 1844674407370955162); [lia|].
  destruct (Z.ltb_spec (n * 10 + k) (n * 10)); [lia|].
  destruct (Z.gtb_spec (n * 10 + k) (18446744073709551616 - 1)); [lia|].
  reflexivity.
Qed.

(** One round of the loop on a digit that overflows. *)
Lemma ParseUint_loop_overflow (s0 : string) (c : ascii) (rest : string) (n k : Z) :
  Z.of_N (N_of_ascii c) = 48 + k -> 0 <= k <= 9 -> 0 <= n <= maxUint64 -> maxUint64 < n * 10 + k ->
  ParseUint_loop s0 (String c rest) n = (maxUint64, Some (rangeError "ParseUint" s0)).
Proof.
  intros Hc Hk Hn Hover. cbn [ParseUint_loop]. cbv zeta. rewrite Hc.
  unfold maxUint64 in *. change (2 ^ 64) with 18446744073709551616 in *.
  replace (48 + k - 48) with k by lia.
  change ((18446744073709551616 - 1) / 10 + 1) with 1844674407370955162.
  destruct (Z.leb_spec 48 (48 + k)); [|lia].
  destruct (Z.leb_spec (48 + k) 57); [|lia].
  cbn [andb].
  destruct (Z.geb_spec n 1844674407370955162); [reflexivity|].
  assert (Hmod : (n * 10 + k) mod 18446744073709551616 = n * 10 + k - 18446744073709551616).
  { symmetry. apply (Z.mod_unique_pos _ _ 1); lia. }
  rewrite Hmod.
  destruct (Z.ltb_spec (n * 10 + k - 18446744073709551616) (n * 10)); [reflexivity | lia].
Qed.

Ltac digit_cases tac :=
  match goal with
  | |- context [ParseUint_loop ?s0 (String ?c ?rest) ?n] =>
      first [ tac s0 c rest n 0 | tac s0 c rest n 1 | tac s0 c rest n 2 | tac s0 c rest n 3
            | tac s0 c rest n 4 | tac s0 c rest n 5 | tac s0 c rest n 6 | tac s0 c rest n 7
            | tac s0 c rest n 8 | tac s0 c rest n 9 ]
  end.

(** The loop on a numeral that fits 64 bits. *)
Lemma ParseUint_loop_fits (s0 : string) (d : Decimal.uint) (acc : Z) :
  0 <= acc -> horner d acc <= maxUint64 ->
  ParseUint_loop s0 (NilEmpty.string_of_uint d) acc = (horner d acc, None).
Proof.
  revert acc. induction d; intros acc Hacc Hfit;
    cbn [NilEmpty.string_of_uint horner] in *; [reflexivity | ..].
  all: match goal with
       | H : horner ?d ?a <= _ |- _ => pose proof (horner_ge d a ltac:(lia)) as Hge
       end.
  all: digit_cases ltac:(fun s0 c rest n k =>
         rewrite (ParseUint_loop_digit s0 c rest n k) by (first [reflexivity | lia])).
  all: apply IHd; [lia | assumption].
Qed.

(** The loop on a numeral that does not fit. *)
Lemma ParseUint_loop_exceeds (s0 : string) (d : Decimal.uint) (acc : Z) :
  0 <= acc <= maxUint64 -> maxUint64 < horner d acc ->
  ParseUint_loop s0 (NilEmpty.string_of_uint d) acc = (maxUint64, Some (rangeError "ParseUint" s0)).
Proof.
  revert acc. induction d; intros acc Hacc Hover;
    cbn [NilEmpty.string_of_uint horner] in *; [lia | ..].
  all: match goal with
       | H : _ < horner ?d (?a * 10 + ?k) |- _ =>
           destruct (Z.le_gt_cases (a * 10 + k) maxUint64) as [Hfit | Hbig];
           [ rewrite (ParseUint_loop_digit s0 _ _ a k) by (first [reflexivity | lia]);
             apply IHd; [lia | assumption]
           | apply (ParseUint_loop_overflow s0 _ _ a k); first [reflexivity | lia] ]
       end.
Qed.
End ParseIntDecimal.
Section ParseIntDecimal2.

Lemma ParseUint_digits (d : Decimal.uint) :
  d <> Decimal.Nil ->
  ParseUint (NilEmpty.string_of_uint d) =
    if horner d 0 <=? maxUint64 then (horner d 0, None)
    else (maxUint64, Some (rangeError "ParseUint" (NilEmpty.string_of_uint d))).
Proof.
  intros Hd.
  assert (Hloop : ParseUint (NilEmpty.string_of_uint d) =
                  ParseUint_loop (NilEmpty.string_of_uint d) (NilEmpty.string_of_uint d) 0)
    by (destruct d; [contradiction | reflexivity ..]).
  rewrite Hloop. destruct (Z.leb_spec (horner d 0) maxUint64).
  - apply ParseUint_loop_fits; [lia | assumption].
  - apply ParseUint_loop_exceeds; [unfold maxUint64; lia | assumption].
Qed.

Lemma ParseInt_minus (rest : string) :
  ParseInt (String "-" rest) = signed true (String "-" rest) (ParseUint rest).
Proof. reflexivity. Qed.

Lemma ParseInt_plain (c : ascii) (rest : string) :
  Ascii.eqb c "+" = false -> Ascii.eqb c "-" = false ->
  ParseInt (String c rest) = signed false (String c rest) (ParseUint (String c rest)).
Proof. intros Hp Hm. unfold ParseInt. rewrite Hp, Hm. reflexivity. Qed.
End ParseIntDecimal2.
Section ParseIntDecimal3.

Lemma to_uint_nonnil (p : positive) : Pos.to_uint p <> Decimal.Nil.
Proof. exact (DecimalPos.Unsigned.to_uint_nonnil p). Qed.

Lemma string_of_to_uint (p : positive) :
  NilZero.string_of_uint (Pos.to_uint p) = NilEmpty.string_of_uint (Pos.to_uint p).
Proof.
  pose proof (to_uint_nonnil p) as H. destruct (Pos.to_uint p); [contradiction | reflexivity ..].
Qed.

Lemma ParseInt_positive (p : positive) :
  ParseInt (decimal (Z.pos p)) =
    signed false (decimal (Z.pos p)) (ParseUint (decimal (Z.pos p))).
Proof.
  unfold decimal. cbn [Z.to_int NilZero.string_of_int]. rewrite string_of_to_uint.
  pose proof (to_uint_head p) as H.
  destruct (Pos.to_uint p); try contradiction; cbn [NilEmpty.string_of_uint];
    apply ParseInt_plain; reflexivity.
Qed.

(** [ParseInt] on the decimal text of any integer: the integer itself
    inside the range of int64, the nearest bound and a range error
    outside. *)
Lemma ParseInt_decimal (z : Z) :
  ParseInt (decimal z) =
    if z <? minInt64 then (minInt64, Some (rangeError "ParseInt" (decimal z)))
    else if maxInt64 <? z then (maxInt64, Some (rangeError "ParseInt" (decimal z)))
    else (z, None).
Proof.
  unfold minInt64, maxInt64.
  destruct z as [|p|p].
  - reflexivity.
  - rewrite ParseInt_positive. unfold decimal at 2. cbn [Z.to_int NilZero.string_of_int].
    rewrite string_of_to_uint, (ParseUint_digits _ (to_uint_nonnil p)), horner_to_uint.
    unfold signed, maxUint64. cbn [isErrRange rangeError ErrRange negb andb].
    change (2 ^ 64) with 18446744073709551616. change (2 ^ 63) with 9223372036854775808.
    repeat match goal with
      | |- context [?a <? ?b] => destruct (Z.ltb_spec a b)
      | |- context [?a <=? ?b] => destruct (Z.leb_spec a b)
      | |- context [?a >=? ?b] => destruct (Z.geb_spec a b)
      | |- context [?a >? ?b] => destruct (Z.gtb_spec a b)
      | _ => progress cbn [isErrRange rangeError ErrRange negb andb]
      end; first [reflexivity | lia].
  - unfold decimal. cbn [Z.to_int NilZero.string_of_int]. rewrite string_of_to_uint.
    rewrite ParseInt_minus, (ParseUint_digits _ (to_uint_nonnil p)), horner_to_uint.
    unfold signed, maxUint64. cbn [isErrRange rangeError ErrRange negb andb].
    change (2 ^ 64) with 18446744073709551616. change (2 ^ 63) with 9223372036854775808.
    repeat match goal with
      | |- context [?a <? ?b] => destruct (Z.ltb_spec a b)
      | |- context [?a <=? ?b] => destruct (Z.leb_spec a b)
      | |- context [?a >=? ?b] => destruct (Z.geb_spec a b)
      | |- context [?a >? ?b] => destruct (Z.gtb_spec a b)
      | _ => progress cbn [isErrRange rangeError ErrRange negb andb]
      end; first [reflexivity | lia].
Qed.
End ParseIntDecimal3.
Section ParseIntRange.

Lemma ParseUint_loop_nonneg (s0 s : string) (n : Z) :
  0 <= n -> 0 <= fst (ParseUint_loop s0 s n).
Proof.
  revert n. induction s as [|c s IH]; intros n Hn; cbn [ParseUint_loop]; [exact Hn|].
  cbv zeta. unfold maxUint64.
  repeat match goal with
    | |- context [if ?b then _ else _] => destruct b
    end; cbn [fst]; try lia.
  apply IH. apply Z.mod_pos_bound. lia.
Qed.

Lemma ParseUint_nonneg (s : string) : 0 <= fst (ParseUint s).
Proof.
  destruct s; [cbn; lia|]. unfold ParseUint. apply ParseUint_loop_nonneg. lia.
Qed.

Lemma signed_range (neg : bool) (s0 : string) (res : Z * option error) :
  0 <= fst res -> minInt64 <= fst (signed neg s0 res) <= maxInt64.
Proof.
  destruct res as [un [e|]]; unfold signed, minInt64, maxInt64; cbn [fst]; intros Hun.
  - destruct (negb (isErrRange e)), neg; cbn [fst]; lia.
  - cbv zeta. change (2 ^ 63) with 9223372036854775808.
    destruct neg; cbn [negb andb];
      repeat match goal with
        | |- context [?a >=? ?b] => destruct (Z.geb_spec a b)
        | |- context [?a >? ?b] => destruct (Z.gtb_spec a b)
        end; cbn [fst]; lia.
Qed.

(** Whatever the input, the integer [ParseInt] returns is an int64. *)
Lemma ParseInt_range (s : string) : minInt64 <= fst (ParseInt s) <= maxInt64.
Proof.
  destruct s as [|c rest]; [cbn; unfold minInt64, maxInt64; lia|].
  destruct (Ascii.eqb c "+") eqn:Hp; [|destruct (Ascii.eqb c "-") eqn:Hm].
  - apply Ascii.eqb_eq in Hp. subst c.
    change (ParseInt (String "+" rest)) with (signed false (String "+" rest) (ParseUint rest)).
    apply signed_range, ParseUint_nonneg.
  - apply Ascii.eqb_eq in Hm. subst c. rewrite ParseInt_minus.
    apply signed_range, ParseUint_nonneg.
  - rewrite (ParseInt_plain c rest Hp Hm). apply signed_range, ParseUint_nonneg.
Qed.
End ParseIntRange.
Section Generations.
Context `{X : Externals}.

Lemma Header_Set_commute (k1 k2 v1 v2 : string) (w : ResponseWriter) :
  k1 <> k2 ->
  Header_Set k1 v1 (Header_Set k2 v2 w) = Header_Set k2 v2 (Header_Set k1 v1 w).
Proof.
  intros H. unfold Header_Set. cbn. f_equal. apply insert_insert_ne. exact H.
Qed.

(** The header both generations put on a JSON answer, whatever the order
    in which they set its three fields. *)
Lemma json_headers_agree (w : ResponseWriter) :
  Header_Set "Content-Type" "application/json"
    (Header_Set "Access-Control-Allow-Origin" Main.frontendAddress
       (Header_Set "Access-Control-Allow-Credentials" "true" w)) =
  Header_Set "Access-Control-Allow-Credentials" "true"
    (Header_Set "Content-Type" "application/json"
       (Header_Set "Access-Control-Allow-Origin" Legacy.frontendAddress w)).
Proof.
  change Legacy.frontendAddress with Main.frontendAddress.
  rewrite (Header_Set_commute "Access-Control-Allow-Credentials" "Content-Type") by discriminate.
  rewrite (Header_Set_commute "Access-Control-Allow-Credentials" "Access-Control-Allow-Origin")
    by discriminate.
  reflexivity.
Qed.

Lemma beginRegister_agree (s : State) : Main.beginRegister s = Legacy.beginRegister s.
Proof.
  unfold Main.beginRegister, Legacy.beginRegister, Main.preamble, Main.prepareJSONResponse,
    Legacy.preamble.
  hunfold. cbn [resp req store calls].
  rewrite json_headers_agree. reflexivity.
Qed.
End Generations.
(** ** The ceremony check, exactly *)
Section CeremonyCheck.
Context `{X : Externals}.

Lemma FinishLogin_verified (wuser : WebauthnUser Credential) (sd : SessionData)
    (E : AuthenticationExtensions) (a : string) :
  isOk (FinishLogin wuser sd (verifyTxAuthSimple E) a) = true <->
  isOk (ValidateLogin wuser sd a) = true /\ clientDataExtensions a = E.
Proof.
  unfold FinishLogin, verifyTxAuthSimple, DeepEqual.
  destruct (ValidateLogin wuser sd a) as [c|e]; cbn; [|intuition discriminate].
  case_bool_decide as Heq; cbn; intuition (try discriminate; congruence).
Qed.

Lemma FinishLogin_unverified (wuser : WebauthnUser Credential) (sd : SessionData) (a : string) :
  FinishLogin wuser sd Legacy.noVerify a = ValidateLogin wuser sd a.
Proof. unfold FinishLogin, Legacy.noVerify. destruct (ValidateLogin wuser sd a); reflexivity. Qed.

Lemma validates_intro (db : DB) (q : WebauthnQuery) (a : string) (r : Request)
    (wuser : WebauthnUser Credential) (sd : SessionData) :
  GetWebauthnUser db q = inl wuser ->
  GetWebauthnSession "authentication" r = inl sd ->
  isOk (ValidateLogin wuser sd a) = true ->
  validates db q a r.
Proof.
  intros Hu Hs Hv. destruct (ValidateLogin wuser sd a) as [c|e] eqn:E; [|discriminate].
  exists wuser, sd, c. auto.
Qed.

(** What [checkWebauthnAssertion] returns and what it leaves. *)
Lemma checkWebauthnAssertion_exact (q : WebauthnQuery) (E : AuthenticationExtensions)
    (a : string) (s : State) :
  exists res new,
    Main.checkWebauthnAssertion q E a s =
      (Continue res,
       {| resp := resp s; req := req s; store := store s; calls := calls s ++ new |}) /\
    (res = None <-> ceremonyPasses (store s) q E a (req s)) /\
    none isForward new /\ none isDelete new /\ none isCreate new /\ none isSession2User new.
Proof.
  unfold Main.checkWebauthnAssertion. hunfold. cbn.
  destruct (GetWebauthnUser (store s) q) as [wuser|e] eqn:Hu; cbn.
  2:{ eexists; eexists. split; [reflexivity|]. split; [|repeat split].
      split; [discriminate|]. intros [(w & sd & c & H & _) _]. congruence. }
  destruct (GetWebauthnSession "authentication" (req s)) as [sd|e] eqn:Hs; cbn.
  2:{ eexists; eexists. rewrite <- !app_assoc. split; [reflexivity|]. split; [|repeat split].
      split; [discriminate|]. intros [(w & sd' & c & _ & H & _) _]. congruence. }
  pose proof (FinishLogin_verified wuser sd E a) as Hv.
  destruct (FinishLogin wuser sd (verifyTxAuthSimple E) a) as [c|e] eqn:Hf; cbn in *.
  - eexists; eexists. rewrite <- !app_assoc. split; [reflexivity|]. split; [|repeat split].
    split; [|reflexivity]. intros _. destruct (proj1 Hv eq_refl) as [Hok Hext].
    split; [|exact Hext]. exact (validates_intro _ _ _ _ _ _ Hu Hs Hok).
  - eexists; eexists. rewrite <- !app_assoc. split; [reflexivity|]. split; [|repeat split].
    split; [discriminate|]. intros [(w & sd' & c & Hu' & Hs' & Hc) Hext].
    assert (w = wuser) by congruence. assert (sd' = sd) by congruence. subst w sd'.
    assert (isOk (ValidateLogin wuser sd a) = true) by (rewrite Hc; reflexivity).
    destruct Hv as [_ Hv]. specialize (Hv (conj H Hext)). discriminate.
Qed.
End CeremonyCheck.
(** ** The ceremony check, call by call *)
Section CeremonyCheckCalls.
Context `{X : Externals}.

(** X4. [checkWebauthnAssertion] only reads: it leaves the response, the
    request and the store as they were. It looks the user up, loads the
    authentication session and runs the ceremony, in that order, and stops
    at the first of the three that fails, returning its error. It returns
    nil exactly when the user is on record, the session loads, the
    assertion validates against it and the extensions the assertion
    echoes are exactly the expected ones. *)
Theorem ceremony_check_reads_only_and_passes_exactly_when_bound (q : WebauthnQuery)
    (E : AuthenticationExtensions) (a : string) (s : State) :
  let '(flow, s') := Main.checkWebauthnAssertion q E a s in
  resp s' = resp s /\ req s' = req s /\ store s' = store s /\
  (exists res, flow = Continue res /\
               (res = None <-> ceremonyPasses (store s) q E a (req s))) /\
  match GetWebauthnUser (store s) q with
  | inr e =>
      flow = Continue (Some e) /\ calls s' = (calls s ++ [CallGetWebauthnUser q])%list
  | inl wuser =>
      match GetWebauthnSession "authentication" (req s) with
      | inr e =>
          flow = Continue (Some e) /\
          calls s' = (calls s ++ [CallGetWebauthnUser q;
                                  CallGetWebauthnSession "authentication"])%list
      | inl sessionData =>
          flow = Continue (match FinishLogin wuser sessionData (verifyTxAuthSimple E) a with
                           | inl _ => None
                           | inr e => Some e
                           end) /\
          calls s' = (calls s ++ [CallGetWebauthnUser q;
                                  CallGetWebauthnSession "authentication";
                                  CallFinishLogin (WebAuthnName wuser) a])%list
      end
  end.
Proof.
  destruct (checkWebauthnAssertion_exact q E a s) as (res & new & Heq & Hres & _).
  pose proof Heq as Heq'. revert Heq'.
  unfold Main.checkWebauthnAssertion at 1. hunfold. cbn.
  destruct (GetWebauthnUser (store s) q) as [wuser|e]; cbn.
  2:{ intros [= <- Hnew]. rewrite Heq. cbn. repeat split; eauto. }
  destruct (GetWebauthnSession "authentication" (req s)) as [sd|e]; cbn.
  2:{ intros [= <- Hnew]. rewrite Heq. cbn. repeat split; eauto.
      rewrite <- Hnew, <- app_assoc. reflexivity. }
  destruct (FinishLogin wuser sd (verifyTxAuthSimple E) a) as [c|e]; cbn;
    intros [= <- Hnew]; rewrite Heq; cbn; repeat split; eauto;
    rewrite <- Hnew, <- !app_assoc; reflexivity.
Qed.
End CeremonyCheckCalls.

(** ** Calls that are malformed *)
Section MalformedCalls.
Context `{X : Externals}.

(** X18. A lookup called on a nil request, or with the wrong number of
    keys, is refused before anything is read: the form and URL getters
    want exactly one key and the structured-body getter at least one, and
    the request, where there is one, comes back untouched, form unparsed
    and body undecoded. Through the accessors the refusal is recorded in
    the error slot like any other failure. *)
Theorem malformed_lookup_is_refused_unread (r : Firewall.ExtendedRequest) (args : list string) :
  (Firewall.GetFormInput None args = (("", Some (errorString "Nil request received")), None) /\
   Firewall.GetURLInput None args = (("", Some (errorString "Nil request received")), None) /\
   Firewall.GetJSONInput None args = (("", Some (errorString "Nil request received")), None)) /\
  (length args <> 1%nat ->
   Firewall.GetFormInput (Some r) args =
     (("", Some (Errorf "Form inputs expect only 1 argument. Received: %v" [OpStrings args])),
      Some r) /\
   Firewall.GetURLInput (Some r) args =
     (("", Some (Errorf "URL inputs expect only 1 argument. Received: %v" [OpStrings args])),
      Some r) /\
   (Firewall.err r = None ->
    snd (Firewall.GetFormInput_WithErr args r) =
      Firewall.set_err
        (Some (Errorf "Form inputs expect only 1 argument. Received: %v" [OpStrings args])) r)) /\
  (args = [] ->
   Firewall.GetJSONInput (Some r) args =
     (("", Some (Errorf "JSON inputs expect at least 1 argument. Received: %v" [OpStrings args])),
      Some r)).
Proof.
  split; [repeat split|]. split.
  - intros Hlen.
    assert (Hform : Firewall.GetFormInput (Some r) args =
      (("", Some (Errorf "Form inputs expect only 1 argument. Received: %v" [OpStrings args])),
       Some r)).
    { destruct args as [|k [|k' rest]]; cbn in Hlen; [reflexivity | lia | reflexivity]. }
    split; [exact Hform|]. split.
    + destruct args as [|k [|k' rest]]; cbn in Hlen; [reflexivity | lia | reflexivity].
    + intros Hr. unfold Firewall.GetFormInput_WithErr, Firewall.getInput_WithErr_Helper.
      rewrite Hr, Hform. reflexivity.
  - intros ->. reflexivity.
Qed.
End MalformedCalls.
(** ** Disabling the second factor *)
Section Disable.
Context `{X : Externals}.

(** X5. Both generations of disable-webauthn delete the user's credential
    exactly when the backend recognises the session, the assertion field
    is there, the user is on record, and the assertion validates against
    the authentication session and echoes exactly the text that names this
    user; the store is then the old one with that user deleted and the
    answer tells the page to reload. In every other case the answer is an
    error and the store is left as it was. Nothing is ever forwarded. *)
Theorem disable_deletes_exactly_after_bound_assertion (r : Request) (db : DB) :
  (let s' := run Main.disableWebauthn (fresh r db) in
   let granted userID wuser :=
     session2user session2userURL (Cookies r) = inl (true, userID) /\
     formValue r "assertion" <> "" /\
     GetWebauthnUser db (QueryByUserID userID) = inl wuser /\
     ceremonyPasses db (QueryByUserID userID)
       (txAuthSimple ("Confirm disable webauthn for " +:+ WebAuthnName wuser))
       (formValue r "assertion") (ensureForm r) in
   (refused db s' /\ ~ (exists userID wuser, granted userID wuser)) \/
   (exists userID wuser,
      granted userID wuser /\
      store s' = Delete db (WebAuthnName wuser) /\
      reloads (resp s') /\
      none isForward (calls s'))) /\
  (let s' := run Legacy.disableWebauthn (fresh r db) in
   let granted userID wuser :=
     session2user legacySession2userURL (Cookies r) = inl (true, userID) /\
     formValue r "assertion" <> "" /\
     GetWebauthnUser db (QueryByUserID userID) = inl wuser /\
     ceremonyPasses db (QueryByUserID userID)
       (txAuthSimple ("Confirm disable webauthn for " +:+ WebAuthnName wuser))
       (formValue r "assertion") (ensureForm r) in
   (refused db s' /\ ~ (exists userID wuser, granted userID wuser)) \/
   (exists userID wuser,
      granted userID wuser /\
      store s' = Delete db (WebAuthnName wuser) /\
      reloads (resp s') /\
      none isForward (calls s'))).
Proof.
  split; cbv zeta.
  - unfold Main.disableWebauthn, Main.preamble. hunfold.
    change (Main.backendAddress +:+ "/server_context/session2user") with session2userURL.
    cbn. destruct (session2user session2userURL (Cookies r)) as [[[] userID]|e] eqn:Hwho; cbn;
      try solve [left; split; [refused_ | intros (u & w & Hw & _); congruence]].
    rewrite FormValue_eq. cbn.
    destruct (String.eqb_spec (formValue r "assertion") "") as [|Hne]; cbn;
      [left; split; [refused_ | intros (u & w & _ & Ha & _); contradiction]|].
    destruct (GetWebauthnUser db (QueryByUserID userID)) as [wuser|e] eqn:Hget; cbn.
    2:{ left; split; [refused_|]. intros (u & w & Hw & _ & Hg & _).
        injection Hw as <-. congruence. }
    match goal with |- context [Main.checkWebauthnAssertion ?q ?E ?a ?s] =>
      destruct (checkWebauthnAssertion_exact q E a s) as (res & new & -> & Hres & Hf & Hd & Hc & _)
    end.
    cbn in Hres. destruct res as [e|]; cbn.
    + left; split; [refused_|]. intros (u & w & Hw & _ & Hg & Hp).
      injection Hw as <-. assert (w = wuser) by congruence. subst w.
      apply Hres in Hp. discriminate.
    + right. exists userID, wuser.
      split; [split; [reflexivity | split; [exact Hne | split; [exact Hget|]]]|].
      * apply (proj1 Hres). reflexivity.
      * split; [reflexivity|]. split; [split; reflexivity|]. nones.
  - unfold Legacy.disableWebauthn, Legacy.preamble. hunfold.
    change (Legacy.backendAddress +:+ "/user/session2user") with legacySession2userURL.
    cbn. destruct (session2user legacySession2userURL (Cookies r)) as [[[] userID]|e] eqn:Hwho;
      cbn; try solve [left; split; [refused_ | intros (u & w & Hw & _); congruence]].
    rewrite FormValue_eq. cbn.
    destruct (String.eqb_spec (formValue r "assertion") "") as [|Hne]; cbn;
      [left; split; [refused_ | intros (u & w & _ & Ha & _); contradiction]|].
    destruct (GetWebauthnUser db (QueryByUserID userID)) as [wuser|e] eqn:Hget; cbn.
    2:{ left; split; [refused_|]. intros (u & w & Hw & _ & Hg & _).
        injection Hw as <-. congruence. }
    destruct (GetWebauthnSession "authentication" (ensureForm r)) as [sd|e] eqn:Hs; cbn.
    2:{ left; split; [refused_|]. intros (u & w & _ & _ & _ & (w' & sd' & c & _ & Hs' & _) & _).
        congruence. }
    pose proof (FinishLogin_verified wuser sd
                  (txAuthSimple ("Confirm disable webauthn for " +:+ WebAuthnName wuser))
                  (formValue r "assertion")) as Hv.
    destruct (FinishLogin wuser sd _ (formValue r "assertion")) as [c|e]; cbn in *.
    + right. exists userID, wuser. destruct (proj1 Hv eq_refl) as [Hok Hext].
      split; [split; [reflexivity | split; [exact Hne | split; [exact Hget|]]]|].
      * split; [exact (validates_intro _ _ _ _ _ _ Hget Hs Hok) | exact Hext].
      * split; [reflexivity|]. split; [split; reflexivity|]. nones.
    + left; split; [refused_|].
      intros (u & w & Hw & _ & Hg & (w' & sd' & c & Hg' & Hs' & Hc) & Hext).
      injection Hw as <-. assert (w = wuser) by congruence. subst w.
      assert (w' = wuser) by congruence. assert (sd' = sd) by congruence. subst w' sd'.
      assert (Hok : isOk (ValidateLogin wuser sd (formValue r "assertion")) = true)
        by (rewrite Hc; reflexivity).
      specialize (proj2 Hv (conj Hok Hext)). discriminate.
Qed.
End Disable.
(** ** Registration *)
Section Registration.
Context `{X : Externals}.

Lemma finishRegister_agree (s : State) : Main.finishRegister s = Legacy.finishRegister s.
Proof.
  unfold Main.finishRegister, Legacy.finishRegister, Main.preamble, Main.prepareJSONResponse,
    Legacy.preamble.
  hunfold. cbn [resp req store calls].
  rewrite json_headers_agree. reflexivity.
Qed.

(** X6. Finish-register, in either generation, stores a credential
    exactly when the form names a user, an id that parses and a
    credential, the registration session loads and the ceremony library
    accepts the credential for that user and session; the store is then
    the old one with that credential created and the answer tells the page
    to reload. In every other case the answer is an error and the store is
    as it was. The handler never asks the backend whose session the
    request belongs to: the user it registers is the one the form names. *)
Theorem registration_stores_exactly_accepted_credential (r : Request) (db : DB) :
  let s' := run Main.finishRegister (fresh r db) in
  let accepted userID sd cred :=
    formValue r "username" <> "" /\ formValue r "credentials" <> "" /\
    ParseInt (formValue r "userID") = (userID, None) /\
    GetWebauthnSession "registration" (ensureForm r) = inl sd /\
    FinishRegistration (NewWebauthnUser userID (formValue r "username") []) sd
      (formValue r "credentials") = inl cred in
  run Legacy.finishRegister (fresh r db) = s' /\
  none isSession2User (calls s') /\
  ((refused db s' /\ ~ (exists userID sd cred, accepted userID sd cred)) \/
   (exists userID sd cred,
      accepted userID sd cred /\
      store s' = Create db (NewWebauthnUser userID (formValue r "username") []) cred /\
      reloads (resp s') /\
      none isForward (calls s') /\ none isDelete (calls s'))).
Proof.
  cbv zeta. split; [unfold run; rewrite finishRegister_agree; reflexivity|].
  unfold Main.finishRegister, Main.preamble, Main.prepareJSONResponse. hunfold. cbn.
  repeat (rewrite FormValue_eq; cbn). rewrite formValue_ensureForm.
  destruct (String.eqb_spec (formValue r "username") "") as [|Hu]; cbn.
  { split; [nones|]. left. split; [refused_|]. intros (u & sd & c & H & _). contradiction. }
  destruct (String.eqb_spec (formValue r "credentials") "") as [|Hc]; cbn.
  { split; [nones|]. left. split; [refused_|]. intros (u & sd & c & _ & H & _). contradiction. }
  rewrite FormValue_eq. cbn. rewrite !formValue_ensureForm, !ensureForm_idem.
  destruct (ParseInt (formValue r "userID")) as [userID [e|]] eqn:Hid; cbn.
  { split; [nones|]. left. split; [refused_|]. intros (u & sd & c & _ & _ & H & _). congruence. }
  destruct (GetWebauthnSession "registration" (ensureForm r)) as [sd|e] eqn:Hs; cbn.
  2:{ split; [nones|]. left. split; [refused_|].
      intros (u & sd & c & _ & _ & _ & H & _). congruence. }
  destruct (FinishRegistration (NewWebauthnUser userID (formValue r "username") []) sd
              (formValue r "credentials")) as [cred|e] eqn:Hf; cbn.
  2:{ split; [nones|]. left. split; [refused_|].
      intros (u & sd' & c & _ & _ & H1 & H2 & H3).
      assert (u = userID) by congruence. assert (sd' = sd) by congruence. subst. congruence. }
  split; [nones|]. right. exists userID, sd, cred.
  repeat split; first [assumption | reflexivity | nones].
Qed.
End Registration.
Section RegistrationBegin.
Context `{X : Externals}.

(** X2. Begin-register on a form that names a user and the decimal text
    of an int64: the ceremony is begun for exactly that id and name, in
    either generation, without asking the backend whose session the
    request belongs to and without touching the store. When the library,
    the encoder and the session store all succeed the answer is 200 with
    the encoded options as a JSON body and the session cookie set; the
    first of them that fails is answered 500 with its error, and a library
    or encoder failure saves no session. *)
Theorem registration_begins_for_posted_identity (r : Request) (db : DB) (z : Z) :
  formValue r "username" <> "" ->
  formValue r "userID" = decimal z ->
  minInt64 <= z <= maxInt64 ->
  let wuser := NewWebauthnUser z (formValue r "username") [] in
  let s' := run Main.beginRegister (fresh r db) in
  run Legacy.beginRegister (fresh r db) = s' /\
  store s' = db /\
  none isSession2User (calls s') /\
  match BeginRegistration wuser with
  | inr e =>
      answeredError StatusInternalServerError (ErrorOf e) (resp s') /\
      calls s' = [CallBeginRegistration (formValue r "username")]
  | inl (options, sessionData) =>
      match Marshal_creation options with
      | inr e =>
          answeredError StatusInternalServerError (ErrorOf e) (resp s') /\
          calls s' = [CallBeginRegistration (formValue r "username")]
      | inl json_response =>
          calls s' = [CallBeginRegistration (formValue r "username");
                      CallSaveWebauthnSession "registration"] /\
          match SaveWebauthnSession "registration" sessionData (ensureForm r) with
          | inr e => answeredError StatusInternalServerError (ErrorOf e) (resp s')
          | inl cookie =>
              status (resp s') = Some StatusOK /\
              written (resp s') = [Bytes json_response] /\
              wheader (resp s') !! "Set-Cookie" = Some cookie /\
              wheader (resp s') !! "Content-Type" = Some "application/json"
          end
      end
  end.
Proof.
  intros Hu Hid Hz. cbv zeta.
  split; [unfold run; rewrite beginRegister_agree; reflexivity|].
  unfold Main.beginRegister, Main.preamble, Main.prepareJSONResponse, answeredError.
  hunfold. cbn. rewrite FormValue_eq. cbn.
  destruct (String.eqb_spec (formValue r "username") ""); [contradiction|]. cbn.
  rewrite FormValue_eq. cbn. rewrite formValue_ensureForm, ensureForm_idem, Hid, ParseInt_decimal.
  destruct (Z.ltb_spec z minInt64); [lia|]. destruct (Z.ltb_spec maxInt64 z); [lia|]. cbn.
  destruct (BeginRegistration (NewWebauthnUser z (formValue r "username") []))
    as [[options sd]|e]; cbn; [|repeat split].
  destruct (Marshal_creation options) as [json|e]; cbn; [|repeat split].
  destruct (SaveWebauthnSession "registration" sd (ensureForm r)) as [cookie|e]; cbn;
    repeat split.
Qed.
End RegistrationBegin.
(** ** The SSH-key handlers *)
Section SSHKeys.
Context `{X : Externals}.

(** X7. Add-SSH-key and delete-SSH-key end in one of two ways: an error
    answer with nothing forwarded, or the request forwarded once with the
    body it arrived with. They forward exactly when the backend recognises
    the session and either the account has no second factor enabled, or
    the body was readable, the fields were there, and the assertion passed
    the ceremony check echoing exactly the text the handler builds: the
    title posted for an addition, and for a deletion the name the backend
    holds for the posted key id. *)
Theorem ssh_key_change_forwarded_exactly_when_granted (r : Request) (db : DB) :
  (let s' := run Main.addSSHKey (fresh r db) in
   let granted userID :=
     session2user session2userURL (Cookies r) = inl (true, userID) /\
     (IsUserEnabled db (QueryByUserID userID) = false \/
      (failure (Body r) = None /\
       formValue r "assertion" <> "" /\ formValue r "title" <> "" /\
       ceremonyPasses db (QueryByUserID userID)
         (txAuthSimple ("Add SSH key named: " +:+ formValue r "title"))
         (formValue r "assertion") (ensureForm r))) in
   (refused db s' /\ ~ (exists userID, granted userID)) \/
   (forwardedOnce db (bodyBytes r) s' /\ exists userID, granted userID)) /\
  (let s' := run Main.deleteSSHKey (fresh r db) in
   let granted userID :=
     session2user session2userURL (Cookies r) = inl (true, userID) /\
     (IsUserEnabled db (QueryByUserID userID) = false \/
      exists sshKeyID sshKey,
        failure (Body r) = None /\
        formValue r "assertion" <> "" /\
        ParseInt (formValue r "id") = (sshKeyID, None) /\
        itemFromItemID_ssh_key Main.backendAddress sshKeyID = inl sshKey /\
        ceremonyPasses db (QueryByUserID userID)
          (txAuthSimple ("Delete SSH key named: " +:+ Name sshKey))
          (formValue r "assertion") (ensureForm r)) in
   (refused db s' /\ ~ (exists userID, granted userID)) \/
   (forwardedOnce db (bodyBytes r) s' /\ exists userID, granted userID)).
Proof.

  split; cbv zeta.
  - unfold Main.addSSHKey, Main.preamble. hunfold.
    change (Main.backendAddress +:+ "/server_context/session2user") with session2userURL.
    cbn. destruct (session2user session2userURL (Cookies r)) as [[[] userID]|e] eqn:Hwho;
      cbn; try solve [left; split; [refused_ | intros (u & Hw & _); congruence]].
    destruct (IsUserEnabled db (QueryByUserID userID)) eqn:Hen; cbn.
    2:{ rewrite ServeHTTP_eq. right. split; [forward_|].
        exists userID. split; [reflexivity | left; exact Hen]. }
    rewrite NewRequestRefiller_eq. cbn.
    destruct (failure (Body r)) as [e|] eqn:Hok; cbn.
    { left; split; [refused_|]. intros (u & Hw & [Hn | (Hb & _)]); [|discriminate].
      injection Hw as <-. congruence. }
    rewrite (refilled_self r Hok).
    repeat (rewrite FormValue_eq; cbn). rewrite formValue_ensureForm.
    destruct (String.eqb_spec (formValue r "assertion") "") as [|Ha]; cbn.
    { left; split; [refused_|]. intros (u & Hw & [Hn | (_ & Hb & _)]); [|contradiction].
      injection Hw as <-. congruence. }
    destruct (String.eqb_spec (formValue r "title") "") as [|Ht]; cbn.
    { left; split; [refused_|]. intros (u & Hw & [Hn | (_ & _ & Hb & _)]); [|contradiction].
      injection Hw as <-. congruence. }
    rewrite ensureForm_idem.
    match goal with |- context [Main.checkWebauthnAssertion ?q ?E ?a ?s] =>
      destruct (checkWebauthnAssertion_exact q E a s) as (res & new & -> & Hres & Hf & Hd & Hc & _)
    end.
    cbn in Hres. destruct res as [e|]; cbn.
    { left; split; [refused_|]. intros (u & Hw & [Hn | (_ & _ & _ & Hp)]);
        injection Hw as <-; [congruence|]. apply Hres in Hp. discriminate. }
    rewrite Refill_eq. cbn. rewrite ServeHTTP_eq. right. split; [forward_|].
    exists userID. split; [reflexivity|]. right.
    repeat split; try assumption; apply (proj1 Hres); reflexivity.
  - unfold Main.deleteSSHKey, Main.preamble, Main.sshKeyFromSSHKeyID. hunfold.
    change (Main.backendAddress +:+ "/server_context/session2user") with session2userURL.
    cbn. destruct (session2user session2userURL (Cookies r)) as [[[] userID]|e] eqn:Hwho;
      cbn; try solve [left; split; [refused_ | intros (u & Hw & _); congruence]].
    destruct (IsUserEnabled db (QueryByUserID userID)) eqn:Hen; cbn.
    2:{ rewrite ServeHTTP_eq. right. split; [forward_|].
        exists userID. split; [reflexivity | left; exact Hen]. }
    rewrite NewRequestRefiller_eq. cbn.
    destruct (failure (Body r)) as [e|] eqn:Hok; cbn.
    { left; split; [refused_|]. intros (u & Hw & [Hn | (i & k & Hb & _)]); [|discriminate].
      injection Hw as <-. congruence. }
    rewrite (refilled_self r Hok).
    rewrite FormValue_eq. cbn.
    destruct (String.eqb_spec (formValue r "assertion") "") as [|Ha]; cbn.
    { left; split; [refused_|]. intros (u & Hw & [Hn | (i & k & _ & Hb & _)]); [|contradiction].
      injection Hw as <-. congruence. }
    rewrite FormValue_eq. cbn. rewrite formValue_ensureForm, ensureForm_idem.
    destruct (ParseInt (formValue r "id")) as [sshKeyID [e|]] eqn:Hid; cbn.
    { left; split; [refused_|]. intros (u & Hw & [Hn | (i & k & _ & _ & Hb & _)]); [|congruence].
      injection Hw as <-. congruence. }
    destruct (itemFromItemID_ssh_key Main.backendAddress sshKeyID) as [sshKey|e] eqn:Hkey; cbn.
    2:{ left; split; [refused_|].
        intros (u & Hw & [Hn | (i & k & _ & _ & Hi & Hk & _)]); injection Hw as <-; [congruence|].
        assert (i = sshKeyID) by congruence. subst i. congruence. }
    match goal with |- context [Main.checkWebauthnAssertion ?q ?E ?a ?s] =>
      destruct (checkWebauthnAssertion_exact q E a s) as (res & new & -> & Hres & Hf & Hd & Hc & _)
    end.
    cbn in Hres. destruct res as [e|]; cbn.
    { left; split; [refused_|].
      intros (u & Hw & [Hn | (i & k & _ & _ & Hi & Hk & Hp)]); injection Hw as <-; [congruence|].
      assert (i = sshKeyID) by congruence. subst i.
      assert (k = sshKey) by congruence. subst k. apply Hres in Hp. discriminate. }
    rewrite Refill_eq. cbn. rewrite ServeHTTP_eq. right. split; [forward_|].
    exists userID. split; [reflexivity|]. right. exists sshKeyID, sshKey.
    repeat split; try assumption; apply (proj1 Hres); reflexivity.
Qed.
End SSHKeys.
(** ** Deleting a repository *)
Section RepositoryDelete.
Context `{X : Externals}.

(** The delete helper of [main.go] on a request whose form is parsed. *)
Lemma Main_deleteRepositoryHelper_exact (r : Request) (db : DB) (f : Values) :
  Form r = Some f ->
  let s' := run Main.deleteRepositoryHelper (fresh r db) in
  let granted userID :=
    session2user session2userURL (Cookies r) = inl (true, userID) /\
    (IsUserEnabled db (QueryByUserID userID) = false \/
     (formValue r "assertion" <> "" /\
      ceremonyPasses db (QueryByUserID userID)
        (txAuthSimple ("Confirm repository delete: " +:+ muxVar r "username" +:+ "/" +:+
                       muxVar r "reponame"))
        (formValue r "assertion") r)) in
  (refused db s' /\ ~ (exists userID, granted userID)) \/
  (forwardedOnce db (bodyBytes r) s' /\ exists userID, granted userID).
Proof.
  intros Hform. cbv zeta. unfold Main.deleteRepositoryHelper, Main.preamble. hunfold.
  change (Main.backendAddress +:+ "/server_context/session2user") with session2userURL.
  cbn. destruct (session2user session2userURL (Cookies r)) as [[[] userID]|e] eqn:Hwho;
    cbn; try solve [left; split; [refused_ | intros (u & Hw & _); congruence]].
  destruct (IsUserEnabled db (QueryByUserID userID)) eqn:Hen; cbn.
  2:{ rewrite ServeHTTP_eq. right. split; [forward_|].
      exists userID. split; [reflexivity | left; exact Hen]. }
  rewrite FormValue_eq. cbn. rewrite (ensureForm_cached r f Hform).
  destruct (String.eqb_spec (formValue r "assertion") "") as [|Ha]; cbn.
  { left; split; [refused_|]. intros (u & Hw & [Hn | (Hb & _)]); [|contradiction].
    injection Hw as <-. congruence. }
  match goal with |- context [Main.checkWebauthnAssertion ?q ?E ?a ?s] =>
    destruct (checkWebauthnAssertion_exact q E a s) as (res & new & -> & Hres & Hf & Hd & Hc & _)
  end.
  cbn in Hres. destruct res as [e|]; cbn.
  { left; split; [refused_|]. intros (u & Hw & [Hn | (_ & Hp)]);
      injection Hw as <-; [congruence|]. apply Hres in Hp. discriminate. }
  rewrite ServeHTTP_eq. right. split; [forward_|].
  exists userID. split; [reflexivity|]. right.
  split; [exact Ha | apply (proj1 Hres); reflexivity].
Qed.

(** The delete helper of the earlier generation, likewise. It asks for
    the assertion field before it looks at the account. *)
Lemma Legacy_deleteRepositoryHelper_exact (r : Request) (db : DB) (f : Values) :
  Form r = Some f ->
  let s' := run Legacy.deleteRepositoryHelper (fresh r db) in
  let granted userID :=
    session2user legacySession2userURL (Cookies r) = inl (true, userID) /\
    formValue r "assertion" <> "" /\
    (IsUserEnabled db (QueryByUserID userID) = false \/
     ceremonyPasses db (QueryByUserID userID)
       (txAuthSimple ("Confirm repository delete: " +:+ muxVar r "username" +:+ "/" +:+
                      muxVar r "reponame"))
       (formValue r "assertion") r) in
  (refused db s' /\ ~ (exists userID, granted userID)) \/
  (forwardedOnce db (bodyBytes r) s' /\ exists userID, granted userID).
Proof.
  intros Hform. cbv zeta. unfold Legacy.deleteRepositoryHelper. hunfold.
  change (Legacy.backendAddress +:+ "/user/session2user") with legacySession2userURL.
  cbn. destruct (session2user legacySession2userURL (Cookies r)) as [[[] userID]|e] eqn:Hwho;
    cbn; try solve [left; split; [refused_ | intros (u & Hw & _); congruence]].
  rewrite FormValue_eq. cbn. rewrite (ensureForm_cached r f Hform).
  destruct (String.eqb_spec (formValue r "assertion") "") as [|Ha]; cbn.
  { left; split; [refused_|]. intros (u & _ & Hb & _). contradiction. }
  destruct (IsUserEnabled db (QueryByUserID userID)) eqn:Hen; cbn.
  2:{ rewrite ServeHTTP_eq. right. split; [forward_|].
      exists userID. split; [reflexivity | split; [exact Ha | left; exact Hen]]. }
  destruct (GetWebauthnUser db (QueryByUserID userID)) as [wuser|e] eqn:Hget; cbn.
  2:{ left; split; [refused_|].
      intros (u & Hw & _ & [Hn | ((w & sd & c & Hg & _) & _)]); injection Hw as <-; congruence. }
  destruct (GetWebauthnSession "authentication" r) as [sd|e] eqn:Hs; cbn.
  2:{ left; split; [refused_|].
      intros (u & Hw & _ & [Hn | ((w & sd & c & _ & Hg & _) & _)]); injection Hw as <-; congruence. }
  pose proof (FinishLogin_verified wuser sd
                (txAuthSimple ("Confirm repository delete: " +:+ muxVar r "username" +:+ "/" +:+
                               muxVar r "reponame"))
                (formValue r "assertion")) as Hv.
  destruct (FinishLogin wuser sd _ (formValue r "assertion")) as [c|e]; cbn in *.
  - rewrite ServeHTTP_eq. right. split; [forward_|].
    destruct (proj1 Hv eq_refl) as [Hok Hext].
    exists userID. split; [reflexivity | split; [exact Ha | right]].
    split; [exact (validates_intro _ _ _ _ _ _ Hget Hs Hok) | exact Hext].
  - left; split; [refused_|].
    intros (u & Hw & _ & [Hn | ((w & sd' & c & Hg & Hs' & Hc) & Hext)]);
      injection Hw as <-; [congruence|].
    assert (w = wuser) by congruence. assert (sd' = sd) by congruence. subst w sd'.
    assert (Hok : isOk (ValidateLogin wuser sd (formValue r "assertion")) = true)
      by (rewrite Hc; reflexivity).
    specialize (proj2 Hv (conj Hok Hext)). discriminate.
Qed.

Lemma Cookies_refilled (b : Reader) (r : Request) :
  Cookies (set_Body b (ensureForm r)) = Cookies r.
Proof. cbn. apply Cookies_ensureForm. Qed.

Lemma muxVar_refilled (b : Reader) (r : Request) (name : string) :
  muxVar (set_Body b (ensureForm r)) name = muxVar r name.
Proof. unfold muxVar. cbn. rewrite Vars_ensureForm. reflexivity. Qed.

(** X8. The repository-settings dispatcher ends in an error answer with
    nothing forwarded, or forwards the request once with the body it
    arrived with. It forwards exactly when the body is readable, the
    action field is there, and either the action is not a deletion, in
    which case nobody is asked anything, or the backend recognises the
    session and the account has no second factor enabled or the assertion
    passes the ceremony check echoing exactly the text that names this
    owner and repository. The earlier generation differs in one respect:
    it wants the assertion field on every deletion, enabled or not. *)
Theorem repository_settings_forward_exactly_when_granted (r : Request) (db : DB) :
  let r' := set_Body (NewReader (bodyBytes r)) (ensureForm r) in
  let confirmation :=
    txAuthSimple ("Confirm repository delete: " +:+ muxVar r "username" +:+ "/" +:+
                  muxVar r "reponame") in
  (let s' := run Main.repoSettings (fresh r db) in
   let granted :=
     failure (Body r) = None /\ formValue r "action" <> "" /\
     (formValue r "action" <> "delete" \/
      exists userID,
        session2user session2userURL (Cookies r) = inl (true, userID) /\
        (IsUserEnabled db (QueryByUserID userID) = false \/
         (formValue r "assertion" <> "" /\
          ceremonyPasses db (QueryByUserID userID) confirmation (formValue r "assertion") r'))) in
   (refused db s' /\ ~ granted) \/ (forwardedOnce db (bodyBytes r) s' /\ granted)) /\
  (let s' := run Legacy.repoSettings (fresh r db) in
   let granted :=
     failure (Body r) = None /\ formValue r "action" <> "" /\
     (formValue r "action" <> "delete" \/
      exists userID,
        session2user legacySession2userURL (Cookies r) = inl (true, userID) /\
        formValue r "assertion" <> "" /\
        (IsUserEnabled db (QueryByUserID userID) = false \/
         ceremonyPasses db (QueryByUserID userID) confirmation (formValue r "assertion") r')) in
   (refused db s' /\ ~ granted) \/ (forwardedOnce db (bodyBytes r) s' /\ granted)).
Proof.
  cbv zeta. destruct (Form_ensureForm r) as [f Hf].
  assert (Hf' : Form (set_Body (NewReader (bodyBytes r)) (ensureForm r)) = Some f) by exact Hf.
  destruct (failure (Body r)) as [e|] eqn:Hok.
  { split; left; (split; [|intros (H & _); discriminate]).
    - unfold Main.repoSettings. hunfold. cbn. rewrite NewRequestRefiller_eq. cbn.
      rewrite Hok. cbn. refused_.
    - unfold Legacy.repoSettings. hunfold. cbn. rewrite Hok. cbn. refused_. }
  destruct (String.eqb_spec (formValue r "action") "") as [Hact|Hact].
  { split; left; (split; [|intros (_ & H & _); contradiction]).
    - unfold Main.repoSettings. hunfold. cbn. rewrite NewRequestRefiller_eq. cbn.
      rewrite Hok. cbn. rewrite (refilled_self r Hok), FormValue_eq. cbn. rewrite Hact. cbn.
      refused_.
    - unfold Legacy.repoSettings. hunfold. cbn. rewrite Hok. cbn.
      rewrite !set_Body_twice. fold (bodyBytes r).
      rewrite (refilled_self r Hok), FormValue_eq. cbn. rewrite Hact. cbn. refused_. }
  rewrite (Main_repoSettings_eq r db Hok Hact), (Legacy_repoSettings_eq r db Hok Hact).
  destruct (String.eqb_spec (formValue r "action") "delete") as [Hdel|Hdel].
  - split.
    + pose proof (Main_deleteRepositoryHelper_exact _ db f Hf') as H. cbv zeta in H.
      rewrite Cookies_refilled, formValue_set_Body, !muxVar_refilled, bodyBytes_set_Body in H.
      destruct H as [[Hr Hn] | [Hfw (u & Hg)]].
      * left. split; [exact Hr|]. intros (_ & _ & [Hnd | Hg]); [contradiction|]. exact (Hn Hg).
      * right. split; [exact Hfw|]. split; [reflexivity|]. split; [exact Hact|].
        right. exists u. exact Hg.
    + pose proof (Legacy_deleteRepositoryHelper_exact _ db f Hf') as H. cbv zeta in H.
      rewrite Cookies_refilled, formValue_set_Body, !muxVar_refilled, bodyBytes_set_Body in H.
      destruct H as [[Hr Hn] | [Hfw (u & Hg)]].
      * left. split; [exact Hr|]. intros (_ & _ & [Hnd | Hg]); [contradiction|]. exact (Hn Hg).
      * right. split; [exact Hfw|]. split; [reflexivity|]. split; [exact Hact|].
        right. exists u. exact Hg.
  - split; right.
    + split; [|split; [reflexivity | split; [exact Hact | left; exact Hdel]]].
      unfold Main.proxyRequest. hunfold. unfold fresh. rewrite ServeHTTP_eq. forward_.
    + split; [|split; [reflexivity | split; [exact Hact | left; exact Hdel]]].
      hunfold. unfold fresh. rewrite ServeHTTP_eq. forward_.
Qed.
End RepositoryDelete.
(** ** Logging in *)
Section Login.
Context `{X : Externals}.

(** X9. Finish-login hands the login to the backend, body intact, exactly
    when the body is readable, the user name and the assertion field are
    there, and either the named account has no second factor enabled or
    the assertion validates against the authentication session; the newer
    generation wants in addition that the assertion echoes no extensions
    at all. In every other case the answer is an error and nothing reaches
    the backend. Neither generation asks the backend for a session: the
    account is the one the form names. *)
Theorem login_forwarded_exactly_when_granted (r : Request) (db : DB) :
  let username := formValue r "user_name" in
  let assertion := formValue r "assertion" in
  (let s' := run Main.finishLogin (fresh r db) in
   let granted :=
     failure (Body r) = None /\ username <> "" /\ assertion <> "" /\
     (IsUserEnabled db (QueryByUsername username) = false \/
      ceremonyPasses db (QueryByUsername username) None assertion (ensureForm r)) in
   none isSession2User (calls s') /\
   ((refused db s' /\ ~ granted) \/ (forwardedOnce db (bodyBytes r) s' /\ granted))) /\
  (let s' := run Legacy.finishLogin (fresh r db) in
   let granted :=
     failure (Body r) = None /\ username <> "" /\ assertion <> "" /\
     (IsUserEnabled db (QueryByUsername username) = false \/
      validates db (QueryByUsername username) assertion (ensureForm r)) in
   none isSession2User (calls s') /\
   ((refused db s' /\ ~ granted) \/ (forwardedOnce db (bodyBytes r) s' /\ granted))).
Proof.
  cbv zeta. split.
  - unfold Main.finishLogin, Main.preamble. hunfold. cbn.
    rewrite NewRequestRefiller_eq. cbn.
    destruct (failure (Body r)) as [e|] eqn:Hok; cbn.
    { split; [nones|]. left. split; [refused_ | intros (H & _); discriminate]. }
    rewrite (refilled_self r Hok).
    repeat (rewrite FormValue_eq; cbn). rewrite formValue_ensureForm, ensureForm_idem.
    destruct (String.eqb_spec (formValue r "user_name") "") as [|Hu]; cbn.
    { split; [nones|]. left. split; [refused_ | intros (_ & H & _); contradiction]. }
    destruct (String.eqb_spec (formValue r "assertion") "") as [|Ha]; cbn.
    { split; [nones|]. left. split; [refused_ | intros (_ & _ & H & _); contradiction]. }
    destruct (IsUserEnabled db (QueryByUsername (formValue r "user_name"))) eqn:Hen; cbn.
    2:{ rewrite Refill_eq. cbn. rewrite ServeHTTP_eq. split; [nones|]. right.
        split; [forward_|]. repeat split; try assumption. left. reflexivity. }
    match goal with |- context [Main.checkWebauthnAssertion ?q ?E ?a ?s] =>
      destruct (checkWebauthnAssertion_exact q E a s)
        as (res & new & -> & Hres & Hf & Hd & Hc & Hs2u)
    end.
    cbn in Hres. destruct res as [e|]; cbn.
    { split; [nones|]. left. split; [refused_|].
      intros (_ & _ & _ & [Hn | Hp]); [discriminate|]. apply Hres in Hp. discriminate. }
    rewrite Refill_eq. cbn. rewrite ServeHTTP_eq. split; [nones|]. right.
    split; [forward_|]. repeat split; try assumption. right. apply (proj1 Hres). reflexivity.
  - unfold Legacy.finishLogin. hunfold. cbn.
    destruct (failure (Body r)) as [e|] eqn:Hok; cbn.
    { split; [nones|]. left. split; [refused_ | intros (H & _); discriminate]. }
    rewrite !set_Body_twice. fold (bodyBytes r). rewrite (refilled_self r Hok).
    repeat (rewrite FormValue_eq; cbn). rewrite formValue_ensureForm, ensureForm_idem.
    destruct (String.eqb_spec (formValue r "user_name") "") as [|Hu]; cbn.
    { split; [nones|]. left. split; [refused_ | intros (_ & H & _); contradiction]. }
    destruct (String.eqb_spec (formValue r "assertion") "") as [|Ha]; cbn.
    { split; [nones|]. left. split; [refused_ | intros (_ & _ & H & _); contradiction]. }
    destruct (IsUserEnabled db (QueryByUsername (formValue r "user_name"))) eqn:Hen; cbn.
    2:{ rewrite ServeHTTP_eq. split; [nones|]. right.
        split; [forward_|]. repeat split; try assumption. left. reflexivity. }
    destruct (GetWebauthnUser db (QueryByUsername (formValue r "user_name")))
      as [wuser|e] eqn:Hget; cbn.
    2:{ split; [nones|]. left. split; [refused_|].
        intros (_ & _ & _ & [Hn | (w & sd & c & Hg & _)]); congruence. }
    destruct (GetWebauthnSession "authentication" (ensureForm r)) as [sd|e] eqn:Hs; cbn.
    2:{ split; [nones|]. left. split; [refused_|].
        intros (_ & _ & _ & [Hn | (w & sd & c & _ & Hg & _)]); congruence. }
    rewrite FinishLogin_unverified.
    destruct (ValidateLogin wuser sd (formValue r "assertion")) as [c|e] eqn:Hv; cbn.
    + rewrite ServeHTTP_eq. split; [nones|]. right.
      split; [forward_|]. repeat split; try assumption. right. exists wuser, sd, c. auto.
    + split; [nones|]. left. split; [refused_|].
      intros (_ & _ & _ & [Hn | (w & sd' & c & Hg & Hs' & Hc)]); [discriminate|].
      assert (w = wuser) by congruence. assert (sd' = sd) by congruence. subst w sd'.
      congruence.
Qed.
End Login.
(** ** Requests without a session *)
Section NoSession.
Context `{X : Externals}.

Ltac at_the_door Hs :=
  hunfold; cbn;
  match type of Hs with
  | sessionError ?res = _ => destruct res as [[[] userID]|err]; cbn in Hs
  end;
  first [discriminate Hs | injection Hs as <-; cbn; repeat split].

(** X10. Every handler that acts for the session's user first asks the
    backend whose session the cookies carry. When the backend cannot be
    asked, or says the session is not ok, the handler answers 500 with
    that error and does nothing else: the form is not parsed, the body is
    not read, the credential store is not consulted, no ceremony call is
    made and nothing is forwarded. *)
Theorem unrecognised_session_is_turned_away (r : Request) (db : DB) (e : error) :
  (sessionError (session2user session2userURL (Cookies r)) = Some e ->
   turnedAwayAtSession session2userURL e r db (run Main.beginAttestation (fresh r db)) /\
   turnedAwayAtSession session2userURL e r db (run Main.disableWebauthn (fresh r db)) /\
   turnedAwayAtSession session2userURL e r db (run Main.deleteRepositoryHelper (fresh r db)) /\
   turnedAwayAtSession session2userURL e r db (run Main.addSSHKey (fresh r db)) /\
   turnedAwayAtSession session2userURL e r db (run Main.deleteSSHKey (fresh r db))) /\
  (sessionError (session2user legacySession2userURL (Cookies r)) = Some e ->
   turnedAwayAtSession legacySession2userURL e r db (run Legacy.beginAttestation (fresh r db)) /\
   turnedAwayAtSession legacySession2userURL e r db (run Legacy.disableWebauthn (fresh r db)) /\
   turnedAwayAtSession legacySession2userURL e r db
     (run Legacy.deleteRepositoryHelper (fresh r db))).
Proof.
  unfold turnedAwayAtSession, answeredError, session2userURL, legacySession2userURL.
  split; intros Hs.
  - change "https://localhost:3000/server_context/session2user"
      with (Main.backendAddress +:+ "/server_context/session2user") in *.
    split; [|split; [|split; [|split]]].
    + unfold Main.beginAttestation, Main.preamble, Main.prepareJSONResponse. at_the_door Hs.
    + unfold Main.disableWebauthn, Main.preamble. at_the_door Hs.
    + unfold Main.deleteRepositoryHelper, Main.preamble. at_the_door Hs.
    + unfold Main.addSSHKey, Main.preamble. at_the_door Hs.
    + unfold Main.deleteSSHKey, Main.preamble. at_the_door Hs.
  - change "https://localhost:3000/user/session2user"
      with (Legacy.backendAddress +:+ "/user/session2user") in *.
    split; [|split].
    + unfold Legacy.beginAttestation, Legacy.preamble. at_the_door Hs.
    + unfold Legacy.disableWebauthn, Legacy.preamble. at_the_door Hs.
    + unfold Legacy.deleteRepositoryHelper. at_the_door Hs.
Qed.
End NoSession.
(** ** The two generations side by side *)
Section GenerationsAgree.
Context `{X : Externals}.

(** X3. The handlers that the newer generation only re-arranged (the
    header fields are set by [preamble] and [prepareJSONResponse] in
    another order) behave as before on every state: the two register
    handlers, the enabled-flag query, the OPTIONS handler and the plain
    proxy leave the same response, request, store and calls. *)
Theorem rearranged_handlers_behave_as_before (s : State) (allowMethods : list string) :
  Main.beginRegister s = Legacy.beginRegister s /\
  Main.finishRegister s = Legacy.finishRegister s /\
  Main.webauthnIsEnabled s = Legacy.webauthnIsEnabled s /\
  Main.optionsHandler allowMethods s = Legacy.optionsHandler allowMethods s /\
  Main.proxyRequest s = Legacy.proxyRequest s.
Proof.
  split; [apply beginRegister_agree|]. split; [apply finishRegister_agree|].
  split; [reflexivity|]. split; [|reflexivity].
  unfold Main.optionsHandler, Legacy.optionsHandler, Main.preamble. hunfold.
  cbn [resp req store calls].
  change Legacy.frontendAddress with Main.frontendAddress.
  rewrite (Header_Set_commute "Access-Control-Allow-Credentials" "Access-Control-Allow-Origin")
    by discriminate.
  rewrite (Header_Set_commute "Access-Control-Allow-Credentials" "Access-Control-Allow-Methods")
    by discriminate.
  rewrite (Header_Set_commute "Access-Control-Allow-Credentials" "Access-Control-Allow-Headers")
    by discriminate.
  reflexivity.
Qed.

(** X11. The enabled-flag query answers anyone: it asks the credential
    store about the user named in the URL (an absent name reads as the
    empty one) and nothing else, never the backend for a session, and it
    always answers 200 with a JSON object that a decoder reads back as the
    flag. The request and the store are left as they were. *)
Theorem enabled_flag_is_answered_to_anyone (r : Request) (db : DB) :
  let s' := run Main.webauthnIsEnabled (fresh r db) in
  let flag := IsUserEnabled db (QueryByUsername (muxVar r "user")) in
  run Legacy.webauthnIsEnabled (fresh r db) = s' /\
  calls s' = [CallIsUserEnabled (QueryByUsername (muxVar r "user"))] /\
  store s' = db /\ req s' = r /\
  status (resp s') = Some StatusOK /\
  wheader (resp s') !! "Content-Type" = Some "application/json" /\
  exists body,
    written (resp s') = [Bytes body] /\
    Ref.Unmarshal (string_of_list_byte body) =
      inl (Object {[ "webauthn_is_enabled" := Bool flag ]}).
Proof.
  cbv zeta. split; [reflexivity|].
  unfold Main.webauthnIsEnabled, Main.prepareJSONResponse. hunfold. cbn.
  repeat (split; [reflexivity|]).
  eexists. split; [reflexivity|].
  destruct (IsUserEnabled db (QueryByUsername (muxVar r "user"))); vm_compute; reflexivity.
Qed.
End GenerationsAgree.
(** ** Chains of input lookups *)
Section LookupChains.
Context `{X : Externals}.

(** The three getters hand back the request they were given, with the
    error slot as it was. *)
Lemma getter_keeps_slot (src : Firewall.InputSource) (r : Firewall.ExtendedRequest)
    (args : list string) :
  exists r', snd (Firewall.getInputFnOf src (Some r) args) = Some r' /\
             Firewall.err r' = Firewall.err r.
Proof.
  destruct src; cbn [Firewall.getInputFnOf].
  - unfold Firewall.GetFormInput. destruct args as [|arg [|]]; try (eexists; split; reflexivity).
    destruct (Request_FormValue arg (Firewall.Request_ r)) as [val q].
    destruct (String.eqb val ""); eexists; split; reflexivity.
  - unfold Firewall.GetURLInput. destruct args as [|arg [|]]; eexists; split; reflexivity.
  - unfold Firewall.GetJSONInput. destruct (length args <? 1)%nat; [eexists; split; reflexivity|].
    destruct (Decode (Body (Firewall.Request_ r))) as [[body|e] rest];
      [|eexists; split; reflexivity].
    destruct (Firewall.descend body args) as [[| | | | |]|e]; eexists; split; reflexivity.
Qed.

Lemma helper_slot (src : Firewall.InputSource) (args : list string) (r : Firewall.ExtendedRequest) :
  Firewall.err r = None ->
  let '((_, e), r') := Firewall.getInput_WithErr_Helper (Firewall.getInputFnOf src) args r in
  Firewall.err r' = e.
Proof.
  intros Hr. unfold Firewall.getInput_WithErr_Helper. rewrite Hr.
  destruct (getter_keeps_slot src r args) as (r' & Hsnd & Herr).
  destruct (Firewall.getInputFnOf src (Some r) args) as [[val e] r1]. cbn in Hsnd. subst r1.
  cbn [default]. destruct e as [e|]; cbn; [reflexivity | congruence].
Qed.

Lemma helperInt64_slot (src : Firewall.InputSource) (args : list string)
    (r : Firewall.ExtendedRequest) :
  Firewall.err r = None ->
  let '((_, e), r') := Firewall.getInputInt64_WithErr_Helper (Firewall.getInputFnOf src) args r in
  Firewall.err r' = e.
Proof.
  intros Hr. unfold Firewall.getInputInt64_WithErr_Helper.
  pose proof (helper_slot src args r Hr) as H.
  destruct (Firewall.getInput_WithErr_Helper (Firewall.getInputFnOf src) args r) as [[val e] r'].
  destruct e as [e|]; [exact H|].
  destruct (ParseInt val) as [n [e|]]; cbn; [reflexivity | exact H].
Qed.

(** After a call on a request with an empty slot, the slot holds the
    error the call returned, if any. *)
Lemma perform_slot (op : Lookup) (r : Firewall.ExtendedRequest) :
  Firewall.err r = None -> Firewall.err (snd (perform op r)) = fst (perform op r).
Proof.
  intros Hr. destruct op as [args|args|args|args|args|args]; cbn [perform];
    unfold Firewall.GetFormInput_WithErr, Firewall.GetFormInputInt64_WithErr,
      Firewall.GetURLInput_WithErr, Firewall.GetURLInputInt64_WithErr,
      Firewall.Get_WithErr, Firewall.GetInt64_WithErr.
  - pose proof (helper_slot Firewall.FormSource args r Hr) as H. cbn in H.
    destruct (Firewall.getInput_WithErr_Helper Firewall.GetFormInput args r) as [[v e] r']. exact H.
  - pose proof (helperInt64_slot Firewall.FormSource args r Hr) as H. cbn in H.
    destruct (Firewall.getInputInt64_WithErr_Helper Firewall.GetFormInput args r) as [[v e] r'].
    exact H.
  - pose proof (helper_slot Firewall.URLSource args r Hr) as H. cbn in H.
    destruct (Firewall.getInput_WithErr_Helper Firewall.GetURLInput args r) as [[v e] r']. exact H.
  - pose proof (helperInt64_slot Firewall.URLSource args r Hr) as H. cbn in H.
    destruct (Firewall.getInputInt64_WithErr_Helper Firewall.GetURLInput args r) as [[v e] r'].
    exact H.
  - pose proof (helper_slot (Firewall.getInputDefault r) args r Hr) as H.
    destruct (Firewall.getInput_WithErr_Helper _ args r) as [[v e] r']. exact H.
  - pose proof (helperInt64_slot (Firewall.getInputDefault r) args r Hr) as H.
    destruct (Firewall.getInputInt64_WithErr_Helper _ args r) as [[v e] r']. exact H.
Qed.

(** A call on a request whose slot is taken returns the error in the slot
    and hands the request back untouched. *)
Lemma perform_sticky (op : Lookup) (r : Firewall.ExtendedRequest) (e : error) :
  Firewall.err r = Some e -> perform op r = (Some e, r).
Proof.
  intros Hr. destruct op as [args|args|args|args|args|args]; cbn [perform];
    unfold Firewall.GetFormInput_WithErr, Firewall.GetFormInputInt64_WithErr,
      Firewall.GetURLInput_WithErr, Firewall.GetURLInputInt64_WithErr,
      Firewall.Get_WithErr, Firewall.GetInt64_WithErr;
    first [ rewrite (getInput_sticky _ _ _ _ Hr) | rewrite (getInputInt64_sticky _ _ _ _ Hr) ];
    reflexivity.
Qed.

Lemma performAll_sticky (ops : list Lookup) (r : Firewall.ExtendedRequest) (e : error) :
  Firewall.err r = Some e ->
  performAll ops r = (List.repeat (Some e) (length ops), r).
Proof.
  intros Hr. induction ops as [|op ops IH]; cbn [performAll length List.repeat]; [reflexivity|].
  rewrite (perform_sticky op r e Hr), IH. reflexivity.
Qed.

Lemma firstError_repeat (e : error) (n : nat) (e' : error) :
  In (Some e') (List.repeat (Some e) n) -> e' = e.
Proof. intros H. apply repeat_spec in H. congruence. Qed.

(** X12. A chain of input lookups (form, URL or default source, text or
    int64) on one request reports a single error: once a lookup has
    failed, every later one returns that same error and leaves the request
    untouched, getters not called; so every error the chain returns is the
    first one, and it is the one left in the slot. A chain started with
    the slot already taken does nothing at all. *)
Theorem first_input_error_wins (ops : list Lookup) (r : Firewall.ExtendedRequest) :
  (forall e, Firewall.err r = Some e ->
     performAll ops r = (List.repeat (Some e) (length ops), r)) /\
  (Firewall.err r = None ->
   let '(es, r') := performAll ops r in
   Firewall.err r' = firstError es /\
   forall e, In (Some e) es -> firstError es = Some e).
Proof.
  split; [intros e He; exact (performAll_sticky ops r e He)|].
  revert r. induction ops as [|op ops IH]; intros r Hr; cbn [performAll].
  - split; [exact Hr | intros e []].
  - pose proof (perform_slot op r Hr) as Hslot.
    destruct (perform op r) as [e1 r1]. cbn [fst snd] in Hslot.
    destruct e1 as [e1|].
    + rewrite (performAll_sticky ops r1 e1 Hslot). cbn [firstError].
      split; [exact Hslot|]. intros e [[= ->] | Hin]; [reflexivity|].
      f_equal. symmetry. exact (firstError_repeat _ _ _ Hin).
    + specialize (IH r1 Hslot). destruct (performAll ops r1) as [es r']. cbn [firstError].
      destruct IH as [IH1 IH2]. split; [exact IH1|].
      intros e [Hbad | Hin]; [discriminate | exact (IH2 e Hin)].
Qed.
End LookupChains.
(** ** Lookups, one source after another *)
Section LookupSources.
Context `{X : Externals}.

(** On a buffered request (the body is a reader over the captured bytes)
    a structured-body lookup that succeeds hands the request back exactly
    as it was. *)
Lemma GetJSONInput_restores (r : Firewall.ExtendedRequest) (args : list string) (val : string)
    (r' : option Firewall.ExtendedRequest) :
  Body (Firewall.Request_ r) = NewReader (Firewall.captured r) ->
  Firewall.GetJSONInput (Some r) args = ((val, None), r') ->
  r' = Some r.
Proof.
  intros Hbuf. unfold Firewall.GetJSONInput. destruct (length args <? 1)%nat; [discriminate|].
  destruct (Decode (Body (Firewall.Request_ r))) as [[body|e] rest]; [|discriminate].
  assert (Hsame : Firewall.Refill
                    (Firewall.set_Request (set_Body rest (Firewall.Request_ r)) r) = r).
  { unfold Firewall.Refill, Firewall.set_Request.
    cbn [Firewall.Request_ Firewall.captured Firewall.err Firewall.contextGetters
         Firewall.getInputDefault].
    rewrite set_Body_twice, <- Hbuf, set_Body_self. destruct r; reflexivity. }
  destruct (Firewall.descend body args) as [[| | | | |]|e]; try discriminate;
    intros [= <- <-]; rewrite Hsame; reflexivity.
Qed.

Lemma helper_form_request (key : string) (r : Firewall.ExtendedRequest) :
  Firewall.Request_ (snd (Firewall.getInput_WithErr_Helper Firewall.GetFormInput [key] r)) =
    match Firewall.err r with
    | Some _ => Firewall.Request_ r
    | None => ensureForm (Firewall.Request_ r)
    end.
Proof.
  unfold Firewall.getInput_WithErr_Helper, Firewall.GetFormInput.
  destruct (Firewall.err r); [reflexivity|].
  rewrite Request_FormValue_eq.
  destruct (String.eqb (formValue (Firewall.Request_ r) key) ""); reflexivity.
Qed.

(** X14. Lookups can be repeated and mixed. On a buffered request a
    structured-body lookup that succeeds leaves the request exactly as it
    found it, error slot included, so that a second lookup, of the same
    path or of another, answers as if it were the first. A URL lookup
    never changes the underlying request. Once a form lookup has run, no
    later form lookup changes the underlying request: the form is parsed
    at most once, and the body the parser consumed is not put back. *)
Theorem lookups_can_be_repeated (r : Firewall.ExtendedRequest) (args : list string)
    (key key' : string) :
  (forall val r1,
     Body (Firewall.Request_ r) = NewReader (Firewall.captured r) ->
     Firewall.getInput_WithErr_Helper Firewall.GetJSONInput args r = ((val, None), r1) ->
     r1 = r) /\
  Firewall.Request_ (snd (Firewall.getInput_WithErr_Helper Firewall.GetURLInput args r)) =
    Firewall.Request_ r /\
  (let r1 := snd (Firewall.getInput_WithErr_Helper Firewall.GetFormInput [key] r) in
   Firewall.Request_ (snd (Firewall.getInput_WithErr_Helper Firewall.GetFormInput [key'] r1)) =
     Firewall.Request_ r1 /\
   (Firewall.err r = None ->
    Body (Firewall.Request_ r1) = Body (ensureForm (Firewall.Request_ r)))).
Proof.
  split; [|split].
  - intros val r1 Hbuf. unfold Firewall.getInput_WithErr_Helper.
    destruct (Firewall.err r) as [e|]; [discriminate|].
    destruct (Firewall.GetJSONInput (Some r) args) as [[v [e|]] r'] eqn:Hget; [discriminate|].
    intros [= <- <-]. rewrite (GetJSONInput_restores r args v r' Hbuf Hget). reflexivity.
  - unfold Firewall.getInput_WithErr_Helper, Firewall.GetURLInput.
    destruct (Firewall.err r); [reflexivity|].
    destruct args as [|arg [|]]; reflexivity.
  - cbv zeta. split.
    + rewrite (helper_form_request key').
      destruct (Firewall.err (snd (Firewall.getInput_WithErr_Helper Firewall.GetFormInput [key] r)))
        eqn:Hslot; [reflexivity|].
      rewrite (helper_form_request key).
      destruct (Firewall.err r) as [e|] eqn:Hr.
      * rewrite (getInput_sticky _ _ _ _ Hr) in Hslot. cbn in Hslot. congruence.
      * apply ensureForm_idem.
    + intros Hr. rewrite (helper_form_request key), Hr. reflexivity.
Qed.

(** X13. What each source makes of a key that is not there. A form field
    that is absent or empty is an error; a URL variable that is absent is
    the empty string with no error, so that it is the conversion to int64
    that fails, with the syntax error of [strconv.ParseInt] on the empty
    string; a member that is absent from a JSON object reads as nil and is
    refused as not being a string, the body left consumed. *)
Theorem missing_input_by_source (r : Firewall.ExtendedRequest) (key : string) :
  Firewall.err r = None ->
  (formValue (Firewall.Request_ r) key = "" ->
   fst (Firewall.GetFormInput_WithErr [key] r) =
     ("", Some (errorString "Invalid form-data parameters"))) /\
  (Vars (Firewall.Request_ r) !! key = None ->
   Firewall.GetURLInput_WithErr [key] r = (("", None), r) /\
   Firewall.GetURLInputInt64_WithErr [key] r =
     ((0, Some (NumError "ParseInt" "" ErrSyntax)),
      Firewall.set_err (Some (NumError "ParseInt" "" ErrSyntax)) r)) /\
  (forall m rest,
     Decode (Body (Firewall.Request_ r)) = (inl (Object m), rest) ->
     m !! key = None ->
     Firewall.GetJSONInput (Some r) [key] =
       (("", Some (Errorf "JSON parse fail. Unable to cast result to string: %[1]v (%[1]T)"
                     [OpValue Nil])),
        Some (Firewall.set_Request (set_Body rest (Firewall.Request_ r)) r))).
Proof.
  intros Hr. split; [|split].
  - intros Hempty. unfold Firewall.GetFormInput_WithErr, Firewall.getInput_WithErr_Helper,
      Firewall.GetFormInput.
    rewrite Hr, Request_FormValue_eq, Hempty. reflexivity.
  - intros Hnone.
    assert (Hurl : Firewall.GetURLInput_WithErr [key] r = (("", None), r)).
    { unfold Firewall.GetURLInput_WithErr, Firewall.getInput_WithErr_Helper, Firewall.GetURLInput,
        muxVar. rewrite Hr, Hnone. reflexivity. }
    split; [exact Hurl|].
    unfold Firewall.GetURLInputInt64_WithErr, Firewall.getInputInt64_WithErr_Helper.
    unfold Firewall.GetURLInput_WithErr in Hurl. rewrite Hurl. reflexivity.
  - intros m rest Hdec Hnone. unfold Firewall.GetJSONInput. cbn [length Nat.ltb Nat.leb].
    rewrite Hdec. cbn [Firewall.descend]. rewrite Hnone. reflexivity.
Qed.

(** X1. An int64 lookup on a source that holds the decimal text of an
    integer returns that integer when it fits 64 bits signed, with the
    request as the getter left it; when it does not fit, the call returns
    zero, not the bound [ParseInt] clamps to, together with the range
    error that quotes the text, and leaves that error in the slot. Whatever
    the source holds, the integer returned is an int64. *)
Theorem int64_lookup_reads_decimal_text (getInputFn : Firewall.getInputFnType)
    (args : list string) (r r1 : Firewall.ExtendedRequest) (z : Z) :
  Firewall.err r = None ->
  getInputFn (Some r) args = ((decimal z, None), Some r1) ->
  Firewall.getInputInt64_WithErr_Helper getInputFn args r =
    (if (minInt64 <=? z) && (z <=? maxInt64) then ((z, None), r1)
     else ((0, Some (rangeError "ParseInt" (decimal z))),
           Firewall.set_err (Some (rangeError "ParseInt" (decimal z))) r1)) /\
  forall getInputFn' args' r',
    minInt64 <= fst (fst (Firewall.getInputInt64_WithErr_Helper getInputFn' args' r')) <= maxInt64.
Proof.
  intros Hr Hget. split.
  - unfold Firewall.getInputInt64_WithErr_Helper, Firewall.getInput_WithErr_Helper.
    rewrite Hr, Hget. cbn [default]. rewrite ParseInt_decimal.
    destruct (Z.ltb_spec z minInt64); destruct (Z.leb_spec minInt64 z); try lia; cbn [andb];
      [reflexivity|].
    destruct (Z.ltb_spec maxInt64 z); destruct (Z.leb_spec z maxInt64); try lia; reflexivity.
  - intros fn args' r'. unfold Firewall.getInputInt64_WithErr_Helper.
    destruct (Firewall.getInput_WithErr_Helper fn args' r') as [[val [e|]] r2]; cbn [fst].
    + unfold minInt64, maxInt64. lia.
    + pose proof (ParseInt_range val) as Hrange.
      destruct (ParseInt val) as [n [e|]]; cbn [fst] in *; [unfold minInt64, maxInt64; lia|].
      exact Hrange.
Qed.
End LookupSources.
(** ** The firewall and its backends *)
Section Backends.
Context `{X : Externals}.

End Backends.
(** ** The session key at start-up *)
Section SessionKey.
Context `{S : StartupExternals}.

Lemma hex_byte (v : byte) :
  let n := N_of_ascii (ascii_of_byte v) in
  reverseHexTable (hexChar (N.shiftr n 4)) = Some (N.shiftr n 4) /\
  reverseHexTable (hexChar (N.land n 15)) = Some (N.land n 15) /\
  byte_of_ascii (ascii_of_N (N.lor (N.shiftl (N.shiftr n 4) 4) (N.land n 15))) = v.
Proof. destruct v; vm_compute; repeat split. Qed.

(** Decoding undoes encoding. *)
Lemma DecodeString_EncodeToString (src : list byte) :
  DecodeString (EncodeToString src) = (src, None).
Proof.
  induction src as [|v src IH]; [reflexivity|].
  cbn [EncodeToString DecodeString]. cbv zeta.
  destruct (hex_byte v) as (Hhi & Hlo & Hv). cbv zeta in Hhi, Hlo, Hv.
  rewrite Hhi, Hlo, IH, Hv. reflexivity.
Qed.

(** X16. The service starts only with a session key: [init] returns
    normally exactly when the logger and the ceremony library come up,
    SESSION_KEY is the hex text of at least
    [session.DefaultEncryptionKeyLength] bytes, and the session store
    accepts those bytes; an unset variable is a key of length zero. And
    the line [genSessionKey] prints is one that [init] accepts: decoding
    undoes its encoding, so that a key of the default length reaches
    [session.NewStore] byte for byte. *)
Theorem session_key_is_required_and_round_trips (env : gmap string string) :
  (forall api store,
     Startup.init env = inl (api, store) <->
     log_NewConsole = None /\
     webauthn_New "Foobar Corp." "localhost" Main.frontendAddress = inl api /\
     exists key,
       DecodeString (Getenv env "SESSION_KEY") = (key, None) /\
       (DefaultEncryptionKeyLength <= length key)%nat /\
       session_NewStore key = inl store) /\
  (env !! "SESSION_KEY" = None -> (0 < DefaultEncryptionKeyLength)%nat ->
   forall api store, Startup.init env <> inl (api, store)) /\
  (forall line,
     Startup.genSessionKey = inl line ->
     exists key,
       session_GenerateSecureKey DefaultEncryptionKeyLength = inl key /\
       line = "export SESSION_KEY=" +:+ EncodeToString key +:+ String (ascii_of_nat 10) "" /\
       DecodeString (EncodeToString key) = (key, None) /\
       forall api store,
         log_NewConsole = None ->
         webauthn_New "Foobar Corp." "localhost" Main.frontendAddress = inl api ->
         (DefaultEncryptionKeyLength <= length key)%nat ->
         session_NewStore key = inl store ->
         Startup.init (<["SESSION_KEY" := EncodeToString key]> env) = inl (api, store)).
Proof.
  assert (Hiff : forall env api store,
     Startup.init env = inl (api, store) <->
     log_NewConsole = None /\
     webauthn_New "Foobar Corp." "localhost" Main.frontendAddress = inl api /\
     exists key,
       DecodeString (Getenv env "SESSION_KEY") = (key, None) /\
       (DefaultEncryptionKeyLength <= length key)%nat /\
       session_NewStore key = inl store).
  { clear env. intros env api store. unfold Startup.init.
    change ENV_SESSION_KEY with "SESSION_KEY".
    destruct log_NewConsole as [e|]; [split; [discriminate | intros (H & _); discriminate]|].
    destruct (webauthn_New "Foobar Corp." "localhost" Main.frontendAddress) as [a|e];
      [|split; [discriminate | intros (_ & H & _); discriminate]].
    destruct (DecodeString (Getenv env "SESSION_KEY")) as [key [e|]];
      [split; [discriminate | intros (_ & _ & k & H & _); discriminate]|].
    destruct (Nat.ltb_spec (length key) DefaultEncryptionKeyLength) as [Hshort|Hlong].
    { split; [discriminate|]. intros (_ & _ & k & [= <-] & Hlen & _). lia. }
    destruct (session_NewStore key) as [st|e] eqn:Hst.
    - split.
      + intros [= <- <-]. split; [reflexivity|]. split; [reflexivity|]. exists key. auto.
      + intros (_ & [= <-] & k & [= <-] & _ & Hs). congruence.
    - split; [discriminate|]. intros (_ & _ & k & [= <-] & _ & Hs). congruence. }
  split; [exact (Hiff env)|]. split.
  - intros Hunset Hpos api store Hinit. apply Hiff in Hinit.
    destruct Hinit as (_ & _ & key & Hdec & Hlen & _).
    unfold Getenv in Hdec. rewrite Hunset in Hdec. cbn in Hdec. injection Hdec as <-.
    cbn in Hlen. lia.
  - intros line. unfold Startup.genSessionKey. change ENV_SESSION_KEY with "SESSION_KEY".
    destruct (session_GenerateSecureKey DefaultEncryptionKeyLength) as [key|e]; [|discriminate].
    intros [= <-]. exists key. split; [reflexivity|]. split; [reflexivity|].
    split; [apply DecodeString_EncodeToString|].
    intros api store Hlog Hapi Hlen Hstore. apply Hiff.
    split; [exact Hlog|]. split; [exact Hapi|]. exists key.
    unfold Getenv. rewrite lookup_insert_eq. cbn [from_option id].
    rewrite DecodeString_EncodeToString. auto.
Qed.
End SessionKey.
(** ** Ceremony offers *)
Section CeremonyOffers.
Context `{X : Externals}.

Lemma not_grown {A} (l : list A) (x : A) : l <> (l ++ [x])%list.
Proof. intros H. apply (f_equal (@length A)) in H. rewrite length_app in H. cbn in H. lia. Qed.

Lemma grown_inj {A} (l : list A) (x y : A) : (l ++ [x])%list = (l ++ [y])%list -> x = y.
Proof. intros H. apply app_inv_head in H. congruence. Qed.

Ltac no_offer :=
  split;
  [ intros Hw; exfalso;
    first [ exact (not_grown _ _ Hw) | apply grown_inj in Hw; discriminate Hw ]
  | intros (? & ? & ? & ? & ? & ? & ? & ? & ?); congruence ].

(** What [beginAttestation_base] writes: the encoded options exactly when
    it has an offer to make. *)
Lemma Main_base_offers (q : WebauthnQuery) (ext : AuthenticationExtensions) (s : State)
    (json : list byte) :
  written (resp (run (Main.beginAttestation_base q ext) s)) = (written (resp s) ++ [Bytes json])%list
  <-> offers (store s) q ext (req s) json.
Proof.
  unfold Main.beginAttestation_base, offers. hunfold. cbn.
  destruct (IsUserEnabled (store s) q) eqn:Hen; cbn.
  2:{ unfold WriteHeader. destruct (status (resp s)); cbn; no_offer. }
  destruct (GetWebauthnUser (store s) q) as [wuser|e] eqn:Hu; cbn.
  2:{ unfold http_Error, Write, WriteHeader, Header_Set. cbn.
      destruct (status (resp s)); cbn; no_offer. }
  destruct (BeginLogin wuser) as [[options sd]|e] eqn:Hb; cbn.
  2:{ unfold http_Error, Write, WriteHeader, Header_Set. cbn. destruct (status (resp s)); cbn.
      all: split; [intros Hw; apply grown_inj in Hw; discriminate Hw|].
      all: intros (w' & o' & sd' & c' & _ & Hu' & Hb' & _).
      all: assert (w' = wuser) by congruence; subst w'; congruence. }
  destruct (Marshal_request options ext) as [j|e] eqn:Hm; cbn.
  2:{ unfold http_Error, Write, WriteHeader, Header_Set. cbn. destruct (status (resp s)); cbn.
      all: split; [intros Hw; apply grown_inj in Hw; discriminate Hw|].
      all: intros (w' & o' & sd' & c' & _ & Hu' & Hb' & Hm' & _).
      all: assert (w' = wuser) by congruence; subst w'.
      all: assert (o' = options) by congruence; subst o'; congruence. }
  destruct (SaveWebauthnSession "authentication" sd (req s)) as [cookie|e] eqn:Hsv; cbn.
  - unfold Write, WriteHeader, Header_Set. cbn. destruct (status (resp s)); cbn.
    all: split; [intros Hw; apply grown_inj in Hw; injection Hw as <-;
                 exists wuser, options, sd, cookie; auto|].
    all: intros (w' & o' & sd' & c' & _ & Hu' & Hb' & Hm' & _).
    all: assert (w' = wuser) by congruence; subst w'.
    all: assert (o' = options) by congruence; subst o'.
    all: do 3 f_equal; congruence.
  - unfold http_Error, Write, WriteHeader, Header_Set. cbn. destruct (status (resp s)); cbn.
    all: split; [intros Hw; apply grown_inj in Hw; discriminate Hw|].
    all: intros (w' & o' & sd' & c' & _ & Hu' & Hb' & Hm' & Hsv').
    all: assert (w' = wuser) by congruence; subst w'.
    all: assert (sd' = sd) by congruence; subst sd'; congruence.
Qed.

Lemma Legacy_base_eq (q : WebauthnQuery) (ext : AuthenticationExtensions) (s : State) :
  Legacy.beginAttestation_base q ext s =
    Main.beginAttestation_base q ext
      {| resp := Header_Set "Access-Control-Allow-Credentials" "true" (resp s);
         req := req s; store := store s; calls := calls s |}.
Proof. reflexivity. Qed.

Lemma Legacy_base_offers (q : WebauthnQuery) (ext : AuthenticationExtensions) (s : State)
    (json : list byte) :
  written (resp (run (Legacy.beginAttestation_base q ext) s)) =
    (written (resp s) ++ [Bytes json])%list
  <-> offers (store s) q ext (req s) json.
Proof.
  unfold run. rewrite Legacy_base_eq.
  exact (Main_base_offers q ext
           {| resp := Header_Set "Access-Control-Allow-Credentials" "true" (resp s);
              req := req s; store := store s; calls := calls s |} json).
Qed.

(** X17. Begin-attestation and begin-login, in either generation, answer
    with encoded ceremony options exactly when they have an offer to make:
    the account (the session's user for an attestation, the user the form
    names for a login) has a second factor enabled and is on record, the
    library begins a login for it, and the session is saved. The options
    of an attestation carry, as the one extension [txAuthSimple], exactly
    the text the request asked for in [auth_text]; those of a login carry
    no extensions at all. *)
Theorem offer_carries_the_requested_text (r : Request) (db : DB) (json : list byte) :
  (written (resp (run Main.beginAttestation (fresh r db))) = [Bytes json] <->
   exists userID,
     session2user session2userURL (Cookies r) = inl (true, userID) /\
     formValue r "auth_text" <> "" /\
     offers db (QueryByUserID userID) (txAuthSimple (formValue r "auth_text")) (ensureForm r) json) /\
  (written (resp (run Legacy.beginAttestation (fresh r db))) = [Bytes json] <->
   exists userID,
     session2user legacySession2userURL (Cookies r) = inl (true, userID) /\
     formValue r "auth_text" <> "" /\
     offers db (QueryByUserID userID) (txAuthSimple (formValue r "auth_text")) (ensureForm r) json) /\
  (written (resp (run Main.beginLogin (fresh r db))) = [Bytes json] <->
   formValue r "user_name" <> "" /\
   offers db (QueryByUsername (formValue r "user_name")) None (ensureForm r) json) /\
  (written (resp (run Legacy.beginLogin (fresh r db))) = [Bytes json] <->
   formValue r "user_name" <> "" /\
   offers db (QueryByUsername (formValue r "user_name")) None (ensureForm r) json).
Proof.
  split; [|split; [|split]].
  - unfold Main.beginAttestation, Main.preamble, Main.prepareJSONResponse. hunfold.
    change (Main.backendAddress +:+ "/server_context/session2user") with session2userURL.
    cbn. destruct (session2user session2userURL (Cookies r)) as [[[] userID]|e] eqn:Hwho; cbn;
      try solve [split; [discriminate | intros (u & Hw & _); congruence]].
    rewrite FormValue_eq. cbn.
    destruct (String.eqb_spec (formValue r "auth_text") "") as [|Ht]; cbn;
      [split; [discriminate | intros (u & _ & H & _); contradiction]|].
    match goal with |- context [Main.beginAttestation_base ?q ?ext ?s] =>
      pose proof (Main_base_offers q ext s json) as Hbase
    end.
    unfold run in Hbase. cbn [resp req store written app] in Hbase. rewrite Hbase.
    split; [intros Ho; exists userID; auto|].
    intros (u & Hw & _ & Ho). injection Hw as <-. exact Ho.
  - unfold Legacy.beginAttestation, Legacy.preamble. hunfold.
    change (Legacy.backendAddress +:+ "/user/session2user") with legacySession2userURL.
    cbn. destruct (session2user legacySession2userURL (Cookies r)) as [[[] userID]|e] eqn:Hwho;
      cbn; try solve [split; [discriminate | intros (u & Hw & _); congruence]].
    rewrite FormValue_eq. cbn.
    destruct (String.eqb_spec (formValue r "auth_text") "") as [|Ht]; cbn;
      [split; [discriminate | intros (u & _ & H & _); contradiction]|].
    match goal with |- context [Legacy.beginAttestation_base ?q ?ext ?s] =>
      pose proof (Legacy_base_offers q ext s json) as Hbase
    end.
    unfold run in Hbase. cbn [resp req store written app] in Hbase. rewrite Hbase.
    split; [intros Ho; exists userID; auto|].
    intros (u & Hw & _ & Ho). injection Hw as <-. exact Ho.
  - unfold Main.beginLogin, Main.preamble, Main.prepareJSONResponse. hunfold. cbn.
    rewrite FormValue_eq. cbn.
    destruct (String.eqb_spec (formValue r "user_name") "") as [|Hu]; cbn;
      [split; [discriminate | intros (H & _); contradiction]|].
    match goal with |- context [Main.beginAttestation_base ?q ?ext ?s] =>
      pose proof (Main_base_offers q ext s json) as Hbase
    end.
    unfold run in Hbase. cbn [resp req store written app] in Hbase. rewrite Hbase. tauto.
  - unfold Legacy.beginLogin, Legacy.preamble. hunfold. cbn.
    rewrite FormValue_eq. cbn.
    destruct (String.eqb_spec (formValue r "user_name") "") as [|Hu]; cbn;
      [split; [discriminate | intros (H & _); contradiction]|].
    match goal with |- context [Legacy.beginAttestation_base ?q ?ext ?s] =>
      pose proof (Legacy_base_offers q ext s json) as Hbase
    end.
    unfold run in Hbase. cbn [resp req store written app] in Hbase. rewrite Hbase. tauto.
Qed.
End CeremonyOffers.
(** ** What the answers are labelled as *)
Section AnswerLabels.
Context `{X : Externals} `{V : ServerExternals}.

Ltac branch :=
  repeat first
    [ rewrite FormValue_eq
    | progress (cbv delta [Main.beginAttestation_base Legacy.beginAttestation_base]; hunfold)
    | progress cbn
    | match goal with
      | |- context [match ?x with _ => _ end] =>
          lazymatch x with
          | context [match _ with _ => _ end] => fail
          | _ => destruct x
          end
      end ].

Ltac label :=
  cbv delta [Main.beginRegister Main.finishRegister Main.beginLogin Main.beginAttestation
             Main.webauthnIsEnabled Legacy.beginRegister Legacy.finishRegister Legacy.beginLogin
             Legacy.beginAttestation Legacy.webauthnIsEnabled Legacy.disableWebauthn
             Main.preamble Main.prepareJSONResponse Legacy.preamble];
  hunfold; branch; unfold labelled; cbn; repeat split.

(** A declared content type is the one sent. *)
Lemma contentTypeSent_declared (w : ResponseWriter) (t : string) :
  wheader w !! "Content-Type" = Some t -> contentTypeSent w = Some t.
Proof. intros H. unfold contentTypeSent. rewrite H. reflexivity. Qed.

(** X19. The JSON endpoints label every answer: whatever the request and
    whatever the collaborators do, begin-register, finish-register,
    begin-login, begin-attestation and the enabled-flag query, in both
    generations, and the earlier disable-webauthn send an error line as
    plain text and anything else as [application/json]. The newer
    disable-webauthn is the exception: on the answer that tells the page
    to reload it declares no content type, so that the answer goes out
    with the type the server detects from its body where the earlier
    generation sent [application/json], and it does not set the allowed
    origin, which the earlier generation did. *)
Theorem json_endpoints_label_their_answers (r : Request) (db : DB) :
  (labelled (resp (run Main.beginRegister (fresh r db))) /\
   labelled (resp (run Main.finishRegister (fresh r db))) /\
   labelled (resp (run Main.beginLogin (fresh r db))) /\
   labelled (resp (run Main.beginAttestation (fresh r db))) /\
   labelled (resp (run Main.webauthnIsEnabled (fresh r db)))) /\
  (labelled (resp (run Legacy.beginRegister (fresh r db))) /\
   labelled (resp (run Legacy.finishRegister (fresh r db))) /\
   labelled (resp (run Legacy.beginLogin (fresh r db))) /\
   labelled (resp (run Legacy.beginAttestation (fresh r db))) /\
   labelled (resp (run Legacy.webauthnIsEnabled (fresh r db))) /\
   labelled (resp (run Legacy.disableWebauthn (fresh r db)))) /\
  (let newer := resp (run Main.disableWebauthn (fresh r db)) in
   let earlier := resp (run Legacy.disableWebauthn (fresh r db)) in
   (forall body,
      written earlier = [Bytes body] -> contentTypeSent earlier = Some "application/json") /\
   wheader earlier !! "Access-Control-Allow-Origin" = Some Legacy.frontendAddress /\
   (forall body,
      written newer = [Bytes body] ->
      body = fst redirectTo_json /\
      contentTypeSent newer = Some (DetectContentType body) /\
      wheader newer !! "Access-Control-Allow-Origin" = None)).
Proof.
  split; [|split].
  - split; [label|]. split; [label|].
    split; [label|]. split; [label|].
    label.
  - split; [label|]. split; [label|].
    split; [label|]. split; [label|].
    split; [label|]. label.
  - cbv zeta. split; [|split].
    + intros body Hw. apply contentTypeSent_declared.
      assert (HL : labelled (resp (run Legacy.disableWebauthn (fresh r db)))) by label.
      unfold labelled in HL. rewrite Hw in HL. exact HL.
    + unfold Legacy.disableWebauthn, Legacy.preamble. hunfold. branch; reflexivity.
    + intros body.
      unfold Main.disableWebauthn, Main.preamble. hunfold. cbn.
      destruct (session2user _ (Cookies r)) as [[[] userID]|e]; cbn; try discriminate.
      rewrite FormValue_eq. cbn.
      destruct (String.eqb (formValue r "assertion") ""); cbn; [discriminate|].
      destruct (GetWebauthnUser db (QueryByUserID userID)) as [wuser|e]; cbn; [|discriminate].
      match goal with |- context [Main.checkWebauthnAssertion ?q ?E ?a ?s] =>
        destruct (checkWebauthnAssertion_exact q E a s) as (res & new & -> & _)
      end.
      cbn. destruct res as [e|]; cbn; [discriminate|].
      intros [= <-]. repeat split.
Qed.
End AnswerLabels.

(** ** The user id of a bearer token *)
Section BearerToken.
Context `{J : JWTExternals}.

Lemma Split_nonempty (s : string) (sep : ascii) : Split s sep <> [].
Proof.
  induction s as [|c s IH]; cbn [Split]; [discriminate|].
  destruct (Ascii.eqb c sep); [discriminate|]. destruct (Split s sep); [contradiction | discriminate].
Qed.

Lemma Split_spaceless (s : string) : spaceless s = true -> Split s " " = [s].
Proof.
  induction s as [|c s IH]; cbn [spaceless Split]; [reflexivity|].
  intros H. apply andb_prop in H as [Hc Hs]. apply negb_true_iff in Hc.
  rewrite Hc, (IH Hs). reflexivity.
Qed.

Lemma Split_at_space (s t : string) :
  spaceless s = true -> Split (s +:+ String " " t) " " = s :: Split t " ".
Proof.
  induction s as [|c s IH]; intros H.
  - reflexivity.
  - cbn [spaceless] in H. apply andb_prop in H as [Hc Hs]. apply negb_true_iff in Hc.
    change (String c s +:+ String " " t) with (String c (s +:+ String " " t)).
    cbn [Split]. rewrite Hc, (IH Hs). reflexivity.
Qed.

Lemma Split_single (s : string) (piece : string) :
  Split s " " = [piece] -> spaceless s = true.
Proof.
  revert piece. induction s as [|c s IH]; intros piece; cbn [Split spaceless]; [reflexivity|].
  destruct (Ascii.eqb c " ") eqn:Hc.
  - intros [= _ H]. exfalso. exact (Split_nonempty s " " H).
  - destruct (Split s " ") as [|p [|q l]] eqn:Hs; cbn.
    + intros _. exfalso. exact (Split_nonempty s " " Hs).
    + intros _. exact (IH p eq_refl).
    + discriminate.
Qed.

Lemma Split_head (s : string) :
  exists piece pieces, Split s " " = piece :: pieces.
Proof.
  destruct (Split s " ") as [|p l] eqn:H; [destruct (Split_nonempty s " " H) | eauto].
Qed.

(** X20. [userIDFromJWT] panics (index out of range) exactly when the
    Authorization field holds no space, an absent field included.  When the
    field is a word, a space, a second word and then nothing or a space and
    anything, the parser is handed the second word, whatever the first word
    is: its error is returned with 0; with claims whose id is a number the
    result is that number converted, and with any other claims the fixed
    error with 0. *)
Theorem bearer_token_is_the_second_word (r : Request) :
  let authorization := Header_Get r "Authorization" in
  ((exists msg, userIDFromJWT r = Panics msg) <-> spaceless authorization = true) /\
  (forall scheme token rest,
     authorization = scheme +:+ String " " (token +:+ rest) ->
     spaceless scheme = true ->
     spaceless token = true ->
     rest = EmptyString \/ (exists after, rest = String " " after) ->
     userIDFromJWT r =
       Returns
         match ParseUnverified token with
         | inr err => (0, Some err)
         | inl claims =>
             match claims !! "id" with
             | Some (ClaimNumber userID) => (int64_of_float64 userID, None)
             | _ => (0, Some (errorString "Unable to decode userID from JWT token"))
             end
         end).
Proof.
  cbv zeta. split; [split|].
  - intros [msg H]. unfold userIDFromJWT in H.
    destruct (Split (Header_Get r "Authorization") " ") as [|p [|q l]] eqn:Hs.
    + destruct (Split_nonempty _ _ Hs).
    + exact (Split_single _ _ Hs).
    + destruct (ParseUnverified q) as [claims|e]; [|discriminate].
      destruct (claims !! "id") as [[]|]; discriminate.
  - intros H. unfold userIDFromJWT. rewrite (Split_spaceless _ H). eauto.
  - intros scheme token rest Hh Hscheme Htoken Hrest.
    unfold userIDFromJWT. rewrite Hh, (Split_at_space scheme _ Hscheme).
    assert (exists l, Split (token +:+ rest) " " = token :: l) as [l ->].
    { destruct Hrest as [-> | [after ->]].
      - rewrite (Split_spaceless (token +:+ "")).
        + exists []. f_equal. clear. induction token as [|c t IH]; [reflexivity|].
          change (String c t +:+ "") with (String c (t +:+ "")). now rewrite IH.
        + clear - Htoken. induction token as [|c t IH]; [reflexivity|].
          change (String c t +:+ "") with (String c (t +:+ "")).
          cbn [spaceless] in *. apply andb_prop in Htoken as [-> Ht]. now rewrite (IH Ht).
      - rewrite (Split_at_space token _ Htoken). eauto. }
    destruct (ParseUnverified token) as [claims|e]; [|reflexivity].
    destruct (claims !! "id") as [[]|]; reflexivity.
Qed.
End BearerToken.

Section BearerTokenExample.
#[local] Existing Instance jwtWorld.

Lemma bearer_token_is_the_second_word_witness :
  userIDFromJWT bearerRequest = Returns (7, None).
Proof.
  exact (proj2 (bearer_token_is_the_second_word bearerRequest)
           "Bearer" "e30.eyJpZCI6N30." " trailing"
           eq_refl eq_refl eq_refl (or_intror (ex_intro _ "trailing" eq_refl))).
Defined.
End BearerTokenExample.

(** ** The further properties at work in the reference world *)
Section FurtherExamples.
#[local] Existing Instance Ref.world.

(** The largest int64 as a URL variable. *)
Lemma int64_lookup_reads_decimal_text_witness :
  Firewall.GetURLInputInt64_WithErr ["id"] FirewallExamples.largestID =
    ((9223372036854775807, None), FirewallExamples.largestID) /\
  fst (Firewall.GetURLInputInt64_WithErr ["id"] FirewallExamples.tooLargeID) =
    (0, Some (NumError "ParseInt" "9223372036854775808" ErrRange)).
Proof.
  split.
  - exact (proj1 (int64_lookup_reads_decimal_text Firewall.GetURLInput ["id"]
                    FirewallExamples.largestID FirewallExamples.largestID
                    9223372036854775807 eq_refl eq_refl)).
  - exact (f_equal fst
             (proj1 (int64_lookup_reads_decimal_text Firewall.GetURLInput ["id"]
                       FirewallExamples.tooLargeID FirewallExamples.tooLargeID
                       9223372036854775808 eq_refl eq_refl))).
Defined.

(** The registration of alice, id 7, is begun. *)
Lemma registration_begins_for_posted_identity_witness :
  let s' := run Main.beginRegister (fresh Examples.registerAlice Examples.db0) in
  run Legacy.beginRegister (fresh Examples.registerAlice Examples.db0) = s' /\
  status (resp s') = Some StatusOK /\
  written (resp s') = [Bytes (list_byte_of_string "creation-options")] /\
  wheader (resp s') !! "Set-Cookie" = Some "registration=challenge-alice".
Proof.
  assert (Hu : formValue Examples.registerAlice "username" <> "") by (vm_compute; discriminate).
  assert (Hid : formValue Examples.registerAlice "userID" = decimal 7) by (vm_compute; reflexivity).
  assert (Hz : minInt64 <= 7 <= maxInt64) by (unfold minInt64, maxInt64; lia).
  destruct (registration_begins_for_posted_identity Examples.registerAlice Examples.db0 7 Hu Hid Hz)
    as (Hagree & _ & _ & Hrest).
  split; [exact Hagree|]. cbn in Hrest. destruct Hrest as (_ & Hst & Hw & Hc & _).
  split; [exact Hst|]. split; [exact Hw | exact Hc].
Defined.
End FurtherExamples.

Section FurtherExamples2.
#[local] Existing Instance Ref.world.

(** A request without cookies is turned away by disable-webauthn. *)
Lemma unrecognised_session_is_turned_away_witness :
  let e := errorString "Unable to retrieve the userID for this cookie session" in
  sessionError (session2user session2userURL (Cookies Examples.strangerDisables)) = Some e /\
  turnedAwayAtSession session2userURL e Examples.strangerDisables Examples.db0
    (run Main.disableWebauthn (fresh Examples.strangerDisables Examples.db0)) /\
  turnedAwayAtSession legacySession2userURL e Examples.strangerDisables Examples.db0
    (run Legacy.disableWebauthn (fresh Examples.strangerDisables Examples.db0)).
Proof.
  set (e := errorString "Unable to retrieve the userID for this cookie session").
  assert (H : sessionError (session2user session2userURL (Cookies Examples.strangerDisables)) =
              Some e) by reflexivity.
  assert (H' : sessionError (session2user legacySession2userURL
                               (Cookies Examples.strangerDisables)) = Some e) by reflexivity.
  split; [exact H|]. split.
  - exact (proj1 (proj2 (proj1 (unrecognised_session_is_turned_away
                                  Examples.strangerDisables Examples.db0 e) H))).
  - exact (proj1 (proj2 (proj2 (unrecognised_session_is_turned_away
                                  Examples.strangerDisables Examples.db0 e) H'))).
Defined.

(** The deletion of an SSH key whose form lacks the title: three lookups,
    one error. *)
Lemma first_input_error_wins_witness :
  let ops := [FormLookup ["title"]; FormInt64Lookup ["id"]; URLLookup ["id"]] in
  let e := errorString "Invalid form-data parameters" in
  fst (performAll ops FirewallExamples.deleteKey) = [Some e; Some e; Some e] /\
  Firewall.err (snd (performAll ops FirewallExamples.deleteKey)) = Some e.
Proof.
  cbv zeta.
  pose proof (proj2 (first_input_error_wins
                       [FormLookup ["title"]; FormInt64Lookup ["id"]; URLLookup ["id"]]
                       FirewallExamples.deleteKey) eq_refl) as H.
  assert (Hes : fst (performAll [FormLookup ["title"]; FormInt64Lookup ["id"]; URLLookup ["id"]]
                       FirewallExamples.deleteKey) =
                [Some (errorString "Invalid form-data parameters");
                 Some (errorString "Invalid form-data parameters");
                 Some (errorString "Invalid form-data parameters")])
    by (vm_compute; reflexivity).
  split; [exact Hes|].
  destruct (performAll _ FirewallExamples.deleteKey) as [es r']. cbn [fst snd] in *.
  destruct H as [H _]. rewrite H, Hes. reflexivity.
Defined.

(** The same request: the form has no title, the URL no variable. *)
Lemma missing_input_by_source_witness :
  fst (Firewall.GetFormInput_WithErr ["title"] FirewallExamples.deleteKey) =
    ("", Some (errorString "Invalid form-data parameters")) /\
  Firewall.GetURLInput_WithErr ["id"] FirewallExamples.deleteKey =
    (("", None), FirewallExamples.deleteKey).
Proof.
  pose proof (missing_input_by_source FirewallExamples.deleteKey "title" eq_refl) as [Hform _].
  pose proof (missing_input_by_source FirewallExamples.deleteKey "id" eq_refl) as [_ [Hurl _]].
  split; [apply Hform; reflexivity | apply Hurl; reflexivity].
Defined.

(** The lookup of the repository id leaves the request as it was. *)
Lemma lookups_can_be_repeated_witness :
  let res := Firewall.getInput_WithErr_Helper Firewall.GetJSONInput ["repo"; "id"]
               FirewallExamples.repoRequest in
  fst res = ("9007199254740993", None) /\ snd res = FirewallExamples.repoRequest.
Proof.
  cbv zeta.
  assert (H : Firewall.getInput_WithErr_Helper Firewall.GetJSONInput ["repo"; "id"]
                FirewallExamples.repoRequest =
              (("9007199254740993", None),
               snd (Firewall.getInput_WithErr_Helper Firewall.GetJSONInput ["repo"; "id"]
                      FirewallExamples.repoRequest)))
    by (vm_compute; reflexivity).
  split; [rewrite H; reflexivity|].
  exact (proj1 (lookups_can_be_repeated FirewallExamples.repoRequest ["repo"; "id"] "" "")
           _ _ eq_refl H).
Defined.

End FurtherExamples2.

Section StartupExample.
#[local] Existing Instance startupWorld.

(** With the key that [genSessionKey] prints in the environment, start-up
    goes through and the session store gets the 32 bytes. *)
Lemma session_key_is_required_and_round_trips_witness :
  Startup.genSessionKey =
    inl ("export SESSION_KEY=" +:+ EncodeToString (List.repeat "*"%byte 32) +:+
         String (ascii_of_nat 10) "") /\
  Startup.init {[ "SESSION_KEY" := EncodeToString (List.repeat "*"%byte 32) ]} =
    inl ("https://localhost:8081", List.repeat "*"%byte 32) /\
  Startup.init ∅ = inr (PanicShortKey 0 32).
Proof.
  split; [reflexivity|]. split; [|reflexivity].
  apply (proj2 (proj1 (session_key_is_required_and_round_trips (S := startupWorld)
                         {[ "SESSION_KEY" := EncodeToString (List.repeat "*"%byte 32) ]})
                  "https://localhost:8081" (List.repeat "*"%byte 32))).
  split; [reflexivity|]. split; [reflexivity|].
  exists (List.repeat "*"%byte 32). split; [vm_compute; reflexivity|].
  split; [vm_compute; lia | reflexivity].
Defined.
End StartupExample.

Section FurtherExamples3.
#[local] Existing Instance Ref.world.

(** alice disables her second factor with an assertion made for that:
    she is deleted from the store, and by the theorem her assertion passed
    the ceremony check for exactly the text that names her. *)
Lemma disable_deletes_exactly_after_bound_assertion_witness :
  store (run Main.disableWebauthn (fresh Examples.aliceDisables Examples.db0)) =
    [Ref.mkUser 8 "bob" false []] /\
  ceremonyPasses Examples.db0 (QueryByUserID 7)
    (txAuthSimple "Confirm disable webauthn for alice")
    (formValue Examples.aliceDisables "assertion") (ensureForm Examples.aliceDisables).
Proof.
  split; [vm_compute; reflexivity|].
  destruct (proj1 (disable_deletes_exactly_after_bound_assertion
                     Examples.aliceDisables Examples.db0))
    as [[(_ & Hst & _) _] | (u & w & (Hs & _ & Hg & Hp) & _)].
  - vm_compute in Hst. discriminate Hst.
  - vm_compute in Hs. injection Hs as <-. vm_compute in Hg. injection Hg as <-. exact Hp.
Defined.

(** carol's registration is finished: she is added to the store. *)
Lemma registration_stores_exactly_accepted_credential_witness :
  let s' := run Main.finishRegister (fresh Examples.finishRegisterCarol Examples.db0) in
  reloads (resp s') /\
  FinishRegistration (NewWebauthnUser 9 "carol" []) "challenge-carol" "challenge-carol" =
    inl "credential-of-carol" /\
  store s' = Create Examples.db0 (NewWebauthnUser 9 "carol" []) "credential-of-carol".
Proof.
  cbv zeta. split; [split; vm_compute; reflexivity|]. split; [reflexivity|].
  destruct (proj2 (proj2 (registration_stores_exactly_accepted_credential
                            Examples.finishRegisterCarol Examples.db0)))
    as [[(_ & Hst & _) _] | (u & sd & c & (_ & _ & Hid & Hsd & Hf) & Hst & _)].
  - vm_compute in Hst. discriminate Hst.
  - vm_compute in Hid. injection Hid as <-. vm_compute in Hsd. injection Hsd as <-.
    vm_compute in Hf. injection Hf as <-. exact Hst.
Defined.

(** alice adds a key named laptop: the request reaches the backend. *)
Lemma ssh_key_change_forwarded_exactly_when_granted_witness :
  forwardedOnce Examples.db0 (bodyBytes Examples.aliceAddsKey)
    (run Main.addSSHKey (fresh Examples.aliceAddsKey Examples.db0)) /\
  forwardedOnce Examples.db0 (bodyBytes Examples.aliceDeletesKey)
    (run Main.deleteSSHKey (fresh Examples.aliceDeletesKey Examples.db0)).
Proof.
  split.
  - destruct (proj1 (ssh_key_change_forwarded_exactly_when_granted
                       Examples.aliceAddsKey Examples.db0))
      as [[([H | H] & _) _] | [Hfw _]]; [vm_compute in H; discriminate H .. | exact Hfw].
  - destruct (proj2 (ssh_key_change_forwarded_exactly_when_granted
                       Examples.aliceDeletesKey Examples.db0))
      as [[([H | H] & _) _] | [Hfw _]]; [vm_compute in H; discriminate H .. | exact Hfw].
Defined.

(** alice deletes alice/site with the assertion made for it, in either
    generation. *)
Lemma repository_settings_forward_exactly_when_granted_witness :
  forwardedOnce Examples.db0 (bodyBytes Examples.deleteSite)
    (run Main.repoSettings (fresh Examples.deleteSite Examples.db0)) /\
  forwardedOnce Examples.db0 (bodyBytes Examples.deleteSite)
    (run Legacy.repoSettings (fresh Examples.deleteSite Examples.db0)).
Proof.
  split.
  - destruct (proj1 (repository_settings_forward_exactly_when_granted
                       Examples.deleteSite Examples.db0))
      as [[([H | H] & _) _] | [Hfw _]]; [vm_compute in H; discriminate H .. | exact Hfw].
  - destruct (proj2 (repository_settings_forward_exactly_when_granted
                       Examples.deleteSite Examples.db0))
      as [[([H | H] & _) _] | [Hfw _]]; [vm_compute in H; discriminate H .. | exact Hfw].
Defined.

(** alice logs in with an assertion that echoes no extensions. *)
Lemma login_forwarded_exactly_when_granted_witness :
  forwardedOnce Examples.db0 (bodyBytes (Examples.aliceLogsIn None))
    (run Main.finishLogin (fresh (Examples.aliceLogsIn None) Examples.db0)) /\
  ~ forwardedOnce Examples.db0 (bodyBytes (Examples.aliceLogsIn (Some "{}")))
      (run Main.finishLogin (fresh (Examples.aliceLogsIn (Some "{}")) Examples.db0)).
Proof.
  split.
  - destruct (proj2 (proj1 (login_forwarded_exactly_when_granted
                              (Examples.aliceLogsIn None) Examples.db0)))
      as [[([H | H] & _) _] | [Hfw _]]; [vm_compute in H; discriminate H .. | exact Hfw].
  - destruct (proj2 (proj1 (login_forwarded_exactly_when_granted
                              (Examples.aliceLogsIn (Some "{}")) Examples.db0)))
      as [[_ Hno] | [_ Hg]].
    + intros (_ & before & Hc & _). vm_compute in Hc.
      destruct before as [|? [|? [|? [|? [|? [|? ?]]]]]]; discriminate Hc.
    + exfalso. destruct Hg as (_ & _ & _ & [Hn | [_ Hext]]).
      * vm_compute in Hn. discriminate Hn.
      * vm_compute in Hext. discriminate Hext.
Defined.

(** alice asks for a ceremony over a text: the options go out. *)
Lemma offer_carries_the_requested_text_witness :
  offers Examples.db0 (QueryByUserID 7) (txAuthSimple "Confirm repository delete: alice/site")
    (ensureForm Examples.aliceAsksToConfirm) (list_byte_of_string "request-options").
Proof.
  destruct (proj1 (proj1 (offer_carries_the_requested_text Examples.aliceAsksToConfirm
                            Examples.db0 (list_byte_of_string "request-options")))
              ltac:(vm_compute; reflexivity))
    as (u & Hs & _ & Ho).
  vm_compute in Hs. injection Hs as <-. exact Ho.
Defined.
End FurtherExamples3.

Section FurtherExamples4.
#[local] Existing Instance Ref.world.

(** A form lookup with two keys on alice's key request: refused, the
    request as it was and the refusal in the slot. *)
Lemma malformed_lookup_is_refused_unread_witness :
  let r := FirewallExamples.extended Examples.aliceAddsKey in
  Firewall.GetFormInput (Some r) ["title"; "id"] =
    (("", Some (Errorf "Form inputs expect only 1 argument. Received: %v"
                  [OpStrings ["title"; "id"]])), Some r) /\
  Firewall.GetJSONInput (Some r) [] =
    (("", Some (Errorf "JSON inputs expect at least 1 argument. Received: %v" [OpStrings []])),
     Some r).
Proof.
  cbv zeta. split.
  - refine (proj1 (proj1 (proj2 (malformed_lookup_is_refused_unread
                                   (FirewallExamples.extended Examples.aliceAddsKey)
                                   ["title"; "id"])) _)).
    cbn. lia.
  - exact (proj2 (proj2 (malformed_lookup_is_refused_unread
                           (FirewallExamples.extended Examples.aliceAddsKey) [])) eq_refl).
Defined.
End FurtherExamples4.

Section AnswerLabelsExample.
#[local] Existing Instance Ref.world.
#[local] Existing Instance serverWorld.

(** alice disables her second factor: the answer of the newer handler
    declares no content type and goes out with the detected one, and it
    carries no allowed origin. *)
Lemma json_endpoints_label_their_answers_witness :
  let w := resp (run Main.disableWebauthn (fresh Examples.aliceDisables Examples.db0)) in
  reloads w /\
  contentTypeSent w = Some (DetectContentType (fst redirectTo_json)) /\
  wheader w !! "Access-Control-Allow-Origin" = None.
Proof.
  cbv zeta. split; [split; vm_compute; reflexivity|].
  destruct (proj2 (proj2 (proj2 (proj2 (json_endpoints_label_their_answers
                                          Examples.aliceDisables Examples.db0))))
              (fst redirectTo_json)) as (_ & H1 & H2).
  - vm_compute. reflexivity.
  - split; assumption.
Defined.
End AnswerLabelsExample.
